(* ===== verification/_CoqProject ===== *)
-Q . S2P
Prelude.v
Unicode.v
PyStr.v
PyInt.v
PyFloat.v
Scalar.v
PyDict.v
Frame.v
Normalizer.v
RankQuery.v
Presenter.v
Base64.v
Chart.v
Threads.v
Handler.v
Server.v
