(* ===== verification/Prelude.v ===== *)
(** * Verification of the stock-rank web form (src/app.py)

    ** The program

    src/app.py is a Flask application with one route.  A POST carries a
    stock code and a number of days.  The handler [index] checks the form,
    normalises a CSV table of daily scores ([process_table], which applies
    [process_header] to the column labels and [process_cell] to every cell
    and writes the result beside the source), loads the normalised table
    ([load_data]), computes the rank of the stock in each of the last N
    date columns ([query_stock_rank]), and answers with a chart of the
    ranks ([plot_rank_trend], a PNG image in base64) and their text
    ([generate_rank_text]).

    ** The files, in the order they are built

    - Prelude (this file): Python exceptions as values ([pyres], with the
      monad instances that give the notation [x ← m; k]), traversals that
      stop at the first exception ([mapM]), the tactics and the hint
      database of the development, and the list functions behind
      [str.strip].
    - Unicode: strings as lists of code points, string literals ([lit]),
      and the interface [UnicodeDB] of the character tables Python
      consults ([\d], [str.isdigit], [str.isspace]), with the tables of
      Unicode 14 and an ASCII-only instance.
    - PyStr: [str.replace], [str.strip], [str.isdigit], [str.zfill] and
      [re.match] for the pattern of [process_cell]; [replaced] and
      [matches_digits] are their specifications.
    - PyInt: [int(s)] and [str(n)], with their round trip.
    - PyFloat: [str(x)] for a float, by shortest round-trip digits.
    - Scalar: the interface [Scalar] of column values (comparison with
      missing values), the descending sort, and the position of a value in
      a sorted column against the count of greater values.
    - PyDict: dictionaries in insertion order.
    - Frame: the part of pandas [query_stock_rank] and [process_table]
      use: columns of three dtypes, [df[label]], boolean masks, [.empty],
      slices of the labels, ranks, [df.map]; the invariant [df_wf].
    - Normalizer: [process_header] (lines 20-22) and [process_cell]
      (25-31).
    - RankQuery: [query_stock_rank] (55-78), its specification
      [query_spec] and the refinement theorem.
    - Presenter: [generate_rank_text] (118-123) and a reader of its text.
    - Base64: [base64.b64encode] and a strict decoder.
    - Chart: pyplot's state as a record, its calls as state functions,
      the settings of lines 13-14, and [plot_rank_trend] (81-115).
    - Threads: the calls of [plot_rank_trend] as a list ([plot_calls]),
      run one by one on pyplot's state, and schedules of the calls of two
      requests handled by two threads.
    - Handler: the world of a request, [process_table] (34-46),
      [load_data] (49-52) and [index] (126-158) against the interface
      [Platform] of pandas' file functions; [os.path.splitext].
    - Server: sequences of requests as a step relation ([reachable]) and
      as a function ([serve]); invariants of the world and the interface
      [FileSystem] of the laws of the files.

    ** How the model corresponds to the code

    A Python function that can raise returns a [pyres]; a function with
    effects is a function on the state it changes (pyplot's state in
    Chart, the [world] in Handler).  Python strings are lists of code
    points, Python integers are [Z] (they are unbounded), floats are
    [spec_float] of the Standard Library, dictionaries are association
    lists in insertion order.  Each definition keeps the name of the
    function or call it models; loops are [Fixpoint]s named after what
    they do ([rank_loop], [text_loop], [annotate_loop]).  The models of
    the built-in functions were compared with CPython 3.11 on generated
    inputs.

    The built-in functions of Python are modelled where the program calls
    them, and a definition used at several calls stands for all of them:
    [str_replace] for [str.replace] at lines 22 and 28, [str_of_int] for
    the text of an integer at lines 27, 70, 91 and 122, and [float_repr]
    with [shortest] for [str(value)] at line 27 when the cell is a float
    (the digits CPython prints, which the repository only calls).

    Three interfaces stand for what is outside the program: [UnicodeDB]
    (character tables), [Renderer] (the PNG image of a figure) and
    [Platform] (pandas' CSV reader and writer over the files).  The
    theorems hold for every instance; the instances in the files
    ([unicode14_db], [null_renderer], [tally_renderer], [mem_platform])
    run the definitions on examples.

    Where the model stops short of the libraries: [print] and the calls of
    pyplot return normally (an output stream that fails, or a font that
    cannot be loaded, is not modelled); [df.map] is the method of pandas
    2.1 and later (on an older pandas the attribute is missing and
    [process_table] would report the error); [df.columns = labels] and
    [df[mask]] are given labels and masks of the right length in every
    use, where pandas raises on others and the model truncates.

    ** What the theorems show

    - Rank query: on a well-formed table [query_stock_rank] computes
      [query_spec], whose ranks are defined by counting
      ([query_stock_rank_refines]); each error path returns its message
      or raises as stated; ranks lie between 1 and the number of rows;
      the window is the last N date columns in order; a result has ranks
      or a message, never both.
    - Normaliser: identifiers become six-digit codes that read as the same
      number; integer cells keep their value, float cells their text;
      idempotence where it holds, and examples where it does not.
    - Presenter: the rank text can be read back; the chart is the figure
      [rank_figure], its base64 text decodes to the image, and pyplot is
      left as it was.
    - Handler: the order of the checks, the answer on every path, that no
      file is touched before the form is valid, that [process_table]
      never raises, and that exceptions of the query are not caught.
    - Server: by induction on the step relation, that no sequence of
      requests changes pyplot, the source file or any file but the
      processed one, and that every request is answered as it would be as
      the first ([serve_stateless]).
    - Threads: the list of calls run alone is [plot_rank_trend]
      ([plot_rank_trend_calls]); two requests in sequence get each its own
      chart ([run_schedule_sequential]); there is an interleaving of their
      calls, each request's own order kept, in which the first gets the
      bare line of the second and the second the figure of the first
      drawn over ([schedule_mixes_charts]).
    - Library: [str.replace] against its relational specification, the
      round trips of [int]/[str] and base64, the rank by sorting against
      the rank by counting, and for [str] of a float that the digits denote
      a number that rounds to the float and that none with fewer digits
      does ([shortest_sound]).

    ** Fuel and bounds

    [str_of_N] runs its digit loop on fuel [S (log2 n)], one step per
    binary digit at most; [str_of_N_fuel] shows more fuel changes nothing.
    [shortest] tries 40 decimal exponents from above; [shortest_total]
    shows that is enough for every binary64 float: the interval of a float
    holds a multiple of [10^k] for the [k] of [k_low], which a table checks
    for the 2046 exponents, and the search starts at most 20 above it.
    Nothing else is bounded.

    ** Not modelled

    - Flask: routing, the parsing of the form, the session and the
      templates; [index] returns the call of [render_template] it makes.
      The server start-up (lines 161-162) is not modelled.  [serve]
      answers the requests one after the other; of handlers that run at
      the same time in threads, Threads models the calls of pyplot, which
      share its one current figure, with a thread switch between calls
      only.  The files and the printed output under threads are not
      modelled.
    - pandas' CSV format and dtype inference: [read_csv] and [to_csv] are
      operations of [Platform].  Columns of booleans and of mixed values
      are not modelled; integer columns are [Z], not 64-bit words (the
      query compares and sorts integers and computes nothing with them).
    - matplotlib's drawing: a figure is the record of the calls made on
      it, and its image is [render_png] of the interface [Renderer].
    - CPython's limit on the number of digits of [int] and [str] (4300). *)

From Stdlib Require Export ZArith NArith Lia Bool ZifyBool ZifyN.
From stdpp Require Export base tactics option list numbers sorting.

(** ** Python exceptions as values

    A Python call either returns a value or raises.  The exception classes
    are the ones the modelled code can raise. *)

Inductive exn : Type :=
| ValueError
| TypeError
| KeyError
| IndexError
| AttributeError
| OSError.

#[export] Instance exn_eq_dec : EqDecision exn.
Proof. solve_decision. Defined.

Inductive pyres (A : Type) : Type :=
| Ok (a : A)
| Raise (e : exn).

Arguments Ok {A} a.
Arguments Raise {A} e.

#[export] Instance pyres_ret : MRet pyres := @Ok.

#[export] Instance pyres_bind : MBind pyres :=
  λ A B f m, match m with Ok a => f a | Raise e => Raise e end.

#[export] Instance pyres_fmap : FMap pyres :=
  λ A B f m, match m with Ok a => Ok (f a) | Raise e => Raise e end.

Definition is_ok {A} (m : pyres A) : bool :=
  match m with Ok _ => true | Raise _ => false end.

(** ** Tactics and hints *)

Create HintDb py discriminated.
Create Rewrite HintDb py.

(** Case on the scrutinee of the first [if]/[match] of the goal. *)
Ltac case_cond :=
  match goal with
  | |- context [if ?b then _ else _] => destruct b eqn:?
  | |- context [match ?x with _ => _ end] => destruct x eqn:?
  end.

(** Turn boolean tests in the context into propositions [lia] reads. *)
Ltac bool_prop :=
  repeat match goal with
  | H : _ && _ = true |- _ => apply andb_true_iff in H; destruct H
  | H : _ || _ = false |- _ => apply orb_false_iff in H; destruct H
  | H : negb _ = true |- _ => apply negb_true_iff in H
  | H : negb _ = false |- _ => apply negb_false_iff in H
  end.

Lemma pyres_bind_Ok {A B} (f : A → pyres B) (a : A) : Ok a ≫= f = f a.
Proof. reflexivity. Qed.

Lemma pyres_bind_Raise {A B} (f : A → pyres B) (e : exn) :
  Raise e ≫= f = Raise e.
Proof. reflexivity. Qed.

Lemma pyres_bind_inv {A B} (f : A → pyres B) (m : pyres A) (b : B) :
  m ≫= f = Ok b ↔ ∃ a, m = Ok a ∧ f a = Ok b.
Proof. destruct m; simpl; split; [eauto | intros (? & [= <-] & ?); done | done | intros (? & [=] & _)]. Qed.

#[export] Hint Rewrite @pyres_bind_Ok @pyres_bind_Raise : py.

(** ** Traversals in the result monad

    [mapM f l] runs [f] on the elements of [l] from left to right and
    stops at the first exception. *)

Section mapM.
Context {A B : Type} (f : A → pyres B).

Lemma pyres_mapM_cons x l : mapM f (x :: l) = y ← f x; k ← mapM f l; mret (y :: k).
Proof. done. Qed.

Lemma pyres_mapM_Ok l k : mapM f l = Ok k ↔ Forall2 (λ x y, f x = Ok y) l k.
Proof.
  revert k. induction l as [|x l IH]; intros k.
  - split; [intros [= <-]; constructor|by intros ->%Forall2_nil_inv_l].
  - rewrite pyres_mapM_cons, pyres_bind_inv. split.
    + intros (y & Hy & (k' & Hk'%IH & [= <-])%pyres_bind_inv). by constructor.
    + intros (y & k' & Hy & Hk'%IH & ->)%Forall2_cons_inv_l.
      exists y. split; [done|]. by rewrite Hk'.
Qed.

Lemma pyres_mapM_first_raise l1 x l2 e :
  Forall (λ x, is_ok (f x) = true) l1 → f x = Raise e →
  mapM f (l1 ++ x :: l2) = Raise e.
Proof.
  intros Hl1 Hx. induction Hl1 as [|x' l1 Hx' _ IH]; cbn [app]; rewrite pyres_mapM_cons.
  - by rewrite Hx.
  - destruct (f x'); [|done]. cbn. by rewrite IH.
Qed.

(** The exception of a traversal is the one of the first element that
    raises. *)
Lemma pyres_mapM_Raise l e :
  mapM f l = Raise e ↔
  ∃ l1 x l2, l = l1 ++ x :: l2 ∧ Forall (λ x, is_ok (f x) = true) l1 ∧ f x = Raise e.
Proof.
  split; [|intros (l1 & x & l2 & -> & ? & ?); by apply pyres_mapM_first_raise].
  induction l as [|x l IH]; [done|]. rewrite pyres_mapM_cons.
  destruct (f x) as [y|e'] eqn:Hx; cbn.
  - destruct (mapM f l) as [k|e']; [done|]. intros [= ->].
    destruct (IH eq_refl) as (l1 & x' & l2 & -> & Hl1 & Hx').
    exists (x :: l1), x', l2. split_and!; [done| |done].
    constructor; [by rewrite Hx|done].
  - intros [= ->]. exists [], x, l. by split_and!.
Qed.

Lemma pyres_mapM_is_ok l : is_ok (mapM f l) = true ↔ Forall (λ x, is_ok (f x) = true) l.
Proof.
  induction l as [|x l IH]; [by split; [constructor|]|].
  rewrite pyres_mapM_cons, Forall_cons, <-IH.
  destruct (f x); cbn; [|by split; [|intros []]].
  destruct (mapM f l); cbn; by split; [|intros []].
Qed.

Lemma pyres_mapM_length l k : mapM f l = Ok k → length k = length l.
Proof. intros ?%pyres_mapM_Ok. symmetry. by eapply Forall2_length. Qed.
End mapM.

(** ** Generic list functions and lemmas *)

Section list_util.
Context {A : Type}.
Implicit Types (l k : list A) (x : A) (p : A → bool).

(** Drop the longest prefix whose elements all pass the test. *)
Fixpoint drop_while p l : list A :=
  match l with
  | [] => []
  | x :: l' => if p x then drop_while p l' else l
  end.

(** Drop the longest suffix whose elements all pass the test. *)
Definition drop_while_end p l : list A := reverse (drop_while p (reverse l)).

Lemma drop_while_forall p l : forallb p l = true → drop_while p l = [].
Proof. induction l as [|x l IH]; simpl; [done|]. destruct (p x); naive_solver. Qed.

Lemma drop_while_head p x l : p x = false → drop_while p (x :: l) = x :: l.
Proof. simpl. by intros ->. Qed.

Lemma drop_while_hd p l x k : drop_while p l = x :: k → p x = false.
Proof.
  induction l as [|y l IH]; simpl; [done|].
  destruct (p y) eqn:E; [done|]. by intros [= -> ->].
Qed.

Lemma drop_while_split p l :
  ∃ k, l = k ++ drop_while p l ∧ forallb p k = true.
Proof.
  induction l as [|x l (k & Hk & Hp)]; [by exists []|]. simpl.
  destruct (p x) eqn:E; [|by exists []].
  exists (x :: k). simpl. rewrite E, Hp. split; [by f_equal|done].
Qed.

Lemma drop_while_idemp p l : drop_while p (drop_while p l) = drop_while p l.
Proof.
  destruct (drop_while p l) as [|x k] eqn:E; [done|].
  apply drop_while_head. by eapply drop_while_hd.
Qed.

Lemma drop_while_length p l : length (drop_while p l) ≤ length l.
Proof. induction l as [|x l IH]; simpl; [done|]. destruct (p x); simpl; lia. Qed.

Lemma drop_while_app_keep p l k x :
  drop_while p l = x :: k → ∀ l', drop_while p (l ++ l') = x :: k ++ l'.
Proof.
  induction l as [|y l IH]; simpl; [done|].
  destruct (p y) eqn:E; [done|]. by intros [= -> ->] l'.
Qed.

Lemma forallb_reverse p l : forallb p (reverse l) = forallb p l.
Proof.
  induction l as [|x l IH]; [done|].
  rewrite reverse_cons, forallb_app, IH. simpl. destruct (p x), (forallb p l); done.
Qed.

Lemma drop_while_end_nil p : drop_while_end p [] = [].
Proof. done. Qed.

Lemma drop_while_end_snoc p l x :
  drop_while_end p (l ++ [x]) = if p x then drop_while_end p l else l ++ [x].
Proof.
  unfold drop_while_end. rewrite reverse_snoc. simpl.
  destruct (p x); [done|]. by rewrite reverse_cons, reverse_involutive.
Qed.

Lemma drop_while_end_cons p x l :
  p x = false → drop_while_end p (x :: l) = x :: drop_while_end p l.
Proof.
  intros Hx. induction l as [|y l IH] using rev_ind.
  - change [x] with ([] ++ [x]). by rewrite drop_while_end_snoc, Hx.
  - rewrite app_comm_cons, !drop_while_end_snoc. by destruct (p y).
Qed.

Lemma drop_while_end_split p l :
  ∃ k, l = drop_while_end p l ++ k ∧ forallb p k = true.
Proof.
  induction l as [|x l (k & Hk & Hp)] using rev_ind; [by exists []|].
  rewrite drop_while_end_snoc. destruct (p x) eqn:E.
  - exists (k ++ [x]). rewrite forallb_app, Hp. simpl. rewrite E.
    split; [|done]. by rewrite app_assoc, <-Hk.
  - exists []. by rewrite app_nil_r.
Qed.

Lemma drop_while_end_last p l x : last (drop_while_end p l) = Some x → p x = false.
Proof.
  induction l as [|y l IH] using rev_ind; [done|].
  rewrite drop_while_end_snoc. destruct (p y) eqn:E; [done|].
  rewrite last_snoc. by intros [= <-].
Qed.

Lemma drop_while_end_keep p l x : last l = Some x → p x = false → drop_while_end p l = l.
Proof.
  destruct l as [|y l _] using rev_ind; [done|].
  rewrite last_snoc, drop_while_end_snoc. by intros [= ->] ->.
Qed.

Lemma drop_while_end_idemp p l : drop_while_end p (drop_while_end p l) = drop_while_end p l.
Proof.
  destruct (last (drop_while_end p l)) as [x|] eqn:E.
  - eapply drop_while_end_keep; [done|]. by eapply drop_while_end_last.
  - apply last_None in E. by rewrite E.
Qed.
End list_util.

Lemma zip_fmap_fst_snd {A A' B} (f : A → A') (l : list (A * B)) :
  zip (f <$> l.*1) l.*2 = prod_map f id <$> l.
Proof. induction l as [|[a b] l IH]; [done|]. csimpl. by rewrite IH. Qed.

