(* ===== verification/Unicode.v ===== *)
(** * Characters, string literals and the Unicode database

    A Python [str] is a sequence of Unicode code points.  It is modelled as
    a list of [N] (abbreviation [pystr]); a character is its code point.

    The string methods and [re], [int] used by src/app.py classify
    characters through CPython's Unicode database ([Py_UNICODE_TODECIMAL],
    [Py_UNICODE_ISDIGIT], [Py_UNICODE_ISSPACE]).  The tables depend on the
    Unicode version of the interpreter, so the components are written
    against the interface [UnicodeDB], which fixes what every version
    guarantees on ASCII.  Two implementations discharge it: [ascii_db]
    (nothing outside ASCII is classified) and [unicode14_db] (the tables of
    Unicode 14.0, the version of CPython 3.11). *)

From Stdlib Require Import String Ascii.
From S2P Require Import Prelude.
Export String.StringSyntax.

#[local] Open Scope N_scope.

Abbreviation pystr := (list N) (only parsing).

(** ** Literals

    [lit "..."] is the code-point sequence of a source literal: the bytes of
    the Rocq string, decoded as UTF-8 (the encoding of src/app.py). *)

Definition byte_codes (s : string) : list N :=
  N_of_ascii <$> list_ascii_of_string s.

Fixpoint utf8_decode (bs : list N) : list N :=
  match bs with
  | [] => []
  | b0 :: r0 =>
    if b0 <? 0x80 then b0 :: utf8_decode r0 else
    match r0 with
    | [] => []
    | b1 :: r1 =>
      if b0 <? 0xE0 then ((b0 - 0xC0) * 64 + (b1 - 0x80)) :: utf8_decode r1 else
      match r1 with
      | [] => []
      | b2 :: r2 =>
        if b0 <? 0xF0
        then ((b0 - 0xE0) * 4096 + (b1 - 0x80) * 64 + (b2 - 0x80)) :: utf8_decode r2
        else
        match r2 with
        | [] => []
        | b3 :: r3 =>
          ((b0 - 0xF0) * 262144 + (b1 - 0x80) * 4096 + (b2 - 0x80) * 64 + (b3 - 0x80))
            :: utf8_decode r3
        end
      end
    end
  end.

Definition lit (s : string) : list N := utf8_decode (byte_codes s).
Arguments lit s%_string.

(** ** Ranges of code points *)

Definition in_range (lo hi c : N) : bool := (lo <=? c) && (c <=? hi).

Definition in_ranges (rs : list (N * N)) (c : N) : bool :=
  existsb (λ r, in_range r.1 r.2 c) rs.

(** ASCII digits ['0'..'9'] and the ASCII characters [str.isspace] accepts
    (TAB, LF, VT, FF, CR, FS, GS, RS, US and the space). *)
Definition ascii_digit (c : N) : bool := in_range 48 57 c.
Definition ascii_space (c : N) : bool := in_range 9 13 c || in_range 28 32 c.

(** ** The interface *)

Class UnicodeDB : Type := {
  (** the decimal value of a character of category Nd ([\d] of [re], the
      digits [int] accepts) *)
  to_decimal : N → option N;
  (** [Py_UNICODE_ISDIGIT], the test behind [str.isdigit] *)
  is_digit_char : N → bool;
  (** [Py_UNICODE_ISSPACE], the test behind [str.isspace] and [str.strip] *)
  is_space_char : N → bool;
  to_decimal_ascii : ∀ c, c < 128 →
    to_decimal c = if ascii_digit c then Some (c - 48) else None;
  to_decimal_bound : ∀ c d, to_decimal c = Some d → d < 10;
  to_decimal_is_digit : ∀ c d, to_decimal c = Some d → is_digit_char c = true;
  is_digit_ascii : ∀ c, c < 128 → is_digit_char c = ascii_digit c;
  is_space_ascii : ∀ c, c < 128 → is_space_char c = ascii_space c;
  space_not_decimal : ∀ c, is_space_char c = true → to_decimal c = None
}.

Definition is_decimal_char `{UnicodeDB} (c : N) : bool :=
  bool_decide (is_Some (to_decimal c)).

(** ** Implementations *)

(** Only ASCII is classified. *)
Definition ascii_to_decimal (c : N) : option N :=
  if ascii_digit c then Some (c - 48) else None.

(** Unicode 14.0: the code points of the digit zero of every decimal
    system (each is followed by its digits one to nine), the other
    characters with the property Numeric_Type=Digit, and the white space. *)
Definition decimal_zeros : list N :=
  [48; 1632; 1776; 1984; 2406; 2534; 2662; 2790; 2918; 3046; 3174; 3302;
   3430; 3558; 3664; 3792; 3872; 4160; 4240; 6112; 6160; 6470; 6608; 6784;
   6800; 6992; 7088; 7232; 7248; 42528; 43216; 43264; 43472; 43504; 43600;
   44016; 65296; 66720; 68912; 69734; 69872; 69942; 70096; 70384; 70736;
   70864; 71248; 71360; 71472; 71904; 72016; 72784; 73040; 73120; 92768;
   92864; 93008; 120782; 120792; 120802; 120812; 120822; 123200; 123632;
   125264; 130032].

Definition other_digit_ranges : list (N * N) :=
  [(178, 179); (185, 185); (4969, 4977); (6618, 6618); (8304, 8304);
   (8308, 8313); (8320, 8329); (9312, 9320); (9332, 9340); (9352, 9360);
   (9450, 9450); (9461, 9469); (9471, 9471); (10102, 10110); (10112, 10120);
   (10122, 10130); (68160, 68163); (69216, 69224); (69714, 69722);
   (127232, 127242)].

Definition space_ranges : list (N * N) :=
  [(9, 13); (28, 32); (133, 133); (160, 160); (5760, 5760); (8192, 8202);
   (8232, 8233); (8239, 8239); (8287, 8287); (12288, 12288)].

Fixpoint decimal_in (zeros : list N) (c : N) : option N :=
  match zeros with
  | [] => None
  | z :: zs => if in_range z (z + 9) c then Some (c - z) else decimal_in zs c
  end.

Definition unicode14_to_decimal (c : N) : option N := decimal_in decimal_zeros c.

Definition unicode14_is_digit (c : N) : bool :=
  bool_decide (is_Some (unicode14_to_decimal c)) || in_ranges other_digit_ranges c.

Definition unicode14_is_space (c : N) : bool := in_ranges space_ranges c.

(** ** Lemmas on ranges, and the two instances *)

Lemma in_range_spec lo hi c : in_range lo hi c = true ↔ lo ≤ c ≤ hi.
Proof. unfold in_range. lia. Qed.

Lemma in_ranges_spec rs c :
  in_ranges rs c = true ↔ ∃ r, r ∈ rs ∧ r.1 ≤ c ≤ r.2.
Proof.
  unfold in_ranges. rewrite existsb_exists. setoid_rewrite in_range_spec.
  by setoid_rewrite list_elem_of_In.
Qed.

Lemma ascii_digit_spec c : ascii_digit c = true ↔ 48 ≤ c ≤ 57.
Proof. apply in_range_spec. Qed.

Lemma ascii_space_not_digit c : ascii_space c = true → ascii_digit c = false.
Proof. unfold ascii_space, ascii_digit, in_range. lia. Qed.

(** A property of the code points below a bound, checked on all of them. *)
Lemma below_forallb (P : N → bool) (n : nat) :
  forallb P (N.of_nat <$> seq 0 n) = true → ∀ c, c < N.of_nat n → P c = true.
Proof.
  rewrite forallb_forall. intros HP c Hc. apply HP, list_elem_of_In.
  apply list_elem_of_fmap. exists (N.to_nat c). split; [lia|].
  apply elem_of_seq. lia.
Qed.

Lemma decimal_in_bound zeros c d : decimal_in zeros c = Some d → d < 10.
Proof.
  induction zeros as [|z zs IH]; simpl; [done|].
  destruct (in_range z (z + 9) c) eqn:E; [|done].
  apply in_range_spec in E. intros [= <-]. lia.
Qed.

Lemma decimal_in_None zeros c :
  Forall (λ z, ¬ (z ≤ c ≤ z + 9)) zeros → decimal_in zeros c = None.
Proof.
  induction 1 as [|z zs Hz _ IH]; simpl; [done|].
  destruct (in_range z (z + 9) c) eqn:E; [|done].
  by apply in_range_spec in E.
Qed.

(** A property of every code point of a list of ranges, checked on the
    ranges' elements. *)
Definition range_elems (r : N * N) : list N :=
  (λ k, r.1 + N.of_nat k) <$> seq 0 (N.to_nat (r.2 + 1 - r.1)).

Lemma in_ranges_forallb (P : N → bool) rs :
  forallb (λ r, forallb P (range_elems r)) rs = true →
  ∀ c, in_ranges rs c = true → P c = true.
Proof.
  rewrite forallb_forall. intros HP c (r & Hr & Hc)%in_ranges_spec.
  apply list_elem_of_In, HP in Hr. rewrite forallb_forall in Hr.
  apply Hr, list_elem_of_In, list_elem_of_fmap.
  exists (N.to_nat (c - r.1)). split; [lia|]. apply elem_of_seq. lia.
Qed.

#[export] Program Instance ascii_db : UnicodeDB := {|
  to_decimal := ascii_to_decimal;
  is_digit_char := ascii_digit;
  is_space_char := ascii_space
|}.
Next Obligation. done. Qed.
Next Obligation.
  intros c d. unfold ascii_to_decimal. destruct (ascii_digit c) eqn:E; [|done].
  apply ascii_digit_spec in E. intros [= <-]. lia.
Qed.
Next Obligation. intros c d. unfold ascii_to_decimal. by destruct (ascii_digit c). Qed.
Next Obligation. done. Qed.
Next Obligation. done. Qed.
Next Obligation.
  intros c Hc. unfold ascii_to_decimal. by rewrite ascii_space_not_digit.
Qed.

(** Closes [∀ c, c < 128 → f c = g c] by evaluating both sides on the
    128 code points. *)
Ltac table_below n :=
  let c := fresh "c" in let Hc := fresh "Hc" in
  intros c Hc; eapply bool_decide_eq_true_1; revert c Hc;
  match goal with
  | |- ∀ c, _ → bool_decide (@?P c) = true =>
    apply (below_forallb (λ c, bool_decide (P c)) n); by vm_compute
  end.

Ltac ascii_table := table_below 128%nat.

Lemma unicode14_decimal_ascii c :
  c < 128 → unicode14_to_decimal c = if ascii_digit c then Some (c - 48) else None.
Proof. revert c. ascii_table. Qed.

Lemma unicode14_digit_ascii c : c < 128 → unicode14_is_digit c = ascii_digit c.
Proof. revert c. ascii_table. Qed.

Lemma unicode14_space_ascii c : c < 128 → unicode14_is_space c = ascii_space c.
Proof. revert c. ascii_table. Qed.

Lemma unicode14_space_not_decimal c :
  unicode14_is_space c = true → unicode14_to_decimal c = None.
Proof.
  intros Hc. eapply bool_decide_eq_true_1. revert c Hc.
  apply (in_ranges_forallb (λ c, bool_decide (unicode14_to_decimal c = None))).
  by vm_compute.
Qed.

#[export] Program Instance unicode14_db : UnicodeDB | 10 := {|
  to_decimal := unicode14_to_decimal;
  is_digit_char := unicode14_is_digit;
  is_space_char := unicode14_is_space
|}.
Next Obligation. exact unicode14_decimal_ascii. Qed.
Next Obligation. intros c d. apply decimal_in_bound. Qed.
Next Obligation.
  intros c d Hd. unfold unicode14_is_digit. rewrite Hd.
  by rewrite bool_decide_eq_true_2.
Qed.
Next Obligation. exact unicode14_digit_ascii. Qed.
Next Obligation. exact unicode14_space_ascii. Qed.
Next Obligation. exact unicode14_space_not_decimal. Qed.

(** ** Consequences of the interface *)

Section unicode_db.
Context `{UnicodeDB}.
Implicit Types (c d : N).

Lemma to_decimal_ascii_digit c :
  48 ≤ c ≤ 57 → to_decimal c = Some (c - 48).
Proof.
  intros Hc. rewrite to_decimal_ascii by lia.
  by rewrite (proj2 (ascii_digit_spec c)).
Qed.

Lemma is_decimal_char_spec c : is_decimal_char c = true ↔ is_Some (to_decimal c).
Proof. apply bool_decide_eq_true. Qed.

Lemma is_decimal_char_ascii c : c < 128 → is_decimal_char c = ascii_digit c.
Proof.
  intros Hc. unfold is_decimal_char. rewrite to_decimal_ascii by done.
  destruct (ascii_digit c); [by rewrite bool_decide_eq_true_2|].
  apply bool_decide_eq_false_2. by intros [??].
Qed.

Lemma is_decimal_char_not_space c :
  is_decimal_char c = true → is_space_char c = false.
Proof.
  intros [d Hd]%is_decimal_char_spec. destruct (is_space_char c) eqn:E; [|done].
  apply space_not_decimal in E. congruence.
Qed.

End unicode_db.
