(* ===== verification/PyStr.v ===== *)
(** * The [str] methods and the regular expression used by src/app.py

    [str.replace], [str.strip], [str.zfill], [str.isdigit] and
    [re.match(r'^\d{1,6}$', _)], as CPython defines them on sequences of
    code points, with their specifications:
    - [str_replace] deletes/replaces the non-overlapping occurrences found
      by a left-to-right scan; [replaced] is its relational specification;
    - [str_strip] removes the leading and trailing white space;
    - [str_zfill] pads with ['0'] on the left, after a leading sign;
    - [re_match_digits] decides the match of [^\d{lo,hi}$], where [$] also
      matches before a final line feed. *)

From S2P Require Import Prelude Unicode.

#[local] Open Scope N_scope.

Implicit Types (s old new r : list N) (c : N).

(** ** [s.replace(old, new)] *)

(** The scan: [skip] characters of a match found earlier remain to be
    passed over. *)
Fixpoint replace_go (old new : list N) (skip : nat) (s : list N) : list N :=
  match s with
  | [] => []
  | c :: s' =>
    match skip with
    | S k => replace_go old new k s'
    | O =>
      if bool_decide (old `prefix_of` s)
      then new ++ replace_go old new (length old - 1) s'
      else c :: replace_go old new 0 s'
    end
  end.

(** With an empty [old], [new] is inserted before every character and at
    the end. *)
Definition str_replace (old new s : list N) : list N :=
  match old with
  | [] => new ++ concat ((λ c, c :: new) <$> s)
  | _ :: _ => replace_go old new 0 s
  end.

(** The specification of [str_replace] for a non-empty [old]: at every
    position, an occurrence of [old] is replaced and the scan continues
    behind it; otherwise the character is kept. *)
Inductive replaced (old new : list N) : list N → list N → Prop :=
| replaced_nil : replaced old new [] []
| replaced_hit s r :
    replaced old new s r → replaced old new (old ++ s) (new ++ r)
| replaced_miss c s r :
    ¬ old `prefix_of` (c :: s) →
    replaced old new s r → replaced old new (c :: s) (c :: r).

(** [old] occurs in [s] (the [in] operator on strings). *)
Definition occurs (old s : list N) : Prop := ∃ u v, s = u ++ old ++ v.

Fixpoint occursb (old s : list N) : bool :=
  bool_decide (old `prefix_of` s) ||
  match s with
  | [] => false
  | _ :: s' => occursb old s'
  end.

(** ** [s.strip()] *)

Section with_db.
Context `{UnicodeDB}.

Definition str_lstrip (s : list N) : list N := drop_while is_space_char s.
Definition str_rstrip (s : list N) : list N := drop_while_end is_space_char s.
Definition str_strip (s : list N) : list N := str_rstrip (str_lstrip s).

(** [s.isdigit()]: at least one character, all of them digits. *)
Definition str_isdigit (s : list N) : bool :=
  negb (bool_decide (s = [])) && forallb is_digit_char s.

(** ** [re.match(r'^\d{lo,hi}$', s)] (as a truth value)

    [\d] is a character with a decimal value; [$] matches at the end of the
    string and before a line feed that ends it. *)
Definition chomp_newline (s : list N) : list N :=
  match last s with
  | Some 10 => take (length s - 1) s
  | _ => s
  end.

Definition re_match_digits (lo hi : nat) (s : list N) : bool :=
  let body := chomp_newline s in
  forallb is_decimal_char body
  && bool_decide (lo ≤ length body)%nat
  && bool_decide (length body ≤ hi)%nat.

(** The match, as the regular expression reads: [k] digits, [lo ≤ k ≤ hi],
    then the end of the string or a final line feed. *)
Definition matches_digits (lo hi : nat) (s : list N) : Prop :=
  ∃ ds, Forall (λ c, is_Some (to_decimal c)) ds
        ∧ (lo ≤ length ds ≤ hi)%nat
        ∧ (s = ds ∨ s = ds ++ [10]).

End with_db.

(** ** [s.zfill(width)] *)

Definition is_sign (c : N) : bool := (c =? 43) || (c =? 45).

Definition str_zfill (width : nat) (s : list N) : list N :=
  if bool_decide (width ≤ length s)%nat then s else
  let pad := replicate (width - length s) 48 in
  match s with
  | c :: s' => if is_sign c then c :: pad ++ s' else pad ++ s
  | [] => pad
  end.

(** ** Lemmas on [str_replace] *)

Lemma replace_go_skip old new n s :
  replace_go old new n s = replace_go old new 0 (drop n s).
Proof.
  revert n. induction s as [|c s IH]; intros [|n]; simpl; done.
Qed.

Lemma replace_go_hit old new s :
  old ≠ [] → replace_go old new 0 (old ++ s) = new ++ replace_go old new 0 s.
Proof.
  destruct old as [|c old]; [done|]. intros _.
  change ((c :: old) ++ s) with (c :: (old ++ s)). cbn [replace_go].
  rewrite bool_decide_eq_true_2 by (by exists s).
  rewrite replace_go_skip. simpl. by rewrite Nat.sub_0_r, drop_app_length.
Qed.

Lemma replace_go_miss old new c s :
  ¬ old `prefix_of` (c :: s) →
  replace_go old new 0 (c :: s) = c :: replace_go old new 0 s.
Proof. intros Hp. simpl. by rewrite bool_decide_eq_false_2. Qed.

Lemma str_replace_go old new s : old ≠ [] → str_replace old new s = replace_go old new 0 s.
Proof. by destruct old. Qed.

Lemma replaced_fun old new s r :
  old ≠ [] → replaced old new s r → r = str_replace old new s.
Proof.
  intros Hold Hr. rewrite str_replace_go by done.
  induction Hr as [|s r _ ->|c s r Hp _ ->].
  - done.
  - by rewrite replace_go_hit.
  - by rewrite replace_go_miss.
Qed.

Lemma str_replace_replaced old new s :
  old ≠ [] → replaced old new s (str_replace old new s).
Proof.
  intros Hold. rewrite str_replace_go by done.
  remember (length s) as n eqn:Hn. revert s Hn.
  induction (lt_wf n) as [n _ IH]. intros s ->.
  destruct s as [|c s]; [constructor|].
  destruct (decide (old `prefix_of` (c :: s))) as [[k Hk]|Hp].
  - rewrite Hk, replace_go_hit by done. constructor.
    eapply IH; [|done]. rewrite Hk, length_app. destruct old; [done|simpl; lia].
  - rewrite replace_go_miss by done. constructor; [done|].
    eapply IH; [|done]. simpl; lia.
Qed.

(** C39: for a non-empty [old], [str_replace old new s] is the one string
    that [replaced] relates to [s]: the function scans from the left,
    replaces each occurrence of [old] it meets and goes on after it, and
    keeps every other character. *)
Theorem str_replace_spec old new s r :
  old ≠ [] → replaced old new s r ↔ str_replace old new s = r.
Proof.
  intros Hold. split.
  - intros Hr. symmetry. by apply replaced_fun.
  - intros <-. by apply str_replace_replaced.
Qed.

Lemma replaced_no_occurrence old new s : ¬ occurs old s → replaced old new s s.
Proof.
  induction s as [|c s IH]; intros Hocc; [constructor|].
  constructor.
  - intros [k Hk]. apply Hocc. by exists [], k.
  - apply IH. intros (u & v & ->). apply Hocc. by exists (c :: u), v.
Qed.

Lemma str_replace_no_occurrence old new s :
  ¬ occurs old s → str_replace old new s = s.
Proof.
  intros Hocc. symmetry. apply replaced_fun; [|by apply replaced_no_occurrence].
  intros ->. apply Hocc. by exists [], s.
Qed.

Lemma replaced_delete_length old s r : replaced old [] s r → (length r ≤ length s)%nat.
Proof. induction 1; simpl; rewrite ?length_app; lia. Qed.



(** [occurs] is decidable. *)
Lemma occursb_spec old s : occursb old s = true ↔ occurs old s.
Proof.
  induction s as [|c s IH]; simpl; rewrite orb_true_iff, bool_decide_eq_true.
  - split; [intros [[k Hk]|[=]]; by exists [], k|].
    intros (u & v & Huv). left. exists v. by destruct u.
  - rewrite IH. split.
    + intros [[k ->]|(u & v & ->)]; [by exists [], k|by exists (c :: u), v].
    + intros (u & v & Huv). destruct u as [|d u]; [left; by exists v|].
      right. exists u, v. by simplify_eq/=.
Qed.

#[global] Instance occurs_dec old s : Decision (occurs old s).
Proof.
  refine (cast_if (decide (occursb old s = true))); by rewrite <-occursb_spec.
Defined.

(** A string without a character of [old] is left as it is. *)
Lemma str_replace_absent_char old new s c : c ∈ old → c ∉ s → str_replace old new s = s.
Proof.
  intros Hold Hs. apply str_replace_no_occurrence. intros (u & v & ->).
  apply Hs. rewrite !elem_of_app. auto.
Qed.

(** The scan passes over characters that cannot begin [old]. *)
Lemma str_replace_absent_prefix c old new s t :
  c ∉ s → str_replace (c :: old) new (s ++ t) = s ++ str_replace (c :: old) new t.
Proof.
  intros Hc. rewrite !str_replace_go by done.
  induction s as [|d s IH]; [done|].
  apply not_elem_of_cons in Hc as [Hne Hc]. cbn [app].
  rewrite replace_go_miss, IH; [done..|]. by intros [k [= ? _]].
Qed.

(** Deleting a suffix that stands at the end, after characters that cannot
    begin it. *)
Lemma str_replace_suffix c old s :
  c ∉ s → str_replace (c :: old) [] (s ++ c :: old) = s.
Proof.
  intros Hc. rewrite str_replace_go by done.
  induction s as [|d s IH].
  - cbn [app]. rewrite <-(app_nil_r (c :: old)) at 2. by rewrite replace_go_hit.
  - apply not_elem_of_cons in Hc as [Hne Hc]. cbn [app].
    rewrite replace_go_miss, IH; [done..|]. by intros [k [= ? _]].
Qed.

(** Deleting [old] where it stands at the end and nowhere before. *)
Lemma str_replace_delete_last old s :
  old ≠ [] → (∀ u v, s ++ old = u ++ old ++ v → v = []) →
  str_replace old [] (s ++ old) = s.
Proof.
  intros Hold Hlast. symmetry. apply replaced_fun; [done|].
  induction s as [|c s IH].
  - simpl. rewrite <-(app_nil_r old) at 2. apply (replaced_hit old [] [] []). constructor.
  - cbn [app]. constructor.
    + intros [k Hk]. pose proof (Hlast [] k Hk) as ->. rewrite app_nil_r in Hk.
      apply (f_equal length) in Hk. simpl in Hk. rewrite length_app in Hk. lia.
    + apply IH. intros u v Huv. apply (Hlast (c :: u) v). simpl. by rewrite Huv.
Qed.

(** The first occurrence of a character is in one place. *)
Lemma first_occurrence_inj c s1 t1 s2 t2 :
  c ∉ s1 → c ∉ s2 → s1 ++ c :: t1 = s2 ++ c :: t2 → s1 = s2 ∧ t1 = t2.
Proof.
  revert s2. induction s1 as [|a s1 IH]; intros [|b s2] H1 H2 Heq; simplify_eq/=.
  - done.
  - by apply not_elem_of_cons in H2 as [[] _].
  - by apply not_elem_of_cons in H1 as [[] _].
  - apply not_elem_of_cons in H1 as [_ H1]. apply not_elem_of_cons in H2 as [_ H2].
    destruct (IH s2 H1 H2) as [-> ->]; done.
Qed.

(** ** Lemmas on [str_strip] and [re_match_digits] *)

Section with_db.
Context `{UnicodeDB}.

Lemma str_lstrip_head s c k : str_lstrip s = c :: k → is_space_char c = false.
Proof. apply drop_while_hd. Qed.

Lemma str_strip_head s c k : str_strip s = c :: k → is_space_char c = false.
Proof.
  unfold str_strip, str_rstrip. destruct (str_lstrip s) as [|d l] eqn:E; [done|].
  apply str_lstrip_head in E. rewrite drop_while_end_cons by done. by intros [= <- _].
Qed.

Lemma str_strip_last s c : last (str_strip s) = Some c → is_space_char c = false.
Proof. apply drop_while_end_last. Qed.

Lemma str_strip_decomp s :
  ∃ u v, s = u ++ str_strip s ++ v
         ∧ forallb is_space_char u = true ∧ forallb is_space_char v = true.
Proof.
  destruct (drop_while_split is_space_char s) as (u & Hu & Hpu).
  destruct (drop_while_end_split is_space_char (str_lstrip s)) as (v & Hv & Hpv).
  exists u, v. split_and!; [|done..].
  rewrite Hu at 1. f_equal. exact Hv.
Qed.

Lemma str_strip_fixed s :
  (∀ c k, s = c :: k → is_space_char c = false) →
  (∀ c, last s = Some c → is_space_char c = false) →
  str_strip s = s.
Proof.
  intros Hhd Hlast. unfold str_strip, str_lstrip, str_rstrip.
  destruct s as [|c k]; [done|]. rewrite drop_while_head by eauto.
  destruct (last (c :: k)) as [d|] eqn:E.
  - eapply drop_while_end_keep; eauto.
  - by apply last_None in E.
Qed.

(** White space at the end is stripped. *)
Lemma str_strip_snoc_space s c :
  is_space_char c = true → str_strip (s ++ [c]) = str_strip s.
Proof.
  intros Hc. unfold str_strip, str_rstrip, str_lstrip.
  destruct (drop_while is_space_char s) as [|x k] eqn:E.
  - destruct (drop_while_split is_space_char s) as (u & Hu & Hall).
    rewrite E, app_nil_r in Hu. subst u.
    rewrite drop_while_forall; [done|]. rewrite forallb_app, Hall. simpl. by rewrite Hc.
  - rewrite (drop_while_app_keep _ _ _ _ E), app_comm_cons, drop_while_end_snoc.
    by rewrite Hc.
Qed.

Lemma str_strip_idemp s : str_strip (str_strip s) = str_strip s.
Proof. apply str_strip_fixed; [apply str_strip_head | apply str_strip_last]. Qed.

Lemma newline_not_decimal : is_decimal_char 10 = false.
Proof. by rewrite is_decimal_char_ascii. Qed.

Lemma forallb_is_decimal ds :
  forallb is_decimal_char ds = true ↔ Forall (λ c, is_Some (to_decimal c)) ds.
Proof.
  rewrite forallb_forall, Forall_forall. setoid_rewrite <-list_elem_of_In.
  by setoid_rewrite is_decimal_char_spec.
Qed.

Lemma chomp_newline_snoc ds : chomp_newline (ds ++ [10]) = ds.
Proof.
  unfold chomp_newline. rewrite last_snoc, length_app. simpl.
  rewrite Nat.add_sub. by rewrite take_app_length.
Qed.

Lemma chomp_newline_keep s : last s ≠ Some 10 → chomp_newline s = s.
Proof.
  unfold chomp_newline. destruct (last s) as [c|]; [|done].
  intros Hc. destruct c as [|p]; [done|].
  do 4 (destruct p as [p|p|]; try done).
Qed.

Lemma decimal_last_not_newline ds :
  Forall (λ c, is_Some (to_decimal c)) ds → last ds ≠ Some 10.
Proof.
  intros Hds Hl. apply last_Some in Hl as [l' ->].
  rewrite Forall_forall in Hds. specialize (Hds 10).
  apply is_decimal_char_spec in Hds; [|apply elem_of_app; right; by left].
  rename Hds into Hd. by rewrite newline_not_decimal in Hd.
Qed.

Lemma chomp_newline_cases s : s = chomp_newline s ∨ s = chomp_newline s ++ [10].
Proof.
  destruct (decide (last s = Some 10)) as [[l' ->]%last_Some|Hl].
  - right. by rewrite chomp_newline_snoc.
  - left. by rewrite chomp_newline_keep.
Qed.

Lemma re_match_digits_spec lo hi s :
  re_match_digits lo hi s = true ↔ matches_digits lo hi s.
Proof.
  unfold re_match_digits, matches_digits.
  rewrite !andb_true_iff, !bool_decide_eq_true, forallb_is_decimal. split.
  - intros [[Hd Hlo] Hhi]. exists (chomp_newline s).
    split_and!; [done..|apply chomp_newline_cases].
  - intros (ds & Hd & Hlen & [->| ->]).
    + rewrite chomp_newline_keep by (by apply decimal_last_not_newline).
      split_and!; [done|lia..].
    + rewrite chomp_newline_snoc. split_and!; [done|lia..].
Qed.

End with_db.

(** ** Lemmas on [str_zfill] *)

Lemma str_zfill_length w s : length (str_zfill w s) = (w `max` length s)%nat.
Proof.
  unfold str_zfill. case_bool_decide; [lia|].
  destruct s as [|c s]; simpl.
  - rewrite length_replicate. lia.
  - destruct (is_sign c); simpl; rewrite length_app, length_replicate; simpl; lia.
Qed.

Lemma str_zfill_unsigned w s :
  (∀ c k, s = c :: k → is_sign c = false) →
  str_zfill w s = replicate (w - length s) 48 ++ s.
Proof.
  intros Hs. unfold str_zfill. case_bool_decide.
  - by replace (w - length s)%nat with 0%nat by lia.
  - destruct s as [|c k]; [by rewrite app_nil_r|]. by rewrite (Hs c k).
Qed.

Lemma str_zfill_ge w s : (w ≤ length s)%nat → str_zfill w s = s.
Proof. intros. unfold str_zfill. by rewrite bool_decide_eq_true_2. Qed.

(** ** Lemmas on matches and padding *)

Section matches.
Context `{UnicodeDB}.


(** A character with a decimal value is none of the other ASCII
    characters. *)
Lemma decimal_char_neq c c' :
  is_Some (to_decimal c) → (c' < 128)%N → ascii_digit c' = false → c ≠ c'.
Proof.
  intros Hc Hlt Hc' ->. rewrite to_decimal_ascii, Hc' in Hc by done. by destruct Hc.
Qed.

Lemma decimal_not_sign c : is_Some (to_decimal c) → is_sign c = false.
Proof.
  intros Hc. destruct (is_sign c) eqn:E; [|done]. unfold is_sign in E.
  apply orb_true_iff in E as [->%N.eqb_eq| ->%N.eqb_eq];
    rewrite to_decimal_ascii in Hc by done; by destruct Hc.
Qed.

Lemma matches_digits_no_dot lo hi s : matches_digits lo hi s → 46%N ∉ s.
Proof.
  intros (ds & Hds & _ & Hs) Hin. rewrite Forall_forall in Hds.
  assert (46%N ∈ ds) as Hd.
  { destruct Hs as [->| ->]; [done|]. apply elem_of_app in Hin as [?|Hin]; [done|].
    by apply list_elem_of_singleton in Hin. }
  by apply (decimal_char_neq 46 46 (Hds _ Hd)).
Qed.

(** What matches is digits, and a line feed at most. *)
Lemma matches_digits_elem lo hi s c :
  matches_digits lo hi s → c ∈ s → is_Some (to_decimal c) ∨ c = 10%N.
Proof.
  intros (ds & Hds & _ & Hs) Hin. rewrite Forall_forall in Hds.
  destruct Hs as [->| ->]; [left; by apply Hds|].
  apply elem_of_app in Hin as [?| ->%list_elem_of_singleton]; [left; by apply Hds|by right].
Qed.

Lemma matches_digits_head lo hi c s :
  (0 < lo)%nat → matches_digits lo hi (c :: s) → is_Some (to_decimal c).
Proof.
  intros Hlo (ds & Hds & Hlen & Hs). destruct ds as [|d ds]; [simpl in Hlen; lia|].
  apply Forall_cons in Hds as [Hd _]. by destruct Hs; simplify_eq/=.
Qed.

(** A string with a character that is neither a digit nor a line feed does
    not match. *)
Lemma re_match_digits_other lo hi s c :
  c ∈ s → (c < 128)%N → ascii_digit c = false → c ≠ 10%N →
  re_match_digits lo hi s = false.
Proof.
  intros Hin Hlt Hc Hnl. apply not_true_is_false.
  intros Hm%re_match_digits_spec.
  destruct (matches_digits_elem _ _ _ c Hm Hin) as [Hd| ->]; [|done].
  by apply (decimal_char_neq c c Hd).
Qed.

Lemma zfill_digits w ds :
  Forall (λ c, is_Some (to_decimal c)) ds →
  Forall (λ c, is_Some (to_decimal c)) (replicate w 48%N ++ ds).
Proof.
  intros Hds. apply Forall_app. split; [|done]. apply Forall_replicate.
  by rewrite to_decimal_ascii_digit by lia.
Qed.

(** Zero padding keeps a match: the zeros are digits, and the padded
    string is no longer than the longest match. *)
Lemma matches_digits_zfill lo hi w s :
  (lo < w ≤ hi)%nat → matches_digits lo hi s → matches_digits lo hi (str_zfill w s).
Proof.
  intros Hw (ds & Hds & Hlen & Hs).
  destruct (decide (w ≤ length s)%nat) as [Hle|Hgt].
  { rewrite str_zfill_ge by done. by exists ds. }
  rewrite str_zfill_unsigned.
  2: { intros c k Hck. destruct ds as [|d ds]; [by destruct Hs; simplify_eq/=|].
       apply Forall_cons in Hds as [? _]. apply decimal_not_sign.
       by destruct Hs; simplify_eq/=. }
  exists (replicate (w - length s) 48%N ++ ds). split; [by apply zfill_digits|].
  destruct Hs as [->| ->]; rewrite ?length_app, ?length_replicate in *; simpl in *.
  - split; [lia|by left].
  - split; [lia|right; by rewrite (assoc_L (++))].
Qed.

End matches.

Lemma str_replace_spec_witness :
  replaced (lit ".SH") [] (lit "1.SH") (lit "1") ↔ str_replace (lit ".SH") [] (lit "1.SH") = lit "1".
Proof. by apply str_replace_spec. Defined.
