(* ===== verification/PyInt.v ===== *)
(** * [int(s)] and [str(n)] for Python integers

    [int_of_str] is [int(s)] for a [str] argument in base 10, as CPython
    parses it: characters outside ASCII are first translated (white space
    to a blank, decimal digits of any script to ['0'..'9'], anything else
    to ['?']); then come optional white space, an optional sign, digits
    with single underscores between them, and optional white space.
    Anything else raises [ValueError].

    [str_of_int] is [str(n)]: the decimal digits, after ['-'] for a
    negative number.  The digit loop runs on fuel; [str_of_N_fuel] shows
    the fuel chosen is always enough.

    Not modelled: the limit on the number of digits that CPython 3.11
    enforces in both directions (4300 by default). *)

From S2P Require Import Prelude Unicode PyStr.

#[local] Open Scope N_scope.

Implicit Types (s t : list N) (c d : N).

(** ** Parsing *)

(** White space of the integer parser ([Py_ISSPACE]): TAB..CR and the
    blank. *)
Definition int_space (c : N) : bool := in_range 9 13 c || (c =? 32).

(** After a digit: more digits, each possibly preceded by one underscore.
    Returns the value read and what follows the number. *)
Fixpoint digits_go (acc : N) (s : list N) : option (N * list N) :=
  match s with
  | [] => Some (acc, [])
  | c :: s' =>
    if ascii_digit c then digits_go (acc * 10 + (c - 48)) s'
    else if c =? 95 then
      match s' with
      | d :: s'' =>
        if ascii_digit d then digits_go (acc * 10 + (d - 48)) s'' else None
      | [] => None
      end
    else Some (acc, s)
  end.

(** An optional sign: whether it is ['-'], and the rest. *)
Definition take_sign (s : list N) : bool * list N :=
  match s with
  | 43 :: s' => (false, s')
  | 45 :: s' => (true, s')
  | _ => (false, s)
  end.

(** The parser on the translated string. *)
Definition int_of_ascii (s : list N) : pyres Z :=
  let '(neg, t) := take_sign (drop_while int_space s) in
  match t with
  | d :: t' =>
    if ascii_digit d then
      match digits_go (d - 48) t' with
      | Some (v, rest) =>
        if forallb int_space rest
        then Ok (if neg then - Z.of_N v else Z.of_N v)%Z
        else Raise ValueError
      | None => Raise ValueError
      end
    else Raise ValueError
  | [] => Raise ValueError
  end.

Section with_db.
Context `{UnicodeDB}.

(** The translation to ASCII that precedes parsing. *)
Definition int_translate (c : N) : N :=
  if c <? 127 then c
  else if is_space_char c then 32
  else match to_decimal c with Some d => 48 + d | None => 63 end.

Definition int_of_str (s : list N) : pyres Z := int_of_ascii (int_translate <$> s).

End with_db.

(** ** Printing *)

Fixpoint digits_fuel (fuel : nat) (n : N) (acc : list N) : list N :=
  match fuel with
  | O => acc
  | S f =>
    let acc' := (48 + n mod 10) :: acc in
    if n <? 10 then acc' else digits_fuel f (n / 10) acc'
  end.

Definition str_of_N (n : N) : list N :=
  digits_fuel (S (N.to_nat (N.log2 n))) n [].

Definition str_of_int (z : Z) : list N :=
  if (z <? 0)%Z then 45 :: str_of_N (Z.abs_N z) else str_of_N (Z.to_N z).

(** ** Digit strings

    [digits_value] is the number a list of ASCII digits denotes. *)

Definition digits_value (ds : list N) : N :=
  foldl (λ a c, a * 10 + (c - 48)) 0 ds.

Definition all_ascii_digits (ds : list N) : bool := forallb ascii_digit ds.

(** ** Lemmas on digit strings *)

Lemma all_ascii_digits_spec ds :
  all_ascii_digits ds = true ↔ Forall (λ c, 48 ≤ c ≤ 57) ds.
Proof.
  unfold all_ascii_digits. rewrite forallb_forall, Forall_forall.
  setoid_rewrite <-list_elem_of_In. by setoid_rewrite ascii_digit_spec.
Qed.

Lemma all_ascii_digits_app ds1 ds2 :
  all_ascii_digits (ds1 ++ ds2) = all_ascii_digits ds1 && all_ascii_digits ds2.
Proof. apply forallb_app. Qed.

Lemma digits_value_app ds1 ds2 :
  digits_value (ds1 ++ ds2) = foldl (λ a c, a * 10 + (c - 48)) (digits_value ds1) ds2.
Proof. apply foldl_app. Qed.

Lemma digits_value_snoc ds c : digits_value (ds ++ [c]) = digits_value ds * 10 + (c - 48).
Proof. by rewrite digits_value_app. Qed.

Lemma digits_value_zeros k ds : digits_value (replicate k 48 ++ ds) = digits_value ds.
Proof.
  rewrite digits_value_app. f_equal.
  induction k as [|k IH]; [done|]. rewrite replicate_S_end, digits_value_snoc, IH. done.
Qed.

Lemma digits_go_digits acc ds :
  all_ascii_digits ds = true →
  digits_go acc ds = Some (foldl (λ a c, a * 10 + (c - 48)) acc ds, []).
Proof.
  revert acc. induction ds as [|c ds IH]; intros acc; simpl; [done|].
  intros [-> Hds]%andb_true_iff. by apply IH.
Qed.

Lemma digit_not_int_space c : ascii_digit c = true → int_space c = false.
Proof. unfold ascii_digit, int_space, in_range. lia. Qed.

Lemma take_sign_digit c s : ascii_digit c = true → take_sign (c :: s) = (false, c :: s).
Proof.
  intros Hc%ascii_digit_spec. unfold take_sign.
  destruct c as [|p]; [lia|].
  repeat (destruct p as [p|p|]; try done; try lia).
Qed.

(** [int] of a non-empty string of ASCII digits is the number they denote. *)
Lemma int_of_ascii_digits ds :
  ds ≠ [] → all_ascii_digits ds = true →
  int_of_ascii ds = Ok (Z.of_N (digits_value ds)).
Proof.
  destruct ds as [|c ds]; [done|]. intros _ Hds.
  pose proof Hds as [Hc Hds']%andb_true_iff.
  unfold int_of_ascii. rewrite drop_while_head by by apply digit_not_int_space.
  rewrite take_sign_digit, Hc by done.
  rewrite digits_go_digits by done. simpl. done.
Qed.

Lemma int_of_ascii_neg_digits ds :
  ds ≠ [] → all_ascii_digits ds = true →
  int_of_ascii (45 :: ds) = Ok (- Z.of_N (digits_value ds))%Z.
Proof.
  destruct ds as [|c ds]; [done|]. intros _ Hds.
  pose proof Hds as [Hc Hds']%andb_true_iff.
  unfold int_of_ascii. rewrite drop_while_head by done. simpl take_sign. cbv iota beta.
  rewrite Hc, digits_go_digits by done. simpl. done.
Qed.

(** [int] raises nothing but [ValueError] on a string. *)
Lemma int_of_ascii_raises (s : list N) e : int_of_ascii s = Raise e → e = ValueError.
Proof. unfold int_of_ascii. repeat case_match; congruence. Qed.

Section with_db.
Context `{UnicodeDB}.

Lemma int_of_str_raises (s : list N) e : int_of_str s = Raise e → e = ValueError.
Proof. apply int_of_ascii_raises. Qed.

Lemma int_translate_ascii c : c < 127 → int_translate c = c.
Proof. intros Hc. unfold int_translate. by rewrite (proj2 (N.ltb_lt _ _) Hc). Qed.

Lemma int_translate_ascii_str s : Forall (λ c, c < 127) s → int_translate <$> s = s.
Proof.
  induction 1 as [|c s Hc _ IH]; [done|]. csimpl. by rewrite int_translate_ascii, IH.
Qed.

Lemma all_ascii_digits_lt ds : all_ascii_digits ds = true → Forall (λ c, c < 127) ds.
Proof.
  intros Hds%all_ascii_digits_spec. eapply Forall_impl; [done|]. simpl. lia.
Qed.

Lemma int_of_str_digits ds :
  ds ≠ [] → all_ascii_digits ds = true →
  int_of_str ds = Ok (Z.of_N (digits_value ds)).
Proof.
  intros Hne Hds. unfold int_of_str.
  rewrite int_translate_ascii_str by by apply all_ascii_digits_lt.
  by apply int_of_ascii_digits.
Qed.

End with_db.

(** ** Lemmas on printing *)

Lemma digits_fuel_S f n acc :
  digits_fuel (S f) n acc =
  if n <? 10 then (48 + n mod 10) :: acc
  else digits_fuel f (n / 10) ((48 + n mod 10) :: acc).
Proof. done. Qed.

Lemma digits_fuel_spec f n acc :
  n < 2 ^ N.of_nat (S f) →
  ∃ ds, digits_fuel (S f) n acc = ds ++ acc
        ∧ ds ≠ [] ∧ all_ascii_digits ds = true ∧ digits_value ds = n.
Proof.
  revert n acc. induction f as [|f IH]; intros n acc Hn.
  - exists [48 + n]. change (2 ^ N.of_nat 1) with 2 in Hn.
    rewrite digits_fuel_S. replace (n mod 10) with n by (symmetry; apply N.mod_small; lia).
    destruct (N.ltb_spec n 10); [|lia].
    split_and!; [done..| |unfold digits_value; simpl; lia].
    unfold all_ascii_digits, ascii_digit, in_range; simpl. lia.
  - rewrite digits_fuel_S. destruct (N.ltb_spec n 10) as [Hlt|Hge].
    + exists [48 + n mod 10]. rewrite N.mod_small by done.
      split_and!; [done..| |unfold digits_value; simpl; lia].
      unfold all_ascii_digits, ascii_digit, in_range; simpl. lia.
    + destruct (IH (n / 10) ((48 + n mod 10) :: acc)) as (ds & -> & Hne & Hds & Hv).
      { rewrite Nat2N.inj_succ, N.pow_succ_r' in Hn.
        apply N.Div0.div_lt_upper_bound. lia. }
      exists (ds ++ [48 + n mod 10]). rewrite <-app_assoc. split_and!; [done| | |].
      * by destruct ds.
      * rewrite all_ascii_digits_app, Hds. simpl.
        pose proof (N.mod_upper_bound n 10).
        unfold ascii_digit, in_range. lia.
      * rewrite digits_value_snoc, Hv. pose proof (N.Div0.div_mod n 10). lia.
Qed.

Lemma str_of_N_spec n :
  str_of_N n ≠ [] ∧ all_ascii_digits (str_of_N n) = true ∧ digits_value (str_of_N n) = n.
Proof.
  destruct (digits_fuel_spec (N.to_nat (N.log2 n)) n []) as (ds & E & ?).
  - rewrite Nat2N.inj_succ, N2Nat.id. destruct n as [|p]; [done|].
    apply N.log2_spec. lia.
  - unfold str_of_N. rewrite E, app_nil_r. done.
Qed.

Lemma str_of_int_neg z : (z < 0)%Z → ∃ ds, str_of_int z = 45 :: ds.
Proof. intros Hz. unfold str_of_int. rewrite (proj2 (Z.ltb_lt _ _)) by done. eauto. Qed.

Lemma str_of_int_nonneg z :
  (0 ≤ z)%Z → str_of_int z ≠ [] ∧ all_ascii_digits (str_of_int z) = true.
Proof.
  intros Hz. unfold str_of_int. rewrite (proj2 (Z.ltb_ge _ _)) by done.
  destruct (str_of_N_spec (Z.to_N z)) as (? & ? & _). done.
Qed.

(** [str(z)] is made of digits and of ['-']. *)
Lemma str_of_int_chars z c : c ∈ str_of_int z → ascii_digit c = true ∨ c = 45.
Proof.
  unfold str_of_int. destruct (z <? 0)%Z.
  - intros [->|Hc]%elem_of_cons; [by right|]. left.
    destruct (str_of_N_spec (Z.abs_N z)) as (_ & Hds%all_ascii_digits_spec & _).
    rewrite Forall_forall in Hds. by apply ascii_digit_spec, Hds.
  - intros Hc. left.
    destruct (str_of_N_spec (Z.to_N z)) as (_ & Hds%all_ascii_digits_spec & _).
    rewrite Forall_forall in Hds. by apply ascii_digit_spec, Hds.
Qed.

Lemma str_of_int_no_dot z : 46 ∉ str_of_int z.
Proof. by intros [?| ?]%str_of_int_chars. Qed.
(** Fuel beyond the binary length of the number is not used. *)
Lemma digits_fuel_more f k n acc :
  n < 2 ^ N.of_nat (S f) → digits_fuel (S f + k) n acc = digits_fuel (S f) n acc.
Proof.
  revert n acc. induction f as [|f IH]; intros n acc Hn.
  - change (1 + k)%nat with (S k). rewrite !digits_fuel_S.
    change (2 ^ N.of_nat 1) with 2 in Hn. by destruct (N.ltb_spec n 10); [|lia].
  - change (S (S f) + k)%nat with (S (S f + k)). rewrite !digits_fuel_S.
    destruct (N.ltb_spec n 10); [done|]. apply IH.
    rewrite Nat2N.inj_succ, N.pow_succ_r' in Hn.
    apply N.Div0.div_lt_upper_bound. lia.
Qed.

(** C40: the digit loop of [str] stops within the fuel it is given: with
    any amount of fuel beyond [S (log2 n)] it returns the digits it returns
    with that amount, so the fuel never cuts a number short. *)
Theorem str_of_N_fuel n k :
  digits_fuel (S (N.to_nat (N.log2 n)) + k) n [] = str_of_N n.
Proof.
  apply digits_fuel_more. rewrite Nat2N.inj_succ, N2Nat.id.
  destruct n as [|p]; [done|]. apply N.log2_spec. lia.
Qed.

(** ** Round trip and padding *)

Section roundtrip.
Context `{UnicodeDB}.

Lemma all_ascii_digits_not_sign ds c k :
  all_ascii_digits ds = true → ds = c :: k → is_sign c = false.
Proof.
  intros Hds ->. apply andb_true_iff in Hds as [Hc%ascii_digit_spec _].
  unfold is_sign. lia.
Qed.

Lemma all_ascii_digits_zeros k ds :
  all_ascii_digits ds = true → all_ascii_digits (replicate k 48 ++ ds) = true.
Proof.
  intros Hds. rewrite all_ascii_digits_app, Hds, andb_true_r.
  apply forallb_forall. by intros c [-> _]%list_elem_of_In%elem_of_replicate.
Qed.

(** [int(str(z)) == z] for every integer [z]: printing an integer and
    parsing the result gives the integer back, whatever its sign and size. *)
Lemma int_of_str_of_int z : int_of_str (str_of_int z) = Ok z.
Proof.
  unfold str_of_int. destruct (Z.ltb_spec z 0) as [Hneg|Hpos].
  - destruct (str_of_N_spec (Z.abs_N z)) as (Hne & Hds & Hv).
    unfold int_of_str. rewrite int_translate_ascii_str.
    + rewrite int_of_ascii_neg_digits, Hv by done. f_equal. lia.
    + constructor; [done|]. by apply all_ascii_digits_lt.
  - destruct (str_of_N_spec (Z.to_N z)) as (Hne & Hds & Hv).
    rewrite int_of_str_digits, Hv by done. f_equal. lia.
Qed.

(** [int(ds.zfill(w)) == int(ds)] for a non-empty string [ds] of ASCII
    digits: the zero padding of [process_cell] does not change the number an
    identifier denotes. *)
Lemma int_of_str_zfill w ds :
  ds ≠ [] → all_ascii_digits ds = true →
  int_of_str (str_zfill w ds) = int_of_str ds.
Proof.
  intros Hne Hds.
  rewrite str_zfill_unsigned by (intros; by eapply all_ascii_digits_not_sign).
  set (k := (w - length ds)%nat).
  pose proof (all_ascii_digits_zeros k ds Hds) as Hpad.
  rewrite (int_of_str_digits ds), int_of_str_digits by (done || by destruct ds, k).
  by rewrite digits_value_zeros.
Qed.

End roundtrip.

(** [str] is injective on integers: two integers that print the same are
    equal. *)
Lemma str_of_int_inj z1 z2 : str_of_int z1 = str_of_int z2 → z1 = z2.
Proof.
  intros Heq. pose proof (int_of_str_of_int (H := ascii_db) z1) as H1.
  rewrite Heq, int_of_str_of_int in H1. congruence.
Qed.

