(* ===== verification/PyFloat.v ===== *)
(** * [str(x)] for Python floats

    [float_repr] is [repr(x)], which is also [str(x)], for a binary64
    float: the sign, then the shortest string of decimal digits that reads
    back as [x], laid out in positional notation when the decimal point
    falls within the digits or at most 16 places after their start and at
    most 3 zeros before it, and in exponent notation otherwise.

    A float [m * 2^e] is the only float in the interval that ends half way
    to its two neighbours; the ends belong to it when [m] is even.
    [shortest_at] looks for the multiples of [10^k] in that interval and
    takes the nearest to [x] (of two equally near, the one whose last
    digit is even); [shortest] tries [k] from above, so the first
    [k] that has one gives the fewest digits.  The search runs on fuel:
    the interval is wider than [10^k] after at most 17 digits, and the
    start is at most 3 above the decimal exponent of [x], so 40 steps are
    more than enough.  All comparisons are exact, on integers.

    The lemmas say which characters a float prints with
    ([float_repr_alphabet]) and that one of them is a character no integer
    prints with ([float_repr_marker]).  The theorems on the search say it
    never runs out of fuel on a binary64 float ([shortest_total]) and that
    its digits denote a number that rounds to the float, with no fewer
    digits possible ([shortest_sound]); [rounds_to] is the specification. *)

From Stdlib Require Import SpecFloat.
From S2P Require Import Prelude Unicode PyStr PyInt.

#[local] Open Scope Z_scope.

(** ** The shortest digits *)

Definition ceil_div (a b : Z) : Z := - ((- a) / b).

(** [a / b] rounded to the nearest integer, and to the even one of the two
    when it is half way. *)
Definition round_half_even (a b : Z) : Z :=
  let q := a / b in
  let r := a mod b in
  if 2 * r <? b then q
  else if b <? 2 * r then q + 1
  else if Z.even q then q else q + 1.

(** The multiple [d * 10^k] nearest to [m * 2^e] among those that round to
    it, if there is one.  The unit is a quarter of [2^e]: the float is
    [4 m], the upper end [4 m + 2], and the lower end [4 m - 2], or
    [4 m - 1] when the float below is twice as near (the mantissa is the
    least one of its binade). *)
Definition shortest_at (m : positive) (e k : Z) : option Z :=
  let x := e - 2 in
  let boundary := (Z.pos m =? 2 ^ 52) && (-1074 <? e) in
  let mid := 4 * Z.pos m in
  let lo := mid - (if boundary then 1 else 2) in
  let hi := mid + 2 in
  let up := 2 ^ Z.max x 0 * 10 ^ Z.max (- k) 0 in
  let den := 2 ^ Z.max (- x) 0 * 10 ^ Z.max k 0 in
  let closed := Z.even (Z.pos m) in
  let d_min := if closed then ceil_div (lo * up) den else lo * up / den + 1 in
  let d_max := if closed then hi * up / den else ceil_div (hi * up) den - 1 in
  if d_min <=? d_max
  then Some (Z.max d_min (Z.min d_max (round_half_even (mid * up) den)))
  else None.

Fixpoint shortest_go (fuel : nat) (m : positive) (e k : Z) : option (Z * Z) :=
  match fuel with
  | O => None
  | S f =>
    match shortest_at m e k with
    | Some d => Some (d, k)
    | None => shortest_go f m e (k - 1)
    end
  end.

(** An exponent [k] with [10^k] above the float. *)
Definition shortest_start (m : positive) (e : Z) : Z :=
  (Z.log2 (Z.pos m) + 1 + e) * 30103 / 100000 + 2.

Definition shortest (m : positive) (e : Z) : option (Z * Z) :=
  shortest_go 40 m e (shortest_start m e).

(** ** The layout *)

(** The exponent, with two digits at least. *)
Definition exp_digits (x : Z) : list N :=
  let s := str_of_int (Z.abs x) in
  if (length s <? 2)%nat then 48%N :: s else s.

(** [digits] with the decimal point after the first [decpt] of them. *)
Definition format_repr (digits : list N) (decpt : Z) : list N :=
  let n := Z.of_nat (length digits) in
  if (-4 <? decpt) && (decpt <=? 16) then
    if decpt <=? 0 then lit "0." ++ replicate (Z.to_nat (- decpt)) 48%N ++ digits
    else if n <=? decpt then digits ++ replicate (Z.to_nat (decpt - n)) 48%N ++ lit ".0"
    else take (Z.to_nat decpt) digits ++ [46%N] ++ drop (Z.to_nat decpt) digits
  else
    let mantissa :=
      match digits with
      | d :: ((_ :: _) as rest) => d :: 46%N :: rest
      | _ => digits
      end in
    mantissa ++ [101%N; if decpt - 1 <? 0 then 45%N else 43%N] ++ exp_digits (decpt - 1).

(** ** [repr] *)

Definition float_repr (f : spec_float) : list N :=
  match f with
  | S754_nan => lit "nan"
  | S754_infinity s => if s then lit "-inf" else lit "inf"
  | S754_zero s => if s then lit "-0.0" else lit "0.0"
  | S754_finite s m e =>
    match shortest m e with
    | Some (d, k) =>
      let digits := str_of_int d in
      (if s then [45%N] else []) ++ format_repr digits (Z.of_nat (length digits) + k)
    | None => []
    end
  end.

(** ** The characters of [repr] *)

Definition float_alphabet : list N := lit "0123456789.e+-infa".

(** The characters that tell a float from an integer. *)
Definition float_markers : list N := lit ".ein".

Definition in_alphabet (s : list N) : Prop := Forall (λ c, c ∈ float_alphabet) s.

(** ** The digits, specified

    In the unit of [shortest_at] the float [m * 2^e] is [4 m] and the
    numbers that round to it lie between [interval_lo] and [interval_hi];
    [d * 10^k] in that unit is the fraction [d * scale_den / scale_up].
    [rounds_to m e d k] says [d * 10^k] rounds to the float: it lies in the
    interval, whose ends belong to it when [m] is even. *)

Definition scale_up (e k : Z) : Z := 2 ^ Z.max (e - 2) 0 * 10 ^ Z.max (- k) 0.
Definition scale_den (e k : Z) : Z := 2 ^ Z.max (- (e - 2)) 0 * 10 ^ Z.max k 0.

Definition interval_lo (m : positive) (e : Z) : Z :=
  4 * Z.pos m - (if (Z.pos m =? 2 ^ 52) && (-1074 <? e) then 1 else 2).
Definition interval_hi (m : positive) : Z := 4 * Z.pos m + 2.

Definition rounds_to (m : positive) (e d k : Z) : Prop :=
  if Z.even (Z.pos m)
  then interval_lo m e * scale_up e k ≤ d * scale_den e k ≤ interval_hi m * scale_up e k
  else interval_lo m e * scale_up e k < d * scale_den e k < interval_hi m * scale_up e k.

(** An exponent at which the interval is wider than [10^k], so that it
    holds a multiple of [10^k] whatever the mantissa; the table checks it
    for every exponent of binary64. *)
Definition k_low (e : Z) : Z := (e - 2) * 30103 / 100000 - 1.

Definition k_low_ok (e : Z) : bool := scale_den e (k_low e) <=? scale_up e (k_low e).

(** ** The characters of [repr], lemmas *)

Lemma in_alphabet_app s t : in_alphabet s → in_alphabet t → in_alphabet (s ++ t).
Proof. intros. by apply Forall_app. Qed.

Lemma in_alphabet_digit c : ascii_digit c = true → c ∈ float_alphabet.
Proof.
  intros Hc%ascii_digit_spec. destruct c as [|p]; [lia|].
  do 6 (destruct p as [p|p|]; try lia); compute_done.
Qed.

Lemma in_alphabet_str_of_int z : in_alphabet (str_of_int z).
Proof.
  apply Forall_forall. intros c [?| ->]%str_of_int_chars; [by apply in_alphabet_digit|].
  compute_done.
Qed.

Lemma in_alphabet_exp_digits x : in_alphabet (exp_digits x).
Proof.
  unfold exp_digits. case_match; [|apply in_alphabet_str_of_int].
  constructor; [compute_done|apply in_alphabet_str_of_int].
Qed.

Lemma in_alphabet_format_repr digits decpt :
  in_alphabet digits → in_alphabet (format_repr digits decpt).
Proof.
  intros Hd. unfold format_repr. repeat case_match; subst;
    repeat (apply in_alphabet_app || apply Forall_cons_2 || apply Forall_nil_2
            || apply Forall_replicate || apply Forall_take || apply Forall_drop
            || apply in_alphabet_exp_digits);
    try done; try compute_done.
  all: by repeat (apply Forall_cons in Hd as [? Hd]).
Qed.

Lemma float_repr_alphabet f : in_alphabet (float_repr f).
Proof.
  destruct f as [s|s| |s m e]; cbn [float_repr].
  1-3: try destruct s; apply (bool_decide_unpack _); by vm_compute.
  destruct (shortest m e) as [[d k]|]; [|constructor].
  apply in_alphabet_app; [destruct s; [apply Forall_singleton; compute_done|apply Forall_nil_2]|].
  apply in_alphabet_format_repr, in_alphabet_str_of_int.
Qed.

Lemma format_repr_marker digits decpt :
  46%N ∈ format_repr digits decpt ∨ 101%N ∈ format_repr digits decpt.
Proof.
  unfold format_repr. destruct (_ && _); [left|right].
  - repeat case_match; rewrite !elem_of_app; [left|right; right|right; left]; compute_done.
  - rewrite elem_of_app. right. by left.
Qed.

(** A float prints with a character no integer has. *)
Lemma float_repr_marker f :
  float_repr f = [] ∨ ∃ c, c ∈ float_repr f ∧ c ∈ float_markers.
Proof.
  destruct f as [s|s| |s m e]; cbn [float_repr].
  - right. exists 46%N. destruct s; split; compute_done.
  - right. exists 105%N. destruct s; split; compute_done.
  - right. exists 110%N. split; compute_done.
  - destruct (shortest m e) as [[d k]|]; [right|by left].
    destruct (format_repr_marker (str_of_int d) (Z.of_nat (length (str_of_int d)) + k));
      [exists 46%N|exists 101%N]; (split; [apply elem_of_app; by right|compute_done]).
Qed.

(** ** The search finds the digits *)

Lemma scale_up_pos e k : 0 < scale_up e k.
Proof. unfold scale_up. apply Z.mul_pos_pos; apply Z.pow_pos_nonneg; lia. Qed.
Lemma scale_den_pos e k : 0 < scale_den e k.
Proof. unfold scale_den. apply Z.mul_pos_pos; apply Z.pow_pos_nonneg; lia. Qed.

Lemma ceil_div_le a b d : 0 < b → ceil_div a b ≤ d ↔ a ≤ d * b.
Proof.
  intros Hb. unfold ceil_div. 
  pose proof (Z.div_mod (- a) b ltac:(lia)). pose proof (Z.mod_pos_bound (- a) b Hb). nia.
Qed.

Lemma div_ge a b d : 0 < b → d ≤ a / b ↔ d * b ≤ a.
Proof.
  intros Hb. pose proof (Z.div_mod a b ltac:(lia)). pose proof (Z.mod_pos_bound a b Hb). nia.
Qed.

Lemma k_low_table : forallb k_low_ok (seqZ (-1074) 2046) = true.
Proof. vm_compute. reflexivity. Qed.

Lemma ceil_div_ge a b d : 0 < b → d < ceil_div a b ↔ d * b < a.
Proof. intros Hb. pose proof (ceil_div_le a b d Hb). lia. Qed.

Lemma div_lt a b d : 0 < b → a / b < d ↔ a < d * b.
Proof. intros Hb. pose proof (div_ge a b d Hb). lia. Qed.

Lemma clamp_between (lo hi r den a b : Z) :
  0 < den → lo ≤ hi → a ≤ lo * den → hi * den ≤ b →
  a ≤ Z.max lo (Z.min hi r) * den ≤ b.
Proof. intros. nia. Qed.

Lemma clamp_strictly_between (lo hi r den a b : Z) :
  0 < den → lo ≤ hi → a < lo * den → hi * den < b →
  a < Z.max lo (Z.min hi r) * den < b.
Proof. intros. nia. Qed.

(** [shortest_at] decides whether a multiple of [10^k] rounds to the float,
    and gives one that does. *)
Lemma shortest_at_iff m e k :
  match shortest_at m e k with
  | Some d => rounds_to m e d k
  | None => ∀ d, ¬ rounds_to m e d k
  end.
Proof.
  pose proof (scale_den_pos e k) as Hden.
  unfold shortest_at, rounds_to. cbv zeta.
  fold (scale_up e k) (scale_den e k) (interval_lo m e) (interval_hi m).
  set (a := interval_lo m e * scale_up e k). set (b := interval_hi m * scale_up e k).
  set (r := round_half_even _ _). set (den := scale_den e k) in *.
  destruct (Z.even (Z.pos m)); destruct (_ <=? _) eqn:Hle; bool_prop.
  - apply clamp_between; [done|lia| |].
    + by apply ceil_div_le.
    + by apply div_ge.
  - intros d [Ha Hb]. apply (ceil_div_le _ _ _ Hden) in Ha. apply (div_ge _ _ _ Hden) in Hb. lia.
  - apply clamp_strictly_between; [done|lia| |].
    + apply div_lt; [done|lia].
    + apply ceil_div_ge; [done|lia].
  - intros d [Ha Hb]. apply (div_lt _ _ _ Hden) in Ha. apply (ceil_div_ge _ _ _ Hden) in Hb. lia.
Qed.

Lemma rounds_to_wide m e k : scale_den e k ≤ scale_up e k → ∃ d, rounds_to m e d k.
Proof.
  intros Hwide. pose proof (scale_den_pos e k) as Hden. pose proof (scale_up_pos e k) as Hup.
  set (mid := 4 * Z.pos m * scale_up e k).
  exists (ceil_div mid (scale_den e k)).
  pose proof (proj1 (ceil_div_le mid _ (ceil_div mid (scale_den e k)) Hden) ltac:(lia)) as Hlo.
  pose proof (proj1 (ceil_div_ge mid _ (ceil_div mid (scale_den e k) - 1) Hden) ltac:(lia)) as Hhi.
  assert (interval_lo m e ≤ 4 * Z.pos m - 1) as Hl by (unfold interval_lo; case_match; lia).
  unfold rounds_to, interval_hi. subst mid. case_match; nia.
Qed.

Lemma shortest_at_wide m e k :
  scale_den e k ≤ scale_up e k → is_Some (shortest_at m e k).
Proof.
  intros [d Hd]%(rounds_to_wide m). pose proof (shortest_at_iff m e k) as Hk.
  destruct (shortest_at m e k); [done|]. by destruct (Hk d).
Qed.

Lemma shortest_go_reaches fuel m e k k0 :
  is_Some (shortest_at m e k0) → k0 ≤ k < k0 + Z.of_nat fuel →
  is_Some (shortest_go fuel m e k).
Proof.
  intros Hk0. revert k. induction fuel as [|fuel IH]; intros k Hk; [lia|].
  simpl. destruct (shortest_at m e k) eqn:E; [done|]. apply IH.
  assert (k ≠ k0) by (intros ->; rewrite E in Hk0; by destruct Hk0). lia.
Qed.

(** The search stops at the first exponent, from above, that has one. *)
Lemma shortest_go_first fuel m e k d k' :
  shortest_go fuel m e k = Some (d, k') →
  shortest_at m e k' = Some d ∧ k' ≤ k ∧ ∀ j, k' < j ≤ k → shortest_at m e j = None.
Proof.
  revert k. induction fuel as [|fuel IH]; intros k; [done|]. simpl.
  destruct (shortest_at m e k) eqn:E.
  - intros [= <- <-]. split_and!; [done|lia|lia].
  - intros (? & ? & Hj)%IH. split_and!; [done|lia|]. intros j Hjk.
    destruct (decide (j = k)) as [->|]; [done|]. apply Hj. lia.
Qed.

Lemma digits2_pos_size m : digits2_pos m = Pos.size m.
Proof. induction m; simpl; congruence. Qed.

(** The mantissa and the exponent of a binary64 float. *)
Lemma bounded_binary64 m e :
  bounded 53 1024 m e = true → Z.log2 (Z.pos m) ≤ 52 ∧ -1074 ≤ e ≤ 971.
Proof.
  unfold bounded, canonical_mantissa, fexp, emin. intros [Hc He]%andb_true_iff.
  apply Z.eqb_eq in Hc. rewrite digits2_pos_size in Hc.
  assert (Z.pos (Pos.size m) = Z.log2 (Z.pos m) + 1) as Hs.
  { destruct m; simpl; lia. }
  lia.
Qed.

Lemma k_low_wide e : -1074 ≤ e ≤ 971 → scale_den e (k_low e) ≤ scale_up e (k_low e).
Proof.
  intros He. pose proof k_low_table as Ht.
  rewrite forallb_forall in Ht. specialize (Ht e). unfold k_low_ok in Ht.
  apply Z.leb_le, Ht, list_elem_of_In, elem_of_seqZ. lia.
Qed.

(** C24: the search for the digits of a float never runs out of fuel:
    for every finite binary64 float (a mantissa below [2^53] and an exponent
    from -1074 to 971) [shortest] returns digits and an exponent, so [str]
    of a float is never the empty text of the exhausted search. *)
Theorem shortest_total m e :
  bounded 53 1024 m e = true → ∃ d k, shortest m e = Some (d, k).
Proof.
  intros [Hm He]%bounded_binary64.
  assert (is_Some (shortest m e)) as [[d k] Hs]; [|by eauto].
  apply (shortest_go_reaches _ _ _ _ (k_low e)); [by apply shortest_at_wide, k_low_wide|].
  pose proof (Z.log2_nonneg (Z.pos m)). unfold shortest_start, k_low. lia.
Qed.

(** C25: the digits [str] prints for a float denote a number that
    rounds to that float, and no number with fewer digits does: [d * 10^k]
    lies in the rounding interval of [m * 2^e], and no multiple of a greater
    power of ten, up to the power the search starts from, lies in it. *)
Theorem shortest_sound m e d k :
  shortest m e = Some (d, k) →
  rounds_to m e d k ∧ ∀ d' k', k < k' ≤ shortest_start m e → ¬ rounds_to m e d' k'.
Proof.
  intros (Hd & _ & Hj)%shortest_go_first.
  pose proof (shortest_at_iff m e k) as Hk. rewrite Hd in Hk. split; [done|].
  intros d' k' Hk'. pose proof (shortest_at_iff m e k') as Hn. by rewrite (Hj k' Hk') in Hn.
Qed.

(** ** The theorems on 0.1

    The float nearest to 0.1 is [7205759403792794 * 2^-56]; it prints with
    the digit 1 and the exponent -1. *)

Lemma shortest_total_witness : ∃ d k, shortest 7205759403792794 (-56) = Some (d, k).
Proof. apply shortest_total. reflexivity. Defined.

Lemma shortest_sound_witness :
  rounds_to 7205759403792794 (-56) 1 (-1)
  ∧ ∀ d' k', -1 < k' ≤ shortest_start 7205759403792794 (-56)
             → ¬ rounds_to 7205759403792794 (-56) d' k'.
Proof. apply shortest_sound. reflexivity. Defined.
