(* ===== verification/Scalar.v ===== *)
(** * Column values: comparison, descending sort and position of a value

    The values of a pandas column are compared by [==] and [<], and a
    missing value (NaN) compares false with everything.  The interface
    [Scalar] states this for the three kinds of values a column read from
    a CSV file holds: 64-bit integers ([Z]), binary64 floats ([spec_float]
    of the Standard Library, NaN included) and objects (a string or a
    missing value, [option (list N)]).

    On top of the interface:
    - [sort_desc], the values of [Series.sort_values(ascending=False)]:
      the present values in descending order, then the missing ones;
    - [first_index_eq], the first position whose value [==] a given one;
    - [count_gt], the number of values strictly greater than a given one,
      the reference definition of a rank.
    [first_index_sorted] relates them for ANY descending arrangement of the
    column, so the rank does not depend on the sorting algorithm or on its
    stability. *)

From Stdlib Require Import SpecFloat.
From S2P Require Import Prelude.

(** ** The interface *)

Class Scalar (V : Type) : Type := {
  (** missing value (NaN) *)
  sc_isna : V → bool;
  (** three-way comparison; [None] when a side is missing *)
  sc_compare : V → V → option comparison;
  sc_compare_na : ∀ x y,
    sc_compare x y = None ↔ sc_isna x = true ∨ sc_isna y = true;
  sc_compare_refl : ∀ x, sc_isna x = false → sc_compare x x = Some Eq;
  sc_compare_sym : ∀ x y c,
    sc_compare x y = Some c → sc_compare y x = Some (CompOpp c);
  sc_compare_trans : ∀ x y z c,
    sc_compare x y = Some c → sc_compare y z = Some c → sc_compare x z = Some c;
  sc_compare_eq_l : ∀ x y z,
    sc_compare x y = Some Eq → sc_compare x z = sc_compare y z
}.

Section scalar_ops.
Context {V : Type} `{Scalar V}.
Implicit Types (x y z v : V) (xs srt : list V).

(** [x == y] and [x < y] *)
Definition sc_eqb x y : bool :=
  match sc_compare x y with Some Eq => true | _ => false end.
Definition sc_ltb x y : bool :=
  match sc_compare x y with Some Lt => true | _ => false end.

(** [x] may stand before [y] in descending order. *)
Definition desc : relation V := λ x y, sc_ltb x y = false.

#[export] Instance desc_dec : RelDecision desc.
Proof. intros x y. unfold desc. apply _. Defined.

(** [s.sort_values(ascending=False)]: missing values last. *)
Definition sort_desc xs : list V :=
  merge_sort desc (filter (λ x, sc_isna x = false) xs)
  ++ filter (λ x, sc_isna x = true) xs.

(** Position of the first value that [== v]. *)
Fixpoint first_index_eq v xs : option nat :=
  match xs with
  | [] => None
  | x :: xs' => if sc_eqb x v then Some 0 else S <$> first_index_eq v xs'
  end.

(** Number of values strictly greater than [v]. *)
Definition count_gt v xs : nat := length (filter (λ x, sc_ltb v x = true) xs).

End scalar_ops.

(** ** Integers *)

#[export] Program Instance Z_scalar : Scalar Z := {|
  sc_isna := λ _, false;
  sc_compare := λ x y, Some (x ?= y)%Z
|}.
Next Obligation. intros x y. split; [done|]. by intros [|]. Qed.
Next Obligation. intros x _. cbn. by rewrite Z.compare_refl. Qed.
Next Obligation. intros x y c [= <-]. cbn. by rewrite Z.compare_antisym. Qed.
Next Obligation.
  intros x y z c [= <-] [= E]. cbn. f_equal. revert E.
  destruct (Z.compare_spec x y), (Z.compare_spec y z), (Z.compare_spec x z);
    (done || lia).
Qed.
Next Obligation. by intros x y z [= ->%Z.compare_eq]. Qed.

(** ** Strings and objects

    Python compares strings by code point, lexicographically. *)

Fixpoint str_compare (a b : list N) : comparison :=
  match a, b with
  | [], [] => Eq
  | [], _ :: _ => Lt
  | _ :: _, [] => Gt
  | c :: a', d :: b' =>
    match (c ?= d)%N with
    | Eq => str_compare a' b'
    | o => o
    end
  end.

Lemma str_compare_refl a : str_compare a a = Eq.
Proof. induction a as [|c a IH]; simpl; [done|]. by rewrite N.compare_refl. Qed.

Lemma str_compare_eq a b : str_compare a b = Eq → a = b.
Proof.
  revert b. induction a as [|c a IH]; intros [|d b]; simpl; try done.
  destruct (N.compare_spec c d) as [->| |]; try done. by intros ->%IH.
Qed.

Lemma str_compare_sym a b : str_compare b a = CompOpp (str_compare a b).
Proof.
  revert b. induction a as [|c a IH]; intros [|d b]; simpl; try done.
  rewrite (N.compare_antisym c d). destruct (c ?= d)%N; simpl; [apply IH|done..].
Qed.

Lemma str_compare_lt_trans a b c :
  str_compare a b = Lt → str_compare b c = Lt → str_compare a c = Lt.
Proof.
  revert b c. induction a as [|x a IH]; intros [|y b] [|z c]; simpl; try done.
  destruct (N.compare_spec x y) as [->|Hxy|Hxy]; [|intros _|done].
  - destruct (z ?= y)%N eqn:E; rewrite N.compare_antisym, E; simpl; eauto.
  - destruct (N.compare_spec y z) as [->|Hyz|Hyz]; [| |done]; intros _.
    + by rewrite (proj2 (N.compare_lt_iff x z)).
    + rewrite (proj2 (N.compare_lt_iff x z)); [done|lia].
Qed.

Lemma str_compare_trans a b c o :
  str_compare a b = o → str_compare b c = o → str_compare a c = o.
Proof.
  destruct o; intros Hab Hbc.
  - apply str_compare_eq in Hab as ->. apply str_compare_eq in Hbc as ->.
    apply str_compare_refl.
  - by eapply str_compare_lt_trans.
  - rewrite str_compare_sym in Hab, Hbc |- *.
    apply (f_equal CompOpp) in Hab, Hbc. rewrite CompOpp_involutive in Hab, Hbc.
    by rewrite (str_compare_lt_trans c b a).
Qed.

Definition obj_compare (a b : option (list N)) : option comparison :=
  match a, b with
  | Some a, Some b => Some (str_compare a b)
  | _, _ => None
  end.

#[export] Program Instance obj_scalar : Scalar (option (list N)) := {|
  sc_isna := λ o, bool_decide (o = None);
  sc_compare := obj_compare
|}.
Next Obligation.
  intros [a|] [b|]; simpl; rewrite ?bool_decide_eq_true;
    split; (done || (by intros [|]) || eauto).
Qed.
Next Obligation. intros [a|]; simpl; [|done]. by rewrite str_compare_refl. Qed.
Next Obligation.
  intros [a|] [b|] c; simpl; try done. intros [= <-]. by rewrite str_compare_sym.
Qed.
Next Obligation.
  intros [x|] [y|] [z|] c; simpl; try done. intros [= Hxy] [= Hyz]. f_equal.
  by eapply str_compare_trans.
Qed.
Next Obligation.
  intros [x|] [y|] z; simpl; try done. by intros [= ->%str_compare_eq].
Qed.

(** ** Floats

    Binary64 values are [spec_float]; [SFcompare] is the IEEE comparison
    (the two zeros are equal, NaN is unordered). *)

Definition float_isna (f : spec_float) : bool :=
  match f with S754_nan => true | _ => false end.

(** A key whose lexicographic order is the order of the present floats:
    the class (infinities, finite by sign, zero), then exponent and
    mantissa, negated for negative numbers. *)
Definition float_key (f : spec_float) : Z * Z * Z :=
  match f with
  | S754_zero _ | S754_nan => (0, 0, 0)
  | S754_infinity s => (if s then -2 else 2, 0, 0)
  | S754_finite s m e => if s then (-1, - e, - Z.pos m) else (1, e, Z.pos m)
  end%Z.

Definition key_compare (a b : Z * Z * Z) : comparison :=
  match (a.1.1 ?= b.1.1)%Z with
  | Eq => match (a.1.2 ?= b.1.2)%Z with Eq => (a.2 ?= b.2)%Z | o => o end
  | o => o
  end.

Lemma key_compare_Lt a b :
  key_compare a b = Lt ↔
  (a.1.1 < b.1.1 ∨ a.1.1 = b.1.1 ∧ (a.1.2 < b.1.2 ∨ a.1.2 = b.1.2 ∧ a.2 < b.2))%Z.
Proof.
  unfold key_compare.
  destruct (Z.compare_spec a.1.1 b.1.1), (Z.compare_spec a.1.2 b.1.2),
    (Z.compare_spec a.2 b.2); split; (done || lia).
Qed.

Lemma key_compare_Eq a b : key_compare a b = Eq ↔ a = b.
Proof.
  destruct a as [[a1 a2] a3], b as [[b1 b2] b3]. unfold key_compare; simpl.
  destruct (Z.compare_spec a1 b1), (Z.compare_spec a2 b2), (Z.compare_spec a3 b3);
    split; (done || (intros [= ? ? ?]; lia) || (intros; f_equal; [f_equal|]; lia)).
Qed.

Lemma key_compare_sym a b : key_compare b a = CompOpp (key_compare a b).
Proof.
  unfold key_compare.
  rewrite (Z.compare_antisym a.1.1), (Z.compare_antisym a.1.2), (Z.compare_antisym a.2).
  by destruct (a.1.1 ?= b.1.1)%Z, (a.1.2 ?= b.1.2)%Z.
Qed.

Lemma key_compare_trans a b c o :
  key_compare a b = o → key_compare b c = o → key_compare a c = o.
Proof.
  destruct o.
  - rewrite !key_compare_Eq. congruence.
  - rewrite !key_compare_Lt. lia.
  - intros Hab Hbc. rewrite key_compare_sym in Hab, Hbc |- *.
    apply (f_equal CompOpp) in Hab, Hbc. rewrite CompOpp_involutive in Hab, Hbc.
    simpl in *. apply key_compare_Lt in Hab, Hbc.
    rewrite (proj2 (key_compare_Lt c a)); [done|lia].
Qed.

Lemma float_compare_key x y :
  SFcompare x y =
  if float_isna x || float_isna y then None
  else Some (key_compare (float_key x) (float_key y)).
Proof.
  destruct x as [[]|[]| |[] m e], y as [[]|[]| |[] m' e']; try reflexivity.
  unfold key_compare; simpl. rewrite Z.compare_opp, (Z.compare_antisym e').
    destruct (e' ?= e)%Z; simpl; [|done..].
    rewrite Pos.compare_cont_spec. by destruct (m ?= m')%positive.
Qed.

#[export] Program Instance float_scalar : Scalar spec_float := {|
  sc_isna := float_isna;
  sc_compare := SFcompare
|}.
Next Obligation.
  intros x y. rewrite float_compare_key.
  destruct (float_isna x), (float_isna y); simpl; split; (done || (by intros [|]) || eauto).
Qed.
Next Obligation.
  intros x Hx. rewrite float_compare_key, Hx. simpl. f_equal. by apply key_compare_Eq.
Qed.
Next Obligation.
  intros x y c. rewrite !float_compare_key, (orb_comm (float_isna y)).
  destruct (_ || _); [done|]. intros [= <-]. by rewrite key_compare_sym.
Qed.
Next Obligation.
  intros x y z c. rewrite !float_compare_key.
  destruct (float_isna x), (float_isna y), (float_isna z); simpl; try done.
  intros [= Hxy] [= Hyz]. f_equal. by eapply key_compare_trans.
Qed.
Next Obligation.
  intros x y z. rewrite !float_compare_key.
  destruct (float_isna x), (float_isna y); simpl; try done.
  by intros [= ->%key_compare_Eq].
Qed.

(** ** Consequences of the interface *)

Section scalar_theory.
Context {V : Type} `{Scalar V}.
Implicit Types (x y z v : V) (xs ys srt : list V).

Lemma sc_compare_na_l x y : sc_isna x = true → sc_compare x y = None.
Proof. intros. apply sc_compare_na. by left. Qed.

Lemma sc_compare_na_r x y : sc_isna y = true → sc_compare x y = None.
Proof. intros. apply sc_compare_na. by right. Qed.

Lemma sc_compare_present x y :
  sc_isna x = false → sc_isna y = false → ∃ c, sc_compare x y = Some c.
Proof.
  intros Hx Hy. destruct (sc_compare x y) as [c|] eqn:E; [by exists c|].
  apply sc_compare_na in E as [?|?]; congruence.
Qed.

Lemma sc_eqb_na_l x y : sc_isna x = true → sc_eqb x y = false.
Proof. intros. unfold sc_eqb. by rewrite sc_compare_na_l. Qed.

Lemma sc_eqb_na_r x y : sc_isna y = true → sc_eqb x y = false.
Proof. intros. unfold sc_eqb. by rewrite sc_compare_na_r. Qed.

Lemma sc_ltb_na_l x y : sc_isna x = true → sc_ltb x y = false.
Proof. intros. unfold sc_ltb. by rewrite sc_compare_na_l. Qed.

Lemma sc_ltb_na_r x y : sc_isna y = true → sc_ltb x y = false.
Proof. intros. unfold sc_ltb. by rewrite sc_compare_na_r. Qed.

Lemma sc_eqb_true x y : sc_eqb x y = true ↔ sc_compare x y = Some Eq.
Proof. unfold sc_eqb. by destruct (sc_compare x y) as [[]|]. Qed.

Lemma sc_ltb_true x y : sc_ltb x y = true ↔ sc_compare x y = Some Lt.
Proof. unfold sc_ltb. by destruct (sc_compare x y) as [[]|]. Qed.

Lemma sc_eqb_refl x : sc_isna x = false → sc_eqb x x = true.
Proof. intros. apply sc_eqb_true. by apply sc_compare_refl. Qed.

Lemma sc_eqb_sym x y : sc_eqb x y = sc_eqb y x.
Proof.
  unfold sc_eqb. destruct (sc_compare x y) as [c|] eqn:E.
  - apply sc_compare_sym in E. rewrite E. by destruct c.
  - apply sc_compare_na in E. by rewrite (proj2 (sc_compare_na y x)) by tauto.
Qed.

Lemma sc_eqb_present x y : sc_eqb x y = true → sc_isna x = false ∧ sc_isna y = false.
Proof.
  intros E%sc_eqb_true. destruct (sc_isna x) eqn:Hx, (sc_isna y) eqn:Hy; try done.
  all: rewrite (proj2 (sc_compare_na x y)) in E by tauto; done.
Qed.

(** [==] is a congruence for the comparison. *)
Lemma sc_compare_eq_r x y z :
  sc_compare y z = Some Eq → sc_compare x y = sc_compare x z.
Proof.
  intros E. destruct (sc_compare x y) as [c|] eqn:Exy.
  - apply sc_compare_sym in Exy. rewrite (sc_compare_eq_l _ _ x E) in Exy.
    apply sc_compare_sym in Exy. by rewrite CompOpp_involutive in Exy.
  - symmetry. apply sc_compare_na. apply sc_compare_na in Exy as [?|Hy]; [by left|].
    by rewrite (sc_compare_na_l y z) in E.
Qed.

Lemma sc_ltb_eq_l x y z : sc_eqb x y = true → sc_ltb x z = sc_ltb y z.
Proof. intros E%sc_eqb_true. unfold sc_ltb. by rewrite (sc_compare_eq_l x y z). Qed.

Lemma sc_ltb_eq_r x y z : sc_eqb y z = true → sc_ltb x y = sc_ltb x z.
Proof. intros E%sc_eqb_true. unfold sc_ltb. by rewrite (sc_compare_eq_r x y z). Qed.

Lemma sc_ltb_asym x y : sc_ltb x y = true → sc_ltb y x = false.
Proof.
  intros E%sc_ltb_true. unfold sc_ltb. by rewrite (sc_compare_sym _ _ _ E).
Qed.

Lemma sc_ltb_eqb x y : sc_ltb x y = true → sc_eqb y x = false.
Proof.
  intros E%sc_ltb_true. unfold sc_eqb. by rewrite (sc_compare_sym _ _ _ E).
Qed.

Lemma sc_ltb_trans x y z : sc_ltb x y = true → sc_ltb y z = true → sc_ltb x z = true.
Proof. rewrite !sc_ltb_true. apply sc_compare_trans. Qed.

(** Among present values, the three cases of a comparison. *)
Lemma sc_trichotomy x y :
  sc_isna x = false → sc_isna y = false →
  sc_ltb x y = true ∨ sc_eqb x y = true ∨ sc_ltb y x = true.
Proof.
  intros Hx Hy. destruct (sc_compare_present x y Hx Hy) as [c E].
  destruct c.
  - right; left. by apply sc_eqb_true.
  - left. by apply sc_ltb_true.
  - right; right. apply sc_ltb_true. by rewrite (sc_compare_sym _ _ _ E).
Qed.

#[export] Instance desc_total : Total (desc (V := V)).
Proof.
  intros x y. unfold desc. destruct (sc_ltb x y) eqn:E; [|by left].
  right. by apply sc_ltb_asym.
Qed.

Lemma desc_trans x y z : sc_isna y = false → desc x y → desc y z → desc x z.
Proof.
  unfold desc. intros Hy Hxy Hyz. destruct (sc_ltb x z) eqn:Hxz; [|done].
  pose proof Hxz as Hc%sc_ltb_true.
  assert (sc_isna x = false ∧ sc_isna z = false) as [Hx Hz].
  { destruct (sc_isna x) eqn:?, (sc_isna z) eqn:?; try done;
      rewrite (proj2 (sc_compare_na x z)) in Hc by tauto; done. }
  destruct (sc_trichotomy x y Hx Hy) as [?|[E|Hyx]]; [congruence| |].
  - rewrite (sc_ltb_eq_l x y z E) in Hxz. congruence.
  - destruct (sc_trichotomy y z Hy Hz) as [?|[E|Hzy]]; [congruence| |].
    + rewrite <-(sc_ltb_eq_r x y z E) in Hxz. congruence.
    + pose proof (sc_ltb_trans _ _ _ Hzy Hyx) as Hzx.
      apply sc_ltb_asym in Hzx. congruence.
Qed.

Lemma Sorted_desc_strong srt :
  Forall (λ x, sc_isna x = false) srt → Sorted desc srt → StronglySorted desc srt.
Proof.
  induction 2 as [|x srt Hs IH Hhd]; [constructor|].
  apply Forall_cons in H0 as [Hx Hsrt]. constructor; [by apply IH|].
  specialize (IH Hsrt). destruct Hhd as [|y srt' Hxy]; [constructor|].
  apply StronglySorted_inv in IH as [_ Hall]. apply Forall_cons in Hsrt as [Hy _].
  constructor; [done|]. eapply Forall_impl; [done|].
  intros z Hyz. by eapply desc_trans.
Qed.


(** *** Position and count *)

Lemma first_index_eq_None v xs :
  first_index_eq v xs = None ↔ Forall (λ x, sc_eqb x v = false) xs.
Proof.
  induction xs as [|x xs IH]; simpl; [by split; [constructor|]|].
  destruct (sc_eqb x v) eqn:E.
  - split; [done|]. intros [? _]%Forall_cons. congruence.
  - rewrite fmap_None, IH, Forall_cons. tauto.
Qed.

Lemma first_index_eq_Some v xs i :
  first_index_eq v xs = Some i ↔
  (∃ x, xs !! i = Some x ∧ sc_eqb x v = true)
  ∧ Forall (λ x, sc_eqb x v = false) (take i xs).
Proof.
  revert i. induction xs as [|x xs IH]; intros i; simpl.
  - split; [done|]. by intros [(x & ? & _) _].
  - destruct (sc_eqb x v) eqn:E.
    + split.
      * intros [= <-]. split; [by exists x|constructor].
      * intros [_ Hall]. destruct i as [|i]; [done|].
        apply Forall_cons in Hall as [? _]. congruence.
    + rewrite fmap_Some. split.
      * intros (j & Hj & ->). apply IH in Hj as [Hx Hall].
        split; [done|]. by constructor.
      * intros [(y & Hy & Ey) Hall]. destruct i as [|i]; simpl in *; [congruence|].
        exists i. split; [|done]. apply IH. split; [by exists y|].
        by apply Forall_cons in Hall as [_ ?].
Qed.

Lemma first_index_eq_app_l v xs ys i :
  first_index_eq v xs = Some i → first_index_eq v (xs ++ ys) = Some i.
Proof.
  revert i. induction xs as [|x xs IH]; intros i; simpl; [done|].
  destruct (sc_eqb x v); [done|]. intros (j & Hj & ->)%fmap_Some.
  by rewrite (IH j Hj).
Qed.

Lemma first_index_eq_lt v xs i : first_index_eq v xs = Some i → i < length xs.
Proof. intros [(x & Hx & _) _]%first_index_eq_Some. by eapply lookup_lt_Some. Qed.

Lemma count_gt_cons v x xs :
  count_gt v (x :: xs) = (if sc_ltb v x then 1 else 0) + count_gt v xs.
Proof.
  unfold count_gt. rewrite filter_cons. destruct (sc_ltb v x) eqn:E.
  - by rewrite decide_True.
  - by rewrite decide_False by congruence.
Qed.

Lemma count_gt_app v xs ys : count_gt v (xs ++ ys) = count_gt v xs + count_gt v ys.
Proof. unfold count_gt. by rewrite filter_app, length_app. Qed.

(** The count does not depend on the order of the values. *)
#[export] Instance count_gt_perm v : Proper ((≡ₚ) ==> (=)) (count_gt v).
Proof. intros xs ys Hp. unfold count_gt. by rewrite Hp. Qed.

Lemma count_gt_zero v xs :
  Forall (λ x, sc_ltb v x = false) xs → count_gt v xs = 0.
Proof.
  induction 1 as [|x xs Hx _ IH]; [done|]. by rewrite count_gt_cons, Hx, IH.
Qed.

Lemma count_gt_le v xs : count_gt v xs ≤ length xs.
Proof. unfold count_gt. apply length_filter. Qed.

Lemma count_gt_eq v w xs : sc_eqb v w = true → count_gt v xs = count_gt w xs.
Proof.
  intros E. induction xs as [|x xs IH]; [done|].
  by rewrite !count_gt_cons, IH, (sc_ltb_eq_l v w x E).
Qed.

(** In a strongly descending list of present values that holds a value
    [== v], the first such value stands at the position that counts the
    values greater than [v]. *)
Lemma first_index_strongly_sorted v srt :
  Forall (λ x, sc_isna x = false) srt →
  StronglySorted desc srt →
  Exists (λ x, sc_eqb x v = true) srt →
  first_index_eq v srt = Some (count_gt v srt).
Proof.
  intros Hpres Hsrt. induction Hsrt as [|x srt Hs IH Hall]; intros Hex;
    [by apply Exists_nil in Hex|].
  apply Forall_cons in Hpres as [Hx Hpres].
  simpl. rewrite count_gt_cons. destruct (sc_eqb x v) eqn:E.
  - destruct (sc_ltb v x) eqn:Hvx; [apply sc_ltb_eqb in Hvx; congruence|].
    rewrite count_gt_zero; [done|]. eapply Forall_impl; [done|].
    intros y Hxy. unfold desc in Hxy. rewrite sc_eqb_sym in E.
    by rewrite (sc_ltb_eq_l v x y E).
  - apply Exists_cons in Hex as [?|Hex]; [congruence|].
    rewrite (IH Hpres Hex). simpl. destruct (sc_ltb v x) eqn:Hvx; [done|].
    exfalso. apply Exists_exists in Hex as (y & Hy & Ey).
    rewrite Forall_forall in Hall. specialize (Hall y Hy). unfold desc in Hall.
    rewrite (sc_ltb_eq_r x y v Ey) in Hall.
    apply sc_eqb_present in Ey as [_ Hv].
    destruct (sc_trichotomy x v Hx Hv) as [?|[?|?]]; congruence.
Qed.

Lemma count_gt_present v xs :
  count_gt v (filter (λ x, sc_isna x = false) xs) = count_gt v xs.
Proof.
  induction xs as [|x xs IH]; [done|]. rewrite filter_cons, count_gt_cons.
  destruct (sc_isna x) eqn:E.
  - by rewrite decide_False, sc_ltb_na_r, IH by done.
  - by rewrite decide_True, count_gt_cons, IH by done.
Qed.

(** C30: in any descending arrangement [srt] of the present values of a
    column [xs], the first position that holds a value equal to [v] is the
    number of values of [xs] strictly greater than [v]: the rank the query
    reads off the sorted column does not depend on the sorting algorithm or
    on how it orders equal values. *)
Theorem first_index_sorted v xs srt :
  srt ≡ₚ filter (λ x, sc_isna x = false) xs →
  Sorted desc srt →
  v ∈ xs → sc_isna v = false →
  first_index_eq v srt = Some (count_gt v xs).
Proof.
  intros Hperm Hsrt Hin Hv.
  assert (Forall (λ x, sc_isna x = false) srt) as Hpres.
  { rewrite Hperm. apply Forall_forall. by intros x [? _]%list_elem_of_filter. }
  rewrite first_index_strongly_sorted; [|done|by apply Sorted_desc_strong|].
  - by rewrite Hperm, count_gt_present.
  - apply Exists_exists. exists v. split; [|by apply sc_eqb_refl].
    rewrite Hperm. by apply list_elem_of_filter.
Qed.

Lemma sort_desc_perm xs : sort_desc xs ≡ₚ xs.
Proof.
  unfold sort_desc. rewrite merge_sort_Permutation.
  induction xs as [|x xs IH]; [done|]. rewrite !filter_cons.
  repeat case_decide; try congruence.
  - simpl. by rewrite IH.
  - by rewrite <-Permutation_middle, IH.
  - by destruct (sc_isna x).
Qed.

Lemma sort_desc_length xs : length (sort_desc xs) = length xs.
Proof. by rewrite sort_desc_perm. Qed.

Lemma first_index_eq_na v xs : sc_isna v = true → first_index_eq v xs = None.
Proof.
  intros Hv. apply first_index_eq_None, Forall_forall. intros x _. by apply sc_eqb_na_r.
Qed.

(** The sort of [sort_desc] puts the first value [== v] at the position
    that counts the values greater than [v]. *)
Lemma sort_desc_first_index v xs :
  v ∈ xs → sc_isna v = false →
  first_index_eq v (sort_desc xs) = Some (count_gt v xs).
Proof.
  intros Hin Hv. apply first_index_eq_app_l.
  set (ps := filter (λ x, sc_isna x = false) xs).
  pose proof (merge_sort_Permutation desc ps) as Hperm.
  rewrite first_index_strongly_sorted.
  - rewrite Hperm. unfold ps. by rewrite count_gt_present.
  - rewrite Hperm. apply Forall_forall. by intros x [? _]%list_elem_of_filter.
  - apply Sorted_desc_strong; [|apply Sorted_merge_sort, _].
    rewrite Hperm. apply Forall_forall. by intros x [? _]%list_elem_of_filter.
  - apply Exists_exists. exists v. split; [|by apply sc_eqb_refl].
    rewrite Hperm. by apply list_elem_of_filter.
Qed.

End scalar_theory.

(** On integers [sc_ltb] is the order of [Z]. *)
Lemma Z_sc_ltb (x y : Z) : sc_ltb x y = (x <? y)%Z.
Proof. done. Qed.

Lemma first_index_sorted_witness :
  first_index_eq 7%Z [10; 7; 7; 3]%Z = Some (count_gt 7%Z [7; 10; 3; 7]%Z).
Proof.
  apply first_index_sorted; [|repeat constructor| |]; compute_done.
Defined.
