(* ===== verification/PyDict.v ===== *)
(** * Python dictionaries

    A [dict] keeps its keys in insertion order, and assigning to a key that
    is present replaces the value where the key stands.  It is modelled as
    an association list without repeated keys ([dict_wf]); the order of
    the list is the iteration order of [keys()], [values()] and [items()],
    which src/app.py relies on when it draws and prints a rank series. *)

From S2P Require Import Prelude.

Section pydict.
Context {K V : Type} `{EqDecision K}.
Implicit Types (k : K) (v : V) (d : list (K * V)).

(** [d[k] = v] *)
Fixpoint dict_set k v d : list (K * V) :=
  match d with
  | [] => [(k, v)]
  | (k', v') :: d' =>
    if decide (k' = k) then (k, v) :: d' else (k', v') :: dict_set k v d'
  end.

(** [d.get(k)] *)
Fixpoint dict_get k d : option V :=
  match d with
  | [] => None
  | (k', v') :: d' => if decide (k' = k) then Some v' else dict_get k d'
  end.

Definition dict_keys d : list K := d.*1.
Definition dict_values d : list V := d.*2.

(** No key is repeated. *)
Definition dict_wf d : Prop := NoDup d.*1.

(** The dictionary built by assigning the pairs of a list in turn. *)
Definition dict_of_list (kvs : list (K * V)) : list (K * V) :=
  foldl (λ d kv, dict_set kv.1 kv.2 d) [] kvs.

Lemma dict_keys_set k v d :
  dict_keys (dict_set k v d) = if decide (k ∈ dict_keys d) then dict_keys d else dict_keys d ++ [k].
Proof.
  unfold dict_keys. induction d as [|[k' v'] d IH]; [done|]. csimpl.
  destruct (decide (k' = k)) as [->|Hne]; csimpl.
  - by rewrite decide_True by left.
  - rewrite IH. destruct (decide (k ∈ d.*1)).
    + by rewrite decide_True by by right.
    + rewrite decide_False; [done|]. by intros [?|?]%elem_of_cons.
Qed.

Lemma dict_set_wf k v d : dict_wf d → dict_wf (dict_set k v d).
Proof.
  unfold dict_wf. intros Hd. fold (dict_keys (dict_set k v d)).
  rewrite dict_keys_set. case_decide; [done|].
  apply NoDup_app. split_and!; [done| |apply NoDup_singleton].
  intros x Hx ->%list_elem_of_singleton. done.
Qed.

Lemma dict_get_set_eq k v d : dict_get k (dict_set k v d) = Some v.
Proof.
  induction d as [|[k' v'] d IH]; simpl; [by rewrite decide_True|].
  destruct (decide (k' = k)); simpl; [by rewrite decide_True|].
  by rewrite decide_False.
Qed.

Lemma dict_get_set_ne k k' v d : k ≠ k' → dict_get k' (dict_set k v d) = dict_get k' d.
Proof.
  intros Hne. induction d as [|[k'' v''] d IH]; simpl; [by rewrite decide_False|].
  destruct (decide (k'' = k)) as [->|]; simpl.
  - by rewrite !decide_False.
  - by rewrite IH.
Qed.

Lemma dict_set_fresh k v d : k ∉ dict_keys d → dict_set k v d = d ++ [(k, v)].
Proof.
  unfold dict_keys. induction d as [|[k' v'] d IH]; [done|]. csimpl.
  intros [Hne Hk]%not_elem_of_cons. rewrite decide_False by done. by rewrite IH.
Qed.

Lemma dict_of_list_snoc kvs k v :
  dict_of_list (kvs ++ [(k, v)]) = dict_set k v (dict_of_list kvs).
Proof. unfold dict_of_list. by rewrite foldl_app. Qed.

Lemma dict_of_list_keys_subseteq kvs : dict_keys (dict_of_list kvs) ⊆ kvs.*1.
Proof.
  induction kvs as [|[k v] kvs IH] using rev_ind; [done|].
  rewrite dict_of_list_snoc, dict_keys_set, fmap_app. csimpl.
  case_decide; intros x Hx; apply elem_of_app.
  - left. by apply IH.
  - apply elem_of_app in Hx as [?|?]; [left; by apply IH|by right].
Qed.

(** Assigning pairs with distinct keys in turn gives the list itself. *)
Lemma dict_of_list_NoDup kvs : NoDup kvs.*1 → dict_of_list kvs = kvs.
Proof.
  induction kvs as [|[k v] kvs IH] using rev_ind; [done|].
  rewrite fmap_app. intros (Hkvs & Hk & _)%NoDup_app.
  rewrite dict_of_list_snoc, IH by done.
  apply dict_set_fresh. intros Hin. apply (Hk k Hin). by left.
Qed.

Lemma dict_of_list_wf kvs : dict_wf (dict_of_list kvs).
Proof.
  induction kvs as [|[k v] kvs IH] using rev_ind; [constructor|].
  rewrite dict_of_list_snoc. by apply dict_set_wf.
Qed.

(** In a dictionary a key stands with its value. *)
Lemma dict_get_elem k v d :
  NoDup d.*1 → (k, v) ∈ d → dict_get k d = Some v.
Proof.
  induction d as [|[k' v'] d IH]; csimpl; [by intros _ ?%elem_of_nil|].
  intros [Hk' Hd]%NoDup_cons [[= -> ->]|Hin]%elem_of_cons; [by rewrite decide_True|].
  rewrite decide_False; [by apply IH|].
  intros ->. apply Hk'. by apply (list_elem_of_fmap_2 fst _ (k, v)).
Qed.

End pydict.
