(* ===== verification/Frame.v ===== *)
(** * Tables: the part of pandas that src/app.py uses

    A [DataFrame] is a list of labelled columns; a column ([series]) has a
    dtype and as many values as the table has rows:
    - [IntSeries], dtype int64;
    - [FloatSeries], dtype float64 (NaN marks a missing value);
    - [ObjSeries], dtype object: strings, or [None] for a missing value.
    These are the dtypes [pd.read_csv] gives to numeric and textual columns
    (boolean columns are not modelled).  The values of an int64 column are
    [Z]: a value read from a file fits 64 bits, and the program compares
    and sorts the values without computing with them.

    The operations are the ones of [query_stock_rank] and [process_table]:
    [df[label]], comparison of a column with an integer, selection of rows
    by a boolean mask, [.empty], [len(df.columns)], slicing of the labels,
    descending sort, [.values[0]], position of a value, and the
    elementwise [df.map].

    [df_wf] is the invariant of a table read by [pd.read_csv]: the labels
    are distinct (the reader renames repeated ones) and the columns have
    the same length. *)

From Stdlib Require Import SpecFloat.
From S2P Require Import Prelude Unicode Scalar.

Inductive series : Type :=
| IntSeries (xs : list Z)
| FloatSeries (xs : list spec_float)
| ObjSeries (xs : list (option (list N))).

Abbreviation DataFrame := (list (list N * series)) (only parsing).

Implicit Types (s col : series) (df : list (list N * series)) (label : list N)
  (mask : list bool).

Definition series_length s : nat :=
  match s with
  | IntSeries xs => length xs
  | FloatSeries xs => length xs
  | ObjSeries xs => length xs
  end.

(** ** Python slices

    [l[start:stop]] for integers [start] and [stop]: a negative index
    counts from the end, and indices are clamped to the sequence. *)

Definition py_slice_index (len i : Z) : Z :=
  if (i <? 0)%Z then Z.max 0 (len + i) else Z.min i len.

Definition py_slice {A} (l : list A) (start stop : Z) : list A :=
  let len := Z.of_nat (length l) in
  let a := py_slice_index len start in
  let b := py_slice_index len stop in
  take (Z.to_nat (b - a)) (drop (Z.to_nat a) l).

(** ** Columns *)

(** [df.columns] *)
Definition df_columns df : list (list N) := df.*1.

(** [df[label]] *)
Fixpoint df_getitem label df : pyres series :=
  match df with
  | [] => Raise KeyError
  | (l, s) :: df' => if decide (l = label) then Ok s else df_getitem label df'
  end.

(** The float a Python integer is compared as. *)
Definition float_of_int (z : Z) : spec_float := binary_normalize 53 1024 z 0 false.

(** [s == code] for a Python integer [code]: a string is never equal to an
    integer, and neither is a missing value.  (Integers beyond 64 bits, which numpy
    converts before it compares, are not treated apart; the handler passes
    codes of six digits.) *)
Definition series_eq_int s (code : Z) : list bool :=
  match s with
  | IntSeries xs => (λ x, (x =? code)%Z) <$> xs
  | FloatSeries xs => (λ x, SFeqb x (float_of_int code)) <$> xs
  | ObjSeries xs => (λ _, false) <$> xs
  end.

(** ** Selection of rows by a boolean mask *)

(** [xs[mask]]: the values where the mask holds.  The masks of the program
    come from a column of the same table; pandas raises on a mask of another
    length, where this stops at the shorter. *)
Fixpoint mask_select {A} mask (xs : list A) : list A :=
  match mask, xs with
  | b :: mask', x :: xs' => if b then x :: mask_select mask' xs' else mask_select mask' xs'
  | _, _ => []
  end.

(** Position of the first [True] of a mask. *)
Fixpoint first_true mask : option nat :=
  match mask with
  | [] => None
  | b :: mask' => if b then Some 0 else S <$> first_true mask'
  end.

Definition series_mask mask s : series :=
  match s with
  | IntSeries xs => IntSeries (mask_select mask xs)
  | FloatSeries xs => FloatSeries (mask_select mask xs)
  | ObjSeries xs => ObjSeries (mask_select mask xs)
  end.

(** [df[mask]] *)
Definition df_mask mask df : list (list N * series) :=
  prod_map id (series_mask mask) <$> df.

(** Number of rows, and [df.empty]: no column or no row. *)
Definition df_nrows df : nat :=
  match df with
  | [] => 0
  | (_, s) :: _ => series_length s
  end.

Definition df_empty df : bool :=
  bool_decide (df = []) || bool_decide (df_nrows df = 0).

(** ** Rank of a value in a column

    [sorted_values = col.sort_values(ascending=False).reset_index(drop=True)]
    and [sorted_values[sorted_values == v].index[0] + 1] for the first value
    [v] of the selected rows ([.values[0]]).  Both [.values[0]] on no row
    and [.index[0]] on no match raise [IndexError]. *)

Definition rank_in {V} `{Scalar V} (xs rows : list V) : pyres Z :=
  match rows with
  | [] => Raise IndexError
  | v :: _ =>
    match first_index_eq v (sort_desc xs) with
    | Some i => Ok (Z.of_nat i + 1)%Z
    | None => Raise IndexError
    end
  end.

(** A column and the same column of the selected rows have one dtype; the
    last case does not arise ([series_rank_mask]). *)
Definition series_rank (col rows : series) : pyres Z :=
  match col, rows with
  | IntSeries xs, IntSeries rs => rank_in xs rs
  | FloatSeries xs, FloatSeries rs => rank_in xs rs
  | ObjSeries xs, ObjSeries rs => rank_in xs rs
  | _, _ => Raise TypeError
  end.

(** The reference definition of the rank of row [i] in a column: one plus
    the number of values strictly greater than the value of the row;
    [None] when the row does not exist or its value is missing. *)
Definition rank_of {V} `{Scalar V} (xs : list V) (i : nat) : option Z :=
  match xs !! i with
  | Some v => if sc_isna v then None else Some (Z.of_nat (count_gt v xs) + 1)%Z
  | None => None
  end.

Definition rank_ref (col : series) (i : nat) : option Z :=
  match col with
  | IntSeries xs => rank_of xs i
  | FloatSeries xs => rank_of xs i
  | ObjSeries xs => rank_of xs i
  end.

(** [.index[0]] of the positions found: the rank, or [IndexError] when
    there is none. *)
Definition rank_result (o : option Z) : pyres Z :=
  match o with Some r => Ok r | None => Raise IndexError end.

(** [series_present col i]: row [i] of the column exists and holds a value. *)
Definition present_at {V} `{Scalar V} (xs : list V) (i : nat) : bool :=
  match xs !! i with Some v => negb (sc_isna v) | None => false end.

Definition series_present col (i : nat) : bool :=
  match col with
  | IntSeries xs => present_at xs i
  | FloatSeries xs => present_at xs i
  | ObjSeries xs => present_at xs i
  end.

(** ** Elementwise map to strings

    [df.map(f)] for a function [f] from cell values to strings; the result
    has columns of dtype object.  A cell value is an integer, a float or an
    object. *)

Inductive cell : Type :=
| IntCell (z : Z)
| FloatCell (f : spec_float)
| StrCell (s : list N)
| NaNCell.

Definition series_cells s : list cell :=
  match s with
  | IntSeries xs => IntCell <$> xs
  | FloatSeries xs => FloatCell <$> xs
  | ObjSeries xs => (λ o, match o with Some t => StrCell t | None => NaNCell end) <$> xs
  end.

Definition series_map (f : cell → list N) s : series :=
  ObjSeries ((λ c, Some (f c)) <$> series_cells s).

Definition df_map (f : cell → list N) df : list (list N * series) :=
  prod_map id (series_map f) <$> df.

(** [df.columns = labels].  [process_table] assigns one label per column;
    pandas raises [ValueError] on another number of labels, where [zip]
    stops at the shorter. *)
Definition df_set_columns (labels : list (list N)) df : list (list N * series) :=
  zip labels df.*2.

(** ** The invariant *)

Definition df_wf df : Prop :=
  NoDup (df_columns df) ∧ Forall (λ c, series_length c.2 = df_nrows df) df.

#[global] Instance df_wf_dec df : Decision (df_wf df).
Proof. unfold df_wf. apply _. Defined.

(** ** Lemmas on selection *)

Lemma mask_select_head {A} mask (xs : list A) :
  head (mask_select mask xs) = first_true mask ≫= (xs !!.).
Proof.
  revert xs. induction mask as [|b mask IH]; intros [|x xs]; simpl; try done.
  - by destruct b, (first_true mask).
  - destruct b; [done|]. rewrite IH. by destruct (first_true mask).
Qed.

Lemma mask_select_length {A} mask (xs : list A) :
  length (mask_select mask xs) ≤ length xs.
Proof.
  revert xs. induction mask as [|b mask IH]; intros [|x xs]; simpl; try lia.
  specialize (IH xs). destruct b; simpl; lia.
Qed.

Lemma mask_select_nil {A} mask (xs : list A) :
  length mask = length xs → mask_select mask xs = [] ↔ first_true mask = None.
Proof.
  revert xs. induction mask as [|b mask IH]; intros [|x xs]; simpl; try done.
  intros [= Hlen]. destruct b; [done|]. rewrite IH by done.
  by destruct (first_true mask).
Qed.

Lemma first_true_lt mask i : first_true mask = Some i → i < length mask.
Proof.
  revert i. induction mask as [|b mask IH]; intros i; simpl; [done|].
  destruct b; [intros [= <-]; lia|]. intros (j & Hj & ->)%fmap_Some.
  specialize (IH j Hj). lia.
Qed.

(** The position [first_true] finds holds [True] and no earlier one does. *)
Lemma first_true_None mask : first_true mask = None ↔ Forall (λ b, b = false) mask.
Proof.
  induction mask as [|[] mask IH]; simpl.
  - done.
  - split; [done|]. by intros [? _]%Forall_cons.
  - rewrite fmap_None, IH, Forall_cons. tauto.
Qed.

Lemma first_true_Some mask i :
  first_true mask = Some i ↔ mask !! i = Some true ∧ Forall (λ b, b = false) (take i mask).
Proof.
  revert i. induction mask as [|[] mask IH]; intros i; simpl.
  - split; [done|]. by intros [? _].
  - destruct i; simpl; [by split|]. split; [done|]. by intros [_ [? _]%Forall_cons].
  - rewrite fmap_Some. destruct i as [|i]; simpl.
    + split; [by intros (? & _ & ?)|]. by intros [? _].
    + rewrite Forall_cons. split.
      * intros (j & Hj%IH & [= ->]). tauto.
      * intros (? & _ & ?). exists i. by rewrite IH.
Qed.

(** The first row of an integer column equal to [code]. *)
Lemma eq_int_None (xs : list Z) code :
  first_true (series_eq_int (IntSeries xs) code) = None ↔ code ∉ xs.
Proof.
  rewrite first_true_None. simpl. rewrite Forall_fmap, Forall_forall.
  split.
  - intros Hall Hin. specialize (Hall _ Hin). simpl in Hall. lia.
  - intros Hnin x Hx. simpl. apply Z.eqb_neq. by intros ->.
Qed.

Lemma eq_int_Some (xs : list Z) code i :
  first_true (series_eq_int (IntSeries xs) code) = Some i ↔
  xs !! i = Some code ∧ code ∉ take i xs.
Proof.
  rewrite first_true_Some. simpl. rewrite list_lookup_fmap, <-fmap_take, fmap_Some.
  rewrite Forall_fmap, Forall_forall.
  split.
  - intros [(x & Hx & ->%eq_sym%Z.eqb_eq) Hall]. split; [done|].
    intros Hin%Hall. simpl in Hin. lia.
  - intros [Hx Hnin]. split; [exists code; by rewrite Z.eqb_refl|].
    intros x Hx'. simpl. apply Z.eqb_neq. by intros ->.
Qed.

Lemma series_eq_int_length s code : length (series_eq_int s code) = series_length s.
Proof. destruct s; simpl; by rewrite length_fmap. Qed.

Lemma df_getitem_Some label df s :
  df_getitem label df = Ok s → (label, s) ∈ df.
Proof.
  induction df as [|[l c] df IH]; simpl; [done|].
  destruct (decide (l = label)) as [->|]; [intros [= ->]; by left|].
  intros. right. by apply IH.
Qed.

Lemma df_getitem_elem label df :
  label ∈ df_columns df → ∃ s, df_getitem label df = Ok s.
Proof.
  unfold df_columns. induction df as [|[l c] df IH]; csimpl; [by intros ?%elem_of_nil|].
  destruct (decide (l = label)) as [->|Hne]; [by exists c|].
  intros [?|?]%elem_of_cons; [done|]. by apply IH.
Qed.

Lemma df_getitem_not_elem label df :
  label ∉ df_columns df → df_getitem label df = Raise KeyError.
Proof.
  unfold df_columns. induction df as [|[l c] df IH]; csimpl; [done|].
  intros [? ?]%not_elem_of_cons. rewrite decide_False by done. by apply IH.
Qed.

Lemma df_getitem_mask label mask df :
  df_getitem label (df_mask mask df) = series_mask mask <$> df_getitem label df.
Proof.
  induction df as [|[l c] df IH]; simpl; [done|].
  destruct (decide (l = label)); [done|]. apply IH.
Qed.

Lemma df_columns_mask mask df : df_columns (df_mask mask df) = df_columns df.
Proof.
  unfold df_columns, df_mask. rewrite <-list_fmap_compose.
  by apply list_fmap_ext; intros ? [].
Qed.

(** A table with a column of [n] rows has [n] rows. *)
Lemma df_wf_length label df s :
  df_wf df → df_getitem label df = Ok s → series_length s = df_nrows df.
Proof.
  intros [_ Hlen] Hs%df_getitem_Some. rewrite Forall_forall in Hlen.
  by apply (Hlen _ Hs).
Qed.

Lemma series_mask_nil mask s :
  length mask = series_length s →
  series_length (series_mask mask s) = 0 ↔ first_true mask = None.
Proof.
  intros Hlen. destruct s as [xs|xs|xs]; simpl in *;
    rewrite <-(mask_select_nil mask xs Hlen); apply length_zero_iff_nil.
Qed.

(** The selection is empty exactly when the mask has no [True]. *)
Lemma df_empty_mask mask df :
  df_wf df → df ≠ [] → length mask = df_nrows df →
  df_empty (df_mask mask df) = bool_decide (first_true mask = None).
Proof.
  intros [_ Hlen] Hne Hmask. destruct df as [|[l c] df]; [done|].
  unfold df_empty. rewrite (bool_decide_eq_false_2 (df_mask _ _ = [])) by done.
  apply bool_decide_ext, series_mask_nil. by rewrite Hmask.
Qed.

Lemma df_columns_length df : length (df_columns df) = length df.
Proof. apply length_fmap. Qed.

(** ** Lemmas on slices *)

(** [labels[-n-1:-1]] when [n] is at most [len(labels) - 1]: the last [n]
    of the labels before the last one when [n] is not negative, and those
    labels without their first [-n-1] when it is. *)
Lemma py_slice_window {A} (labels : list A) (n : Z) :
  (n ≤ Z.of_nat (length labels) - 1)%Z →
  py_slice labels (- n - 1) (-1) =
  drop (Z.to_nat (if (0 <=? n)%Z
                   then Z.of_nat (length (take (length labels - 1) labels)) - n
                   else - n - 1))
       (take (length labels - 1) labels).
Proof.
  intros Hn. rewrite length_take. unfold py_slice, py_slice_index.
  set (len := length labels) in *.
  change (-1 <? 0)%Z with true. cbv iota.
  destruct (Z.leb_spec 0 n) as [Hpos|Hneg].
  - rewrite (proj2 (Z.ltb_lt (- n - 1) 0)) by lia.
    rewrite take_drop_commute. f_equal; [lia|f_equal; lia].
  - rewrite (proj2 (Z.ltb_ge (- n - 1) 0)) by lia.
    destruct (decide (- n - 1 ≤ Z.of_nat len - 1)%Z) as [Hle|Hgt].
    + rewrite take_drop_commute. f_equal; [lia|f_equal; lia].
    + replace (Z.to_nat (Z.max 0 (Z.of_nat len + -1) - Z.min (- n - 1) (Z.of_nat len)))
        with 0 by lia.
      rewrite take_0, drop_ge; [done|]. rewrite length_take. lia.
Qed.

(** ** Lemmas on ranks *)

(** The rank computed by sorting is the reference rank of the first
    selected row. *)
Lemma rank_in_mask {V} `{Scalar V} (xs : list V) mask i :
  first_true mask = Some i →
  rank_in xs (mask_select mask xs) = rank_result (rank_of xs i).
Proof.
  intros Hi. pose proof (mask_select_head mask xs) as Hhd. rewrite Hi in Hhd.
  simpl in Hhd. unfold rank_in, rank_of.
  destruct (mask_select mask xs) as [|v rows]; simpl in Hhd; rewrite <-Hhd; [done|].
  destruct (sc_isna v) eqn:Hv.
  - by rewrite first_index_eq_na.
  - rewrite sort_desc_first_index; [done| |done].
    symmetry in Hhd. by eapply list_elem_of_lookup_2.
Qed.

Lemma series_rank_mask col mask i :
  first_true mask = Some i →
  series_rank col (series_mask mask col) = rank_result (rank_ref col i).
Proof. intros Hi. destruct col; simpl; by apply rank_in_mask. Qed.

Lemma rank_of_bounds {V} `{Scalar V} (xs : list V) i r :
  rank_of xs i = Some r → (1 ≤ r ≤ Z.of_nat (length xs))%Z.
Proof.
  unfold rank_of. destruct (xs !! i) as [v|] eqn:Hv; [|done].
  destruct (sc_isna v) eqn:Hna; [done|]. intros [= <-].
  assert (count_gt v xs < length xs); [|lia].
  apply list_elem_of_lookup_2, list_elem_of_split in Hv as (l1 & l2 & ->).
  rewrite count_gt_app, count_gt_cons, length_app. simpl.
  pose proof (count_gt_le v l1). pose proof (count_gt_le v l2).
  destruct (sc_ltb v v) eqn:E; [|lia]. by apply sc_ltb_asym in E as ?; congruence.
Qed.

Lemma rank_ref_bounds col i r :
  rank_ref col i = Some r → (1 ≤ r ≤ Z.of_nat (series_length col))%Z.
Proof. destruct col; simpl; apply rank_of_bounds. Qed.

Lemma rank_of_max {V} `{Scalar V} (xs : list V) i v :
  xs !! i = Some v → sc_isna v = false →
  Forall (λ x, sc_ltb v x = false) xs → rank_of xs i = Some 1%Z.
Proof. intros Hv Hna Hmax. unfold rank_of. by rewrite Hv, Hna, count_gt_zero. Qed.

Lemma rank_of_is_Some {V} `{Scalar V} (xs : list V) i :
  is_Some (rank_of xs i) ↔ present_at xs i = true.
Proof.
  unfold rank_of, present_at. destruct (xs !! i) as [v|]; [|by rewrite is_Some_alt].
  destruct (sc_isna v); by rewrite is_Some_alt.
Qed.

Lemma rank_ref_is_Some col i : is_Some (rank_ref col i) ↔ series_present col i = true.
Proof. destruct col; apply rank_of_is_Some. Qed.

(** ** Lengths *)

Lemma series_map_length (g : cell → list N) s :
  series_length (series_map g s) = series_length s.
Proof. destruct s; simpl; by rewrite !length_fmap. Qed.
