(* ===== verification/Normalizer.v ===== *)
(** * The normaliser: [process_header] and [process_cell] of src/app.py

    [process_header] deletes the time of day ["00:00:00"] from every column
    label and strips white space; [process_cell] turns a cell into text
    ([py_str]), deletes the file and exchange suffixes ([strip_suffixes])
    and pads a string of one to six digits with zeros to six characters.
    [process_table] applies both to a table; it is in Handler.v with the
    file operations it needs.

    The theorems: an identifier with or without a suffix becomes its six
    digit code and reads as the same number ([process_cell_code]); an
    integer cell keeps its value and a float cell its text
    ([process_cell_int_value], [process_cell_float]); on what it pads,
    [process_cell] is idempotent ([process_cell_idempotent]); clean labels
    are left alone and [process_header] is idempotent when its result has
    no time of day left ([process_header_clean],
    [process_header_idempotent]).  The examples at the end show where the
    two functions are not idempotent, and what the pattern [^\d{1,6}$]
    matches besides ASCII digits. *)

From Stdlib Require Import SpecFloat.
From S2P Require Import Prelude Unicode PyStr PyInt PyFloat Frame.

Implicit Types (s t col ds : list N) (c : N) (value : cell) (header : list (list N)).

(** ** Definitions *)

(** The time of day [process_header] deletes. *)
Definition time_suffix : list N := lit "00:00:00".

(** The suffixes [process_cell] deletes, in the order it deletes them. *)
Definition cell_suffixes : list (list N) := [lit ".csv"; lit ".SH"; lit ".SZ"].

(** [str(value)] for the value of a cell *)
Definition py_str value : list N :=
  match value with
  | IntCell z => str_of_int z
  | FloatCell f => float_repr f
  | StrCell s => s
  | NaNCell => lit "nan"
  end.

(** [value.replace(".csv", "").replace(".SH", "").replace(".SZ", "")] *)
Definition strip_suffixes s : list N :=
  str_replace (lit ".SZ") [] (str_replace (lit ".SH") [] (str_replace (lit ".csv") [] s)).

Section normalizer.
Context `{UnicodeDB}.

Definition process_header header : list (list N) :=
  (λ col, str_strip (str_replace time_suffix [] col)) <$> header.

Definition process_cell value : list N :=
  let value := py_str value in
  let value := strip_suffixes value in
  if re_match_digits 1 6 value then str_zfill 6 value else value.

End normalizer.

(** ** Lemmas on [strip_suffixes] *)

Lemma strip_suffixes_no_dot s : 46%N ∉ s → strip_suffixes s = s.
Proof.
  intros Hs. unfold strip_suffixes.
  change (lit ".csv") with (46%N :: lit "csv"). change (lit ".SH") with (46%N :: lit "SH").
  change (lit ".SZ") with (46%N :: lit "SZ").
  by do 3 rewrite (str_replace_absent_char _ _ s 46%N) by (done || compute_done).
Qed.

Lemma strip_suffixes_app s t : 46%N ∉ s → strip_suffixes (s ++ t) = s ++ strip_suffixes t.
Proof.
  intros Hs. unfold strip_suffixes.
  change (lit ".csv") with (46%N :: lit "csv"). change (lit ".SH") with (46%N :: lit "SH").
  change (lit ".SZ") with (46%N :: lit "SZ").
  by rewrite !str_replace_absent_prefix.
Qed.

Lemma strip_suffixes_suffix suffix : suffix ∈ [] :: cell_suffixes → strip_suffixes suffix = [].
Proof.
  unfold cell_suffixes. rewrite !elem_of_cons, elem_of_nil.
  by intros [->|[->|[->|[->|[]]]]].
Qed.


Lemma ascii_digits_no_dot ds : all_ascii_digits ds = true → 46%N ∉ ds.
Proof.
  intros Hds%all_ascii_digits_spec Hin. rewrite Forall_forall in Hds.
  specialize (Hds _ Hin). simpl in Hds. lia.
Qed.

Lemma strip_suffixes_float f : strip_suffixes (float_repr f) = float_repr f.
Proof.
  assert (∀ c, c ∉ float_alphabet → c ∉ float_repr f) as Hc.
  { intros c Hc Hin. by apply Hc, (proj1 (Forall_forall _ _) (float_repr_alphabet f)). }
  assert ((99%N ∉ float_repr f) ∧ (83%N ∉ float_repr f)) as [Hc99 Hc83]
    by (split; apply Hc; compute_done).
  unfold strip_suffixes.
  rewrite (str_replace_absent_char (lit ".csv") [] (float_repr f) 99%N); [|compute_done|done].
  rewrite (str_replace_absent_char (lit ".SH") [] (float_repr f) 83%N); [|compute_done|done].
  apply (str_replace_absent_char _ _ _ 83%N); [compute_done|done].
Qed.

(** ** [process_cell] *)

Section cell_theory.
Context `{UnicodeDB}.

Lemma ascii_digits_decimal ds :
  all_ascii_digits ds = true → Forall (λ c, is_Some (to_decimal c)) ds.
Proof.
  intros Hds%all_ascii_digits_spec. eapply Forall_impl; [done|].
  intros c Hc. simpl in Hc. by rewrite to_decimal_ascii_digit.
Qed.

(** C4: a string of one to six ASCII digits, alone or followed by one
    of the suffixes [.csv], [.SH], [.SZ], is normalised by [process_cell] to
    the digits padded with zeros on the left to six characters, and [int]
    reads the result as the number the digits denote. *)
Theorem process_cell_code ds suffix :
  all_ascii_digits ds = true → (1 ≤ length ds ≤ 6)%nat →
  suffix ∈ [] :: cell_suffixes →
  process_cell (StrCell (ds ++ suffix)) = replicate (6 - length ds) 48%N ++ ds
  ∧ int_of_str (process_cell (StrCell (ds ++ suffix))) = Ok (Z.of_N (digits_value ds)).
Proof.
  intros Hds Hlen Hsuffix.
  assert (process_cell (StrCell (ds ++ suffix)) = str_zfill 6 ds) as ->.
  { unfold process_cell. cbn [py_str].
    rewrite strip_suffixes_app, strip_suffixes_suffix, app_nil_r
      by (done || by apply ascii_digits_no_dot).
    rewrite (proj2 (re_match_digits_spec 1 6 ds)); [done|].
    exists ds. split_and!; [by apply ascii_digits_decimal|lia..|by left]. }
  split.
  - apply str_zfill_unsigned. intros c k ->. by eapply all_ascii_digits_not_sign.
  - assert (ds ≠ []) by (intros ->; simpl in Hlen; lia).
    by rewrite int_of_str_zfill, int_of_str_digits.
Qed.

(** C17: [process_cell] keeps the value of an integer cell: the
    text it returns, padded or not, reads back with [int] as the integer. *)
Theorem process_cell_int_value z : int_of_str (process_cell (IntCell z)) = Ok z.
Proof.
  unfold process_cell. cbn [py_str].
  rewrite strip_suffixes_no_dot by apply str_of_int_no_dot.
  destruct (re_match_digits 1 6 (str_of_int z)) eqn:Hm; [|apply int_of_str_of_int].
  destruct (Z.ltb_spec z 0) as [Hneg|Hpos].
  - destruct (str_of_int_neg z Hneg) as [ds Hds]. rewrite Hds in Hm.
    apply re_match_digits_spec, matches_digits_head, decimal_not_sign in Hm; [done|lia].
  - destruct (str_of_int_nonneg z Hpos) as [Hne Hds].
    by rewrite int_of_str_zfill, int_of_str_of_int.
Qed.

(** C32: [process_cell] returns the text [str] gives a float cell
    unchanged: that text holds none of the suffixes and is never a string of
    digits, whatever the float. *)
Theorem process_cell_float f : process_cell (FloatCell f) = float_repr f.
Proof.
  unfold process_cell. cbn [py_str]. rewrite strip_suffixes_float.
  destruct (float_repr_marker f) as [->|(c & Hc & Hm)]; [done|].
  rewrite (re_match_digits_other 1 6 _ c); [done..| | |].
  all: change (c ∈ [46; 101; 105; 110]%N) in Hm; rewrite !elem_of_cons, elem_of_nil in Hm;
    by destruct Hm as [->|[->|[->|[->|[]]]]].
Qed.

(** C31: when the text of a cell, its suffixes deleted, matches the
    pattern of one to six digits, applying [process_cell] to the result of
    [process_cell] changes nothing. *)
Theorem process_cell_idempotent value :
  re_match_digits 1 6 (strip_suffixes (py_str value)) = true →
  process_cell (StrCell (process_cell value)) = process_cell value.
Proof.
  intros Hm.
  assert (process_cell value = str_zfill 6 (strip_suffixes (py_str value))) as ->
    by (unfold process_cell; by rewrite Hm).
  apply re_match_digits_spec, (matches_digits_zfill 1 6 6) in Hm; [|lia].
  unfold process_cell. cbn [py_str].
  rewrite strip_suffixes_no_dot by by eapply matches_digits_no_dot.
  rewrite (proj2 (re_match_digits_spec _ _ _) Hm).
  apply str_zfill_ge. rewrite str_zfill_length. lia.
Qed.

End cell_theory.

(** ** [process_header] *)

Section header_theory.
Context `{UnicodeDB}.

Lemma header_label_fixed col :
  ¬ occurs time_suffix col → str_strip col = col →
  str_strip (str_replace time_suffix [] col) = col.
Proof. intros Hocc Hstrip. by rewrite str_replace_no_occurrence. Qed.

(** [process_header] returns the labels it is given when none of them
    holds the time of day ["00:00:00"] or has white space at its ends. *)
Lemma process_header_clean header :
  Forall (λ col, ¬ occurs time_suffix col ∧ str_strip col = col) header →
  process_header header = header.
Proof.
  intros Hall. unfold process_header. rewrite <-(list_fmap_id header) at 2.
  apply Forall_fmap_ext_1. eapply Forall_impl; [done|].
  intros col [? ?]. by apply header_label_fixed.
Qed.

(** In a date followed by a blank and the time of day, the time of day
    occurs once, at the end, when the date has no colon. *)
Lemma date_suffix_last date u v :
  58%N ∉ date → (date ++ [32%N]) ++ time_suffix = u ++ time_suffix ++ v → v = [].
Proof.
  intros Hdate Heq. destruct (decide (58%N ∈ u)) as [Hu|Hu].
  - apply list_elem_of_split_l in Hu as (u1 & u2 & -> & Hu1).
    assert ((date ++ [32; 48; 48]%N) ++ 58%N :: [48; 48; 58; 48; 48]%N
            = u1 ++ 58%N :: (u2 ++ time_suffix ++ v)) as Heq'.
    { rewrite <-?app_assoc in Heq. rewrite <-?app_assoc. exact Heq. }
    apply first_occurrence_inj in Heq' as [_ Heq'];
      [|rewrite not_elem_of_app; split; [done|compute_done]|done].
    apply (f_equal length) in Heq'. rewrite !length_app in Heq'. simpl in Heq'. lia.
  - assert ((date ++ [32; 48; 48]%N) ++ 58%N :: [48; 48; 58; 48; 48]%N
            = (u ++ [48; 48]%N) ++ 58%N :: ([48; 48; 58; 48; 48]%N ++ v)) as Heq'.
    { rewrite <-?app_assoc in Heq. rewrite <-?app_assoc. exact Heq. }
    apply first_occurrence_inj in Heq' as [_ Heq'];
      [|rewrite not_elem_of_app; split; [done|compute_done]..].
    symmetry in Heq'. rewrite <-(app_nil_r [48; 48; 58; 48; 48]%N) in Heq' at 2.
    by apply app_inv_head in Heq'.
Qed.

(** C16: the labels pandas gives the date columns, a date followed by
    a blank and the time of day ["00:00:00"], are normalised to the dates:
    [process_header] returns the dates, in their order, when they hold no
    colon and have no white space at their ends. *)
Theorem process_header_dates dates :
  Forall (λ date, (58%N ∉ date) ∧ str_strip date = date) dates →
  process_header ((λ date, date ++ lit " 00:00:00") <$> dates) = dates.
Proof.
  intros Hall. unfold process_header. rewrite <-list_fmap_compose.
  rewrite <-(list_fmap_id dates) at 2. apply Forall_fmap_ext_1.
  eapply Forall_impl; [done|]. intros date [Hcolon Hstrip]. cbn beta. unfold compose.
  change (lit " 00:00:00") with ([32%N] ++ time_suffix). rewrite (assoc_L (++)).
  rewrite str_replace_delete_last; [|done|intros u v; by apply date_suffix_last].
  rewrite str_strip_snoc_space; [done|]. by rewrite is_space_ascii.
Qed.

(** C33: applying [process_header] twice gives the result of
    applying it once, provided no label of that result holds the time of day
    ["00:00:00"] (deleting an occurrence can form a new one). *)
Theorem process_header_idempotent header :
  Forall (λ col, ¬ occurs time_suffix col) (process_header header) →
  process_header (process_header header) = process_header header.
Proof.
  unfold process_header. rewrite Forall_fmap, <-list_fmap_compose. intros Hall.
  apply Forall_fmap_ext_1. eapply Forall_impl; [done|].
  intros col Hcol. simpl in *. apply header_label_fixed; [done|apply str_strip_idemp].
Qed.

End header_theory.

(** ** The theorems on examples *)

Lemma process_cell_code_witness :
  process_cell (H := unicode14_db) (StrCell (lit "1" ++ lit ".SH"))
  = replicate (6 - length (lit "1")) 48%N ++ lit "1"
  ∧ int_of_str (H := unicode14_db)
      (process_cell (H := unicode14_db) (StrCell (lit "1" ++ lit ".SH")))
    = Ok (Z.of_N (digits_value (lit "1"))).
Proof. apply process_cell_code; compute_done. Defined.

Lemma process_cell_idempotent_witness :
  process_cell (H := unicode14_db)
    (StrCell (process_cell (H := unicode14_db) (StrCell (lit "600000.SH"))))
  = process_cell (H := unicode14_db) (StrCell (lit "600000.SH")).
Proof. apply process_cell_idempotent. compute_done. Defined.

Lemma process_header_dates_witness :
  process_header (H := unicode14_db)
    ((λ date, date ++ lit " 00:00:00") <$> [lit "2024-01-02"; lit "2024-01-03"])
  = [lit "2024-01-02"; lit "2024-01-03"].
Proof. apply process_header_dates. repeat constructor; compute_done. Defined.

Lemma process_header_idempotent_witness :
  process_header (H := unicode14_db)
    (process_header (H := unicode14_db) [lit "2024-01-02 00:00:00"; lit " new_predict "])
  = process_header (H := unicode14_db) [lit "2024-01-02 00:00:00"; lit " new_predict "].
Proof. apply process_header_idempotent. compute_done. Defined.

(** ** Examples

    A date label loses its time of day. *)
Example process_header_date :
  process_header (H := unicode14_db) [lit "2024-01-02 00:00:00"; lit "new_predict"]
  = [lit "2024-01-02"; lit "new_predict"].
Proof. reflexivity. Qed.

(** Deleting an occurrence can bring the parts of another together, so a
    second pass changes the result of the first. *)
Example process_header_twice :
  process_header (H := unicode14_db) [lit "000:00:000:00:00"] = [lit "00:00:00"]
  ∧ process_header (H := unicode14_db) [lit "00:00:00"] = [[]].
Proof. split; reflexivity. Qed.

(** Two labels can become one. *)
Example process_header_merges :
  process_header (H := unicode14_db) [lit "d1"; lit "d1 00:00:00"] = [lit "d1"; lit "d1"].
Proof. reflexivity. Qed.

(** The time with one zero for the hour, as the docstring writes it, is not
    removed. *)
Example process_header_one_zero :
  process_header (H := unicode14_db) [lit "2024-01-02 0:00:00"] = [lit "2024-01-02 0:00:00"].
Proof. reflexivity. Qed.

Example process_cell_twice :
  process_cell (H := unicode14_db) (StrCell (lit ".c.csvsv")) = lit ".csv"
  ∧ process_cell (H := unicode14_db) (StrCell (lit ".csv")) = [].
Proof. split; reflexivity. Qed.

(** The suffixes are deleted wherever they stand, not only at the end. *)
Example process_cell_inner_suffix :
  process_cell (H := unicode14_db) (StrCell (lit "12.SH34")) = lit "001234".
Proof. reflexivity. Qed.

(** [$] matches before a final line feed: the padded string has six
    characters, and they are not all digits. *)
Example process_cell_newline :
  process_cell (H := unicode14_db) (StrCell (lit "12" ++ [10%N])) = lit "00012" ++ [10%N].
Proof. reflexivity. Qed.

(** [\d] matches the decimal digits of every script: ARABIC-INDIC DIGIT
    THREE is padded. *)
Example process_cell_unicode_digit :
  process_cell (H := unicode14_db) (StrCell [1635%N]) = lit "00000" ++ [1635%N].
Proof. reflexivity. Qed.
