(* ===== verification/RankQuery.v ===== *)
(** * The rank query: [query_stock_rank] of src/app.py

    [query_stock_rank df stock_code n_days] returns the Python pair
    [(ranks, None)] or [(None, message)], or raises.  [rank_loop] is the
    [for] loop over the selected columns and [rank_step] its body; [ranks]
    is the dictionary the loop fills, in insertion order.

    [rank_ref] is the reference definition of a rank: one plus the number
    of values of the column that are strictly greater than the target's.
    The theorems show that the query computes it on the last [n_days]
    columns before the rightmost one, in their order, and characterise
    every error path. *)

From Stdlib Require Import SpecFloat.
From S2P Require Import Prelude Unicode PyStr PyInt Scalar PyDict Frame.

Implicit Types (df : list (list N * series)) (col : series) (label column : list N)
  (mask : list bool) (ranks : list (list N * Z)).

(** ** The messages and the identifier column *)

Definition id_column : list N := lit "new_predict".

Definition msg_invalid_code : list N := lit "股票代码必须是六位数字".
Definition msg_not_found : list N := lit "股票代码未找到".
Definition msg_exceeds (max_days : Z) : list N :=
  lit "查询天数超过最大天数 " ++ str_of_int max_days.

(** ** The loop *)

Definition rank_step df (stock_row : list (list N * series)) ranks column
  : pyres (list (list N * Z)) :=
  col ← df_getitem column df;
  rows ← df_getitem column stock_row;
  rank ← series_rank col rows;
  mret (dict_set column rank ranks).

Fixpoint rank_loop df (stock_row : list (list N * series))
    (columns : list (list N)) ranks : pyres (list (list N * Z)) :=
  match columns with
  | [] => Ok ranks
  | column :: rest =>
    ranks' ← rank_step df stock_row ranks column;
    rank_loop df stock_row rest ranks'
  end.

(** ** The query *)

Section query.
Context `{UnicodeDB}.

Definition query_stock_rank df (stock_code : list N) (n_days : Z)
  : pyres (option (list (list N * Z)) * option (list N)) :=
  match int_of_str stock_code with
  | Raise ValueError => Ok (None, Some msg_invalid_code)
  | Raise e => Raise e
  | Ok code =>
    ids ← df_getitem id_column df;
    let stock_row := df_mask (series_eq_int ids code) df in
    if df_empty stock_row then Ok (None, Some msg_not_found) else
    let max_days := (Z.of_nat (length (df_columns df)) - 1)%Z in
    if (n_days >? max_days)%Z then Ok (None, Some (msg_exceeds max_days)) else
    let recent_columns := py_slice (df_columns df) (- n_days - 1) (-1) in
    ranks ← rank_loop df stock_row recent_columns [];
    Ok (Some ranks, None)
  end.

(** ** Specification

    The query as a function of the table: the row [i] of the first
    identifier equal to the code, the window of labels, and for each label
    of the window the reference rank of row [i] in its column. *)

Definition window (labels : list (list N)) (n_days : Z) : list (list N) :=
  let dates := take (length labels - 1) labels in
  let skip :=
    if (0 <=? n_days)%Z then (Z.of_nat (length dates) - n_days)%Z
    else (- n_days - 1)%Z in
  drop (Z.to_nat skip) dates.

Definition column_rank df (i : nat) column : pyres (list N * Z) :=
  col ← df_getitem column df;
  r ← rank_result (rank_ref col i);
  mret (column, r).

Definition ranks_spec df (i : nat) (columns : list (list N)) : pyres (list (list N * Z)) :=
  mapM (column_rank df i) columns.

Definition query_spec df (stock_code : list N) (n_days : Z)
  : pyres (option (list (list N * Z)) * option (list N)) :=
  match int_of_str stock_code with
  | Raise _ => Ok (None, Some msg_invalid_code)
  | Ok code =>
    ids ← df_getitem id_column df;
    match first_true (series_eq_int ids code) with
    | None => Ok (None, Some msg_not_found)
    | Some i =>
      let max_days := (Z.of_nat (length df) - 1)%Z in
      if (n_days >? max_days)%Z then Ok (None, Some (msg_exceeds max_days)) else
      ranks ← ranks_spec df i (window (df_columns df) n_days);
      Ok (Some ranks, None)
    end
  end.

End query.

(** ** Sample tables *)

Definition sample_df : list (list N * series) :=
  [ (lit "d1", IntSeries [10; 3; 7]%Z);
    (lit "d2", IntSeries [5; 9; 2]%Z);
    (lit "new_predict", IntSeries [1; 2; 600000]%Z) ].

Definition sample_nan_df : list (list N * series) :=
  [ (lit "d1", FloatSeries [S754_nan; S754_zero false]);
    (lit "new_predict", IntSeries [1; 2]%Z) ].

(** The identifiers of [sample_df], and the ranks of its first row. *)
Definition sample_ids : series := IntSeries [1; 2; 600000]%Z.
Definition sample_ranks : list (list N * Z) := [(lit "d1", 1%Z); (lit "d2", 2%Z)].

(** ** The loop computes the reference ranks *)

Lemma ranks_spec_cons df i column rest :
  ranks_spec df i (column :: rest)
  = kv ← column_rank df i column; l ← ranks_spec df i rest; mret (kv :: l).
Proof. done. Qed.

Lemma rank_step_mask df mask i ranks column :
  first_true mask = Some i →
  rank_step df (df_mask mask df) ranks column
  = kv ← column_rank df i column; mret (dict_set kv.1 kv.2 ranks).
Proof.
  intros Hi. unfold rank_step, column_rank. rewrite df_getitem_mask.
  destruct (df_getitem column df) as [col|e]; simpl; [|done].
  rewrite (series_rank_mask col mask i Hi). by destruct (rank_ref col i).
Qed.

Lemma rank_loop_mask df mask i columns ranks :
  first_true mask = Some i →
  rank_loop df (df_mask mask df) columns ranks
  = l ← ranks_spec df i columns; mret (foldl (λ d kv, dict_set kv.1 kv.2 d) ranks l).
Proof.
  intros Hi. revert ranks. induction columns as [|column rest IH]; intros ranks; [done|].
  cbn [rank_loop]. rewrite (rank_step_mask _ _ i), ranks_spec_cons by done.
  destruct (column_rank df i column) as [kv|e]; [|done]. cbn.
  rewrite IH. by destruct (ranks_spec df i rest).
Qed.

Lemma column_rank_inv df i column kv :
  column_rank df i column = Ok kv ↔
  ∃ col r, df_getitem column df = Ok col ∧ rank_ref col i = Some r ∧ kv = (column, r).
Proof.
  unfold column_rank. split.
  - intros (col & Hcol & (r & Hr & [= <-])%pyres_bind_inv)%pyres_bind_inv.
    exists col, r. by destruct (rank_ref col i); simplify_eq/=.
  - intros (col & r & -> & Hr & ->). simpl. by rewrite Hr.
Qed.

Lemma ranks_spec_keys df i columns l : ranks_spec df i columns = Ok l → l.*1 = columns.
Proof.
  revert l. induction columns as [|column rest IH]; intros l.
  - by intros [= <-].
  - rewrite ranks_spec_cons.
    intros (kv & (col & r & _ & _ & ->)%column_rank_inv
               & (l' & Hl' & [= <-])%pyres_bind_inv)%pyres_bind_inv.
    csimpl. f_equal. by apply IH.
Qed.

Lemma window_NoDup (labels : list (list N)) n : NoDup labels → NoDup (window labels n).
Proof.
  intros Hnd. unfold window. apply (sublist_NoDup _ labels); [done|].
  etrans; [apply sublist_drop|apply sublist_take].
Qed.


(** ** The window *)

Lemma window_subseteq (labels : list (list N)) n : window labels n ⊆ labels.
Proof.
  unfold window. etrans; [apply subseteq_drop|apply subseteq_take].
Qed.

(** For [0 ≤ n ≤ len(labels) - 1] the window is the [n] labels that stand
    before the last one. *)
Lemma window_nonneg (labels : list (list N)) n :
  (0 ≤ n ≤ Z.of_nat (length labels) - 1)%Z →
  ∃ pre last, labels = pre ++ window labels n ++ [last]
              ∧ Z.of_nat (length (window labels n)) = n.
Proof.
  intros Hn. destruct labels as [|l0 labels _] using rev_ind; [simpl in Hn; lia|].
  rewrite length_app in Hn. simpl in Hn. unfold window.
  replace (length (labels ++ [l0]) - 1) with (length labels) by (rewrite length_app; simpl; lia).
  rewrite take_app_length, (proj2 (Z.leb_le 0 n)) by lia.
  exists (take (Z.to_nat (Z.of_nat (length labels) - n)) labels), l0.
  rewrite (assoc_L (++)), take_drop, length_drop. split; [done|lia].
Qed.

(** For a negative [n] the window is the labels before the last one
    without their first [-n-1]. *)
Lemma window_negative (labels : list (list N)) n :
  (n < 0)%Z →
  window labels n = drop (Z.to_nat (- n - 1)) (take (length labels - 1) labels).
Proof. intros Hn. unfold window. by rewrite (proj2 (Z.leb_gt 0 n)) by lia. Qed.

Lemma window_negative_length (labels : list (list N)) n :
  (n < 0)%Z → Z.of_nat (length (window labels n)) = Z.max 0 (Z.of_nat (length labels) + n).
Proof. intros Hn. rewrite window_negative, length_drop, length_take by done. lia. Qed.

(** ** The reference ranks *)

Lemma column_rank_raises df i column e :
  column ∈ df_columns df → column_rank df i column = Raise e → e = IndexError.
Proof.
  intros [col Hcol]%df_getitem_elem. unfold column_rank. rewrite Hcol. cbn.
  destruct (rank_ref col i); cbn; [done|by intros [= <-]].
Qed.

Lemma column_rank_is_ok df i column :
  is_ok (column_rank df i column) = true ↔
  ∃ col r, df_getitem column df = Ok col ∧ rank_ref col i = Some r.
Proof.
  unfold column_rank. split.
  - destruct (df_getitem column df) as [col|]; [|done]. cbn.
    destruct (rank_ref col i) as [r|] eqn:Hr; [intros _; by exists col, r|done].
  - intros (col & r & -> & Hr). cbn. by rewrite Hr.
Qed.

Lemma ranks_spec_Ok df i columns l :
  ranks_spec df i columns = Ok l ↔
  Forall2 (λ column kv, ∃ col r, df_getitem column df = Ok col
                         ∧ rank_ref col i = Some r ∧ kv = (column, r)) columns l.
Proof.
  unfold ranks_spec. rewrite pyres_mapM_Ok.
  split; intros Hl; (eapply Forall2_impl; [exact Hl|]); intros column kv; apply column_rank_inv.
Qed.

Lemma ranks_spec_elem df i columns l label r :
  ranks_spec df i columns = Ok l → (label, r) ∈ l →
  label ∈ columns ∧ ∃ col, df_getitem label df = Ok col ∧ rank_ref col i = Some r.
Proof.
  intros Hl%ranks_spec_Ok [j Hj]%list_elem_of_lookup.
  destruct (Forall2_lookup_r _ _ _ _ _ Hl Hj) as (column & ? & col & r' & ? & ? & [= -> ->]).
  split; [by eapply list_elem_of_lookup_2|eauto].
Qed.

(** A traversal of labels of the table raises nothing but [IndexError]. *)
Lemma ranks_spec_raises df i columns e :
  columns ⊆ df_columns df → ranks_spec df i columns = Raise e → e = IndexError.
Proof.
  intros Hsub (l1 & column & l2 & -> & _ & He)%pyres_mapM_Raise.
  apply (column_rank_raises df i column); [|done].
  apply Hsub, elem_of_app. right. by left.
Qed.

Section query_theory.
Context `{UnicodeDB}.

Lemma query_invalid df stock_code n_days e :
  int_of_str stock_code = Raise e →
  query_stock_rank df stock_code n_days = Ok (None, Some msg_invalid_code).
Proof.
  intros He. unfold query_stock_rank. rewrite He.
  by rewrite (int_of_str_raises _ _ He).
Qed.

Lemma query_no_ids df stock_code n_days code e :
  int_of_str stock_code = Ok code → df_getitem id_column df = Raise e →
  query_stock_rank df stock_code n_days = Raise e.
Proof. intros Hcode Hids. unfold query_stock_rank. by rewrite Hcode, Hids. Qed.

(** The query on a table that has the identifier column, in terms of the
    first row that has the code. *)
Lemma query_found df stock_code n_days code ids :
  df_wf df → int_of_str stock_code = Ok code → df_getitem id_column df = Ok ids →
  query_stock_rank df stock_code n_days =
  match first_true (series_eq_int ids code) with
  | None => Ok (None, Some msg_not_found)
  | Some i =>
    let max_days := (Z.of_nat (length df) - 1)%Z in
    if (n_days >? max_days)%Z then Ok (None, Some (msg_exceeds max_days)) else
    ranks ← ranks_spec df i (window (df_columns df) n_days);
    Ok (Some ranks, None)
  end.
Proof.
  intros Hwf Hcode Hids. unfold query_stock_rank. rewrite Hcode, Hids. cbn [mbind pyres_bind].
  rewrite df_empty_mask; [|done|by destruct df|].
  2: { by rewrite series_eq_int_length, (df_wf_length _ _ _ Hwf Hids). }
  destruct (first_true _) as [i|] eqn:Hi; [|done].
  rewrite bool_decide_eq_false_2 by done.
  rewrite !df_columns_length.
  destruct (Z.gtb_spec n_days (Z.of_nat (length df) - 1)) as [|Hle]; [done|].
  rewrite py_slice_window by (rewrite df_columns_length; lia).
  rewrite (rank_loop_mask _ _ i) by done. fold (window (df_columns df) n_days).
  destruct (ranks_spec df i _) as [l|e] eqn:Hl; [|done]. cbn.
  fold (dict_of_list l). rewrite dict_of_list_NoDup; [done|].
  rewrite (ranks_spec_keys _ _ _ _ Hl). apply window_NoDup, Hwf.
Qed.

End query_theory.

Lemma sample_df_wf : df_wf sample_df.
Proof. by apply (bool_decide_unpack _); vm_compute. Qed.

Lemma sample_nan_df_wf : df_wf sample_nan_df.
Proof. by apply (bool_decide_unpack _); vm_compute. Qed.

(** ** The query on a table that has the code *)

Section query_found.
Context `{UnicodeDB} (df : list (list N * series)) (stock_code : list N) (code : Z)
  (ids : series) (i : nat).
Hypotheses (Hwf : df_wf df) (Hcode : int_of_str stock_code = Ok code)
  (Hids : df_getitem id_column df = Ok ids)
  (Hrow : first_true (series_eq_int ids code) = Some i).
Implicit Types (n_days : Z).

Let max_days : Z := (Z.of_nat (length (df_columns df)) - 1)%Z.

Lemma query_found_row n_days :
  query_stock_rank df stock_code n_days =
  if (n_days >? max_days)%Z then Ok (None, Some (msg_exceeds max_days)) else
  ranks ← ranks_spec df i (window (df_columns df) n_days);
  Ok (Some ranks, None).
Proof.
  unfold max_days. by rewrite (query_found df stock_code n_days code ids), Hrow,
    df_columns_length.
Qed.

Lemma query_found_Ok n_days ranks err :
  query_stock_rank df stock_code n_days = Ok (Some ranks, err) ↔
  (n_days ≤ max_days)%Z ∧ ranks_spec df i (window (df_columns df) n_days) = Ok ranks
  ∧ err = None.
Proof.
  rewrite query_found_row. destruct (Z.gtb_spec n_days max_days).
  - split; [done|lia].
  - rewrite pyres_bind_inv. split.
    + intros (ranks' & ? & [= <- <-]). by split_and!.
    + intros (_ & ? & ->). by exists ranks.
Qed.

(** C8: [query_stock_rank] with [n_days] greater than the number of
    columns less one returns no ranks and the message that the days exceed
    the maximum, carrying that number, [len(df.columns) - 1], in decimal;
    this holds of every well-formed table that has the code. *)
Theorem query_exceeds_max n_days :
  (n_days > Z.of_nat (length (df_columns df)) - 1)%Z →
  query_stock_rank df stock_code n_days
  = Ok (None, Some (msg_exceeds (Z.of_nat (length (df_columns df)) - 1))).
Proof.
  intros Hn. rewrite query_found_row. fold max_days in Hn |- *.
  by rewrite (proj2 (Z.gtb_gt _ _)) by lia.
Qed.

(** C3: every entry [(label, r)] of the ranks [query_stock_rank]
    returns is the reference rank of the row of the code in the column
    [label]: one plus the number of values of the column strictly greater
    than the value of that row, the row being the first whose identifier
    equals the code. *)
Theorem query_rank_value n_days ranks err label r :
  query_stock_rank df stock_code n_days = Ok (Some ranks, err) →
  (label, r) ∈ ranks →
  ∃ col, df_getitem label df = Ok col ∧ rank_ref col i = Some r.
Proof. intros (_ & Hranks & _)%query_found_Ok Hin. by eapply ranks_spec_elem. Qed.

(** C18: when the row of the code holds the greatest value of an
    integer column of the window, the ranks [query_stock_rank] returns give
    that column the rank 1. *)
Theorem query_rank_one_for_max n_days ranks err label xs v :
  query_stock_rank df stock_code n_days = Ok (Some ranks, err) →
  label ∈ window (df_columns df) n_days →
  df_getitem label df = Ok (IntSeries xs) →
  xs !! i = Some v → Forall (λ x, (x ≤ v)%Z) xs →
  dict_get label ranks = Some 1%Z.
Proof.
  intros (_ & Hranks & _)%query_found_Ok Hin Hcol Hv Hmax.
  pose proof (ranks_spec_keys _ _ _ _ Hranks) as Hkeys.
  rewrite <-Hkeys in Hin. apply list_elem_of_fmap in Hin as ([label' r] & -> & Hin).
  rewrite (dict_get_elem _ r); [|rewrite Hkeys; apply window_NoDup, Hwf|done].
  destruct (ranks_spec_elem _ _ _ _ _ _ Hranks Hin) as (_ & col & Hcol' & Hr).
  simpl in *. rewrite Hcol in Hcol'. injection Hcol' as <-. rewrite <-Hr.
  apply (rank_of_max xs i v); [done..|].
  eapply Forall_impl; [done|]. intros x Hx. rewrite Z_sc_ltb. simpl in Hx. lia.
Qed.

(** C20: [query_stock_rank] returns ranks, and raises nothing, on a
    well-formed table that has the code, for [n_days] up to the maximum,
    when the row of the code holds a value (not a missing one) in every
    column of the window. *)
Theorem query_returns n_days :
  (n_days ≤ Z.of_nat (length (df_columns df)) - 1)%Z →
  (∀ label col, label ∈ window (df_columns df) n_days →
     df_getitem label df = Ok col → series_present col i = true) →
  ∃ ranks, query_stock_rank df stock_code n_days = Ok (Some ranks, None).
Proof.
  intros Hn Hpresent.
  destruct (ranks_spec df i (window (df_columns df) n_days)) as [ranks|e] eqn:Hranks.
  { exists ranks. by apply query_found_Ok. }
  assert (is_ok (ranks_spec df i (window (df_columns df) n_days)) = true) as Hok;
    [|by rewrite Hranks in Hok].
  apply pyres_mapM_is_ok, Forall_forall. intros label Hlabel.
  destruct (df_getitem_elem label df) as [col Hcol]; [by eapply window_subseteq|].
  apply column_rank_is_ok. specialize (Hpresent _ _ Hlabel Hcol).
  apply rank_ref_is_Some in Hpresent as [r Hr]. eauto.
Qed.

(** C34: when the row of the code holds a missing value (NaN) in a
    column of the window, [query_stock_rank] raises [IndexError]: the
    comparison with NaN selects no position of the sorted column, and
    [.index[0]] fails.  The error is not caught. *)
Theorem query_missing_value n_days label col :
  (n_days ≤ Z.of_nat (length (df_columns df)) - 1)%Z →
  label ∈ window (df_columns df) n_days →
  df_getitem label df = Ok col → series_present col i = false →
  query_stock_rank df stock_code n_days = Raise IndexError.
Proof.
  intros Hn Hlabel Hcol Hna. rewrite query_found_row. fold max_days in Hn.
  rewrite Z.gtb_ltb, (proj2 (Z.ltb_ge _ _)) by lia.
  destruct (ranks_spec df i (window (df_columns df) n_days)) as [ranks|e] eqn:Hranks.
  - apply pyres_mapM_Ok in Hranks.
    apply list_elem_of_lookup in Hlabel as [j Hj].
    destruct (Forall2_lookup_l _ _ _ _ _ Hranks Hj) as (kv & _ & Hkv).
    apply column_rank_inv in Hkv as (col' & r & Hcol' & Hr & _).
    rewrite Hcol in Hcol'. injection Hcol' as <-.
    assert (is_Some (rank_ref col i)) as ?%rank_ref_is_Some by eauto. congruence.
  - cbn. f_equal. eapply ranks_spec_raises; [|done]. apply window_subseteq.
Qed.
End query_found.

(** ** The result of a successful query *)

Section query_ok.
Context `{UnicodeDB} (df : list (list N * series)).
Hypothesis (Hwf : df_wf df).
Implicit Types (stock_code : list N) (n_days : Z).

(** A query that returns ranks found the code in some row [i], and the
    ranks are the reference ranks of row [i] over the window. *)
Lemma query_Ok_inv stock_code n_days ranks err :
  query_stock_rank df stock_code n_days = Ok (Some ranks, err) →
  ∃ i, (n_days ≤ Z.of_nat (length (df_columns df)) - 1)%Z
       ∧ ranks_spec df i (window (df_columns df) n_days) = Ok ranks.
Proof.
  destruct (int_of_str stock_code) as [code|e] eqn:Hcode;
    [|by rewrite (query_invalid _ _ _ e)].
  destruct (df_getitem id_column df) as [ids|e] eqn:Hids;
    [|by rewrite (query_no_ids _ _ _ code e)].
  destruct (first_true (series_eq_int ids code)) as [i|] eqn:Hrow;
    [|by rewrite (query_found _ _ _ code ids), Hrow].
  intros (? & ? & _)%(query_found_Ok df stock_code code ids i); [eauto|done..].
Qed.

(** C19: every rank [query_stock_rank] returns on a well-formed table
    is at least 1 and at most the number of rows of the table. *)
Theorem query_rank_bounds stock_code n_days ranks err label r :
  query_stock_rank df stock_code n_days = Ok (Some ranks, err) →
  (label, r) ∈ ranks → (1 ≤ r ≤ Z.of_nat (df_nrows df))%Z.
Proof.
  intros (i & _ & Hranks)%query_Ok_inv Hin.
  destruct (ranks_spec_elem _ _ _ _ _ _ Hranks Hin) as (_ & col & Hcol & Hr).
  rewrite <-(df_wf_length _ _ _ Hwf Hcol). by apply (rank_ref_bounds _ i).
Qed.

(** C5: for [n_days] not negative, the ranks [query_stock_rank] returns
    have exactly [n_days] entries, and their keys are the [n_days] labels
    that stand just before the last column, in the order of the table. *)
Theorem query_window stock_code n_days ranks err :
  (0 ≤ n_days)%Z →
  query_stock_rank df stock_code n_days = Ok (Some ranks, err) →
  ∃ pre last, df_columns df = pre ++ dict_keys ranks ++ [last]
              ∧ Z.of_nat (length ranks) = n_days.
Proof.
  intros Hn (i & Hmax & Hranks%ranks_spec_keys)%query_Ok_inv.
  destruct (window_nonneg (df_columns df) n_days) as (pre & last & Hdf & Hlen); [done|].
  exists pre, last. unfold dict_keys. rewrite Hranks. split; [done|].
  by rewrite <-(length_fmap fst), Hranks.
Qed.

(** C35: a negative [n_days] passes the guard on the maximum: the
    keys of the ranks are then the labels before the last column without
    their first [-n_days - 1], so [n_days = -1] gives a rank for every date
    column; the number of entries is [len(df.columns) + n_days], or 0. *)
Theorem query_negative_days stock_code n_days ranks err :
  (n_days < 0)%Z →
  query_stock_rank df stock_code n_days = Ok (Some ranks, err) →
  dict_keys ranks = drop (Z.to_nat (- n_days - 1)) (take (length df - 1) (df_columns df))
  ∧ Z.of_nat (length ranks) = Z.max 0 (Z.of_nat (length df) + n_days).
Proof.
  intros Hn (i & _ & Hranks%ranks_spec_keys)%query_Ok_inv. unfold dict_keys.
  rewrite <-(length_fmap fst ranks), Hranks, window_negative_length by done.
  by rewrite window_negative, df_columns_length by done.
Qed.

End query_ok.

(** ** The error paths *)

Section query_errors.
Context `{UnicodeDB}.
Implicit Types (stock_code : list N) (n_days code : Z).

(** C1: on a well-formed table (distinct labels, columns of one
    length) [query_stock_rank] computes [query_spec]: the messages for a code
    that is no integer, a code no row has and a window longer than the
    table, [KeyError] without the identifier column, and otherwise the
    reference ranks ([rank_ref], by counting) of the first row with the code
    over the window of labels, where the code sorts every column. *)
Theorem query_stock_rank_refines df stock_code n_days :
  df_wf df → query_stock_rank df stock_code n_days = query_spec df stock_code n_days.
Proof.
  intros Hwf. unfold query_spec.
  destruct (int_of_str stock_code) as [code|e] eqn:Hcode; [|by eapply query_invalid].
  destruct (df_getitem id_column df) as [ids|e] eqn:Hids.
  - by apply query_found.
  - by eapply query_no_ids.
Qed.

(** C10: when [int] rejects the code, [query_stock_rank] returns no
    ranks and the message that the code must be six digits, whatever the
    table and [n_days]; it raises nothing and does not look at the table. *)
Theorem query_invalid_code df stock_code n_days :
  is_ok (int_of_str stock_code) = false →
  query_stock_rank df stock_code n_days = Ok (None, Some msg_invalid_code).
Proof.
  destruct (int_of_str stock_code) as [code|e] eqn:Hcode; [done|].
  intros _. by eapply query_invalid.
Qed.

(** C36: on a table without the column [new_predict],
    [query_stock_rank] raises [KeyError] for every code [int] accepts; the
    error is not caught. *)
Theorem query_no_id_column df stock_code n_days :
  is_ok (int_of_str stock_code) = true → id_column ∉ df_columns df →
  query_stock_rank df stock_code n_days = Raise KeyError.
Proof.
  destruct (int_of_str stock_code) as [code|e] eqn:Hcode; [|done].
  intros _ Hid%df_getitem_not_elem. by eapply query_no_ids.
Qed.

(** C12: when no row of the identifier column holds the integer the
    code denotes, [query_stock_rank] returns no ranks and the message that
    the code was not found, whatever [n_days]. *)
Theorem query_not_found df stock_code n_days code ids :
  df_wf df → int_of_str stock_code = Ok code →
  df_getitem id_column df = Ok (IntSeries ids) → code ∉ ids →
  query_stock_rank df stock_code n_days = Ok (None, Some msg_not_found).
Proof.
  intros Hwf Hcode Hids Hnin%eq_int_None.
  by rewrite (query_found _ _ _ code (IntSeries ids)), Hnin.
Qed.

(** C21: a result of [query_stock_rank] holds either ranks or a
    message, never both and never neither. *)
Theorem query_exactly_one df stock_code n_days ranks_opt error_opt :
  query_stock_rank df stock_code n_days = Ok (ranks_opt, error_opt) →
  is_Some ranks_opt ↔ error_opt = None.
Proof.
  assert (∀ msg : list N, is_Some (@None (list (list N * Z))) ↔ Some msg = None) as Herr
    by (split; [by intros [? [=]]|done]).
  unfold query_stock_rank. intros Hq.
  destruct (int_of_str stock_code) as [code|[]]; simplify_eq/=; [|done].
  apply pyres_bind_inv in Hq as (ids & _ & Hq).
  do 2 (case_match; [by simplify_eq|]).
  by apply pyres_bind_inv in Hq as (ranks & _ & [= <- <-]).
Qed.
End query_errors.

(** ** The theorems on the sample tables *)

Lemma query_stock_rank_refines_witness :
  query_stock_rank (H := unicode14_db) sample_df (lit "000001") 2
  = query_spec (H := unicode14_db) sample_df (lit "000001") 2.
Proof. apply query_stock_rank_refines, sample_df_wf. Defined.

Lemma query_invalid_code_witness :
  query_stock_rank (H := unicode14_db) sample_df (lit "60000a") 2
  = Ok (None, Some msg_invalid_code).
Proof. apply query_invalid_code. compute_done. Defined.

Lemma query_no_id_column_witness :
  query_stock_rank (H := unicode14_db) (take 2 sample_df) (lit "000001") 1
  = Raise KeyError.
Proof. apply query_no_id_column; compute_done. Defined.

Lemma query_not_found_witness :
  query_stock_rank (H := unicode14_db) sample_df (lit "000009") 2
  = Ok (None, Some msg_not_found).
Proof.
  apply (query_not_found sample_df (lit "000009") 2 9 [1; 2; 600000]%Z sample_df_wf);
    compute_done.
Defined.

Lemma query_exactly_one_witness :
  is_Some (Some sample_ranks) ↔ @None (list N) = None.
Proof.
  apply (query_exactly_one (H := unicode14_db) sample_df (lit "000001") 2). compute_done.
Defined.

Lemma query_exceeds_max_witness :
  query_stock_rank (H := unicode14_db) sample_df (lit "000001") 3
  = Ok (None, Some (lit "查询天数超过最大天数 2")).
Proof.
  apply (query_exceeds_max (H := unicode14_db) sample_df (lit "000001") 1 sample_ids 0
           sample_df_wf); compute_done.
Defined.

Lemma query_rank_value_witness :
  ∃ col, df_getitem (lit "d2") sample_df = Ok col ∧ rank_ref col 0 = Some 2%Z.
Proof.
  apply (query_rank_value (H := unicode14_db) sample_df (lit "000001") 1 sample_ids 0
           sample_df_wf) with (n_days := 2%Z) (ranks := sample_ranks) (err := None);
    compute_done.
Defined.

Lemma query_rank_bounds_witness : (1 ≤ 2 ≤ Z.of_nat (df_nrows sample_df))%Z.
Proof.
  apply (query_rank_bounds (H := unicode14_db) sample_df sample_df_wf (lit "000001") 2
           sample_ranks None (lit "d2")); compute_done.
Defined.

Lemma query_window_witness :
  ∃ pre last, df_columns sample_df = pre ++ dict_keys sample_ranks ++ [last]
              ∧ Z.of_nat (length sample_ranks) = 2%Z.
Proof.
  apply (query_window (H := unicode14_db) sample_df sample_df_wf (lit "000001") 2
           sample_ranks None); compute_done.
Defined.

Lemma query_negative_days_witness :
  dict_keys sample_ranks
  = drop (Z.to_nat (- -1 - 1)) (take (length sample_df - 1) (df_columns sample_df))
  ∧ Z.of_nat (length sample_ranks) = Z.max 0 (Z.of_nat (length sample_df) + -1).
Proof.
  apply (query_negative_days (H := unicode14_db) sample_df sample_df_wf (lit "000001") (-1)
           sample_ranks None); compute_done.
Defined.

Lemma query_rank_one_for_max_witness : dict_get (lit "d1") sample_ranks = Some 1%Z.
Proof.
  apply (query_rank_one_for_max (H := unicode14_db) sample_df (lit "000001") 1 sample_ids 0
           sample_df_wf) with (n_days := 2%Z) (err := None) (xs := [10; 3; 7]%Z) (v := 10%Z);
    compute_done.
Defined.

Lemma query_returns_witness :
  ∃ ranks, query_stock_rank (H := unicode14_db) sample_df (lit "000001") 2
           = Ok (Some ranks, None).
Proof.
  apply (query_returns (H := unicode14_db) sample_df (lit "000001") 1 sample_ids 0
           sample_df_wf); try compute_done.
  intros label col Hlabel Hcol.
  assert (label ∈ df_columns sample_df) as Hin by by eapply window_subseteq.
  repeat (apply elem_of_cons in Hin as [->|Hin]; [by injection Hcol as <-|]).
  by apply elem_of_nil in Hin.
Defined.

Lemma query_missing_value_witness :
  query_stock_rank (H := unicode14_db) sample_nan_df (lit "1") 1 = Raise IndexError.
Proof.
  apply (query_missing_value (H := unicode14_db) sample_nan_df (lit "1") 1
           (IntSeries [1; 2]%Z) 0 sample_nan_df_wf)
    with (label := lit "d1") (col := FloatSeries [S754_nan; S754_zero false]);
    compute_done.
Defined.
