(* ===== verification/Presenter.v ===== *)
(** * The presenter: [generate_rank_text] of src/app.py

    [generate_rank_text ranks] is the text block of a rank series: the
    header line, then one line per entry of the dictionary in its order,
    the date and the rank separated by a tab.  [text_loop] is the [for]
    loop, with the text it has built so far.

    [parse_rank_text] reads such a text back; the round trip
    [parse_generate_rank_text] shows the text determines the series. *)

From S2P Require Import Prelude Unicode PyStr PyInt PyDict.

Implicit Types (date s : list N) (rank : Z) (ranks : list (list N * Z)).

(** ["日期\t排名\n"] *)
Definition text_header : list N := lit "日期" ++ [9%N] ++ lit "排名" ++ [10%N].

(** [f"{date}\t{rank}\n"] *)
Definition format_row date rank : list N := date ++ [9%N] ++ str_of_int rank ++ [10%N].

Fixpoint text_loop (items : list (list N * Z)) (text : list N) : list N :=
  match items with
  | [] => text
  | (date, rank) :: rest => text_loop rest (text ++ format_row date rank)
  end.

Definition generate_rank_text ranks : list N := text_loop ranks text_header.

(** ** Reading the text back

    The text as lines: the header line and one line per entry. *)

(** The line of an entry, without its line feed. *)
Definition row_line (kv : list N * Z) : list N := kv.1 ++ 9%N :: str_of_int kv.2.

Definition header_line : list N := lit "日期" ++ 9%N :: lit "排名".

(** [s.split(sep)] for a one-character separator. *)
Fixpoint split_on (sep : N) (s : list N) : list (list N) :=
  match s with
  | [] => [[]]
  | c :: s' =>
    if (c =? sep)%N then [] :: split_on sep s'
    else match split_on sep s' with
         | field :: fields => (c :: field) :: fields
         | [] => [[c]]
         end
  end.

Section parse.
Context `{UnicodeDB}.

Definition parse_row (line : list N) : option (list N * Z) :=
  match split_on 9 line with
  | [date; rank] =>
    match int_of_str rank with Ok r => Some (date, r) | Raise _ => None end
  | _ => None
  end.

(** The lines of a text that ends with a line feed. *)
Definition text_lines (text : list N) : option (list (list N)) :=
  match reverse (split_on 10 text) with
  | [] :: lines => Some (reverse lines)
  | _ => None
  end.

Definition parse_rank_text (text : list N) : option (list (list N * Z)) :=
  match text_lines text with
  | Some (_ :: rows) => mapM parse_row rows
  | _ => None
  end.
End parse.

(** ** Lemmas *)

(** The loop appends the rows in order. *)
Lemma text_loop_app items text :
  text_loop items text = text ++ concat ((λ kv, format_row kv.1 kv.2) <$> items).
Proof.
  revert text. induction items as [|[date rank] items IH]; intros text; simpl.
  - by rewrite app_nil_r.
  - by rewrite IH, (assoc_L (++)).
Qed.

Lemma split_on_absent sep s : sep ∉ s → split_on sep s = [s].
Proof.
  induction s as [|c s IH]; [done|]. intros [Hne Hs]%not_elem_of_cons. simpl.
  rewrite (proj2 (N.eqb_neq c sep)) by done. by rewrite IH.
Qed.

Lemma split_on_app sep s t :
  sep ∉ s → split_on sep (s ++ sep :: t) = s :: split_on sep t.
Proof.
  induction s as [|c s IH]; intros Hs; simpl.
  - by rewrite N.eqb_refl.
  - apply not_elem_of_cons in Hs as [Hne Hs].
    rewrite (proj2 (N.eqb_neq c sep)) by done. by rewrite IH.
Qed.

Lemma split_on_lines sep (lines : list (list N)) :
  Forall (λ l, sep ∉ l) lines →
  split_on sep (concat ((λ l, l ++ [sep]) <$> lines)) = lines ++ [[]].
Proof.
  induction 1 as [|l lines Hl _ IH]; [done|]. csimpl.
  rewrite <-(assoc_L (++)). cbn [app]. by rewrite split_on_app, IH.
Qed.

Lemma generate_rank_text_lines ranks :
  generate_rank_text ranks
  = concat ((λ l, l ++ [10%N]) <$> header_line :: (row_line <$> ranks)).
Proof.
  unfold generate_rank_text. rewrite text_loop_app, fmap_cons. cbn [concat].
  change text_header with (header_line ++ [10%N]). f_equal.
  rewrite <-list_fmap_compose. f_equal. apply list_fmap_ext. intros _ [date rank] _.
  unfold format_row, row_line. simpl. by rewrite <-(assoc_L (++)).
Qed.

Lemma str_of_int_no_control z c : (c < 48)%N → c ≠ 45%N → c ∉ str_of_int z.
Proof.
  intros Hc Hne [Hd%ascii_digit_spec| ->]%str_of_int_chars; [lia|done].
Qed.

Section roundtrip.
Context `{UnicodeDB}.

Lemma parse_row_line date rank :
  9%N ∉ date → parse_row (row_line (date, rank)) = Some (date, rank).
Proof.
  intros Hdate. unfold parse_row, row_line. simpl.
  rewrite split_on_app, split_on_absent by (done || by apply str_of_int_no_control).
  by rewrite int_of_str_of_int.
Qed.

(** C7: the ranks can be read back from the text [generate_rank_text]
    makes of them: splitting the text at line feeds and each line after the
    first at the tab, and reading the second field as an integer, gives the
    entries in their order, provided no date holds a tab or a line feed. *)
Theorem parse_generate_rank_text ranks :
  Forall (λ kv, (9%N ∉ kv.1) ∧ (10%N ∉ kv.1)) ranks →
  parse_rank_text (generate_rank_text ranks) = Some ranks.
Proof.
  intros Hranks. unfold parse_rank_text, text_lines.
  rewrite generate_rank_text_lines, split_on_lines.
  - rewrite reverse_app. change (reverse [[]]) with [@nil N]. cbn [app].
    rewrite reverse_involutive.
    apply mapM_Some, Forall2_fmap_l, Forall_Forall2_diag.
    eapply Forall_impl; [done|]. intros [date rank] [? _]. by apply parse_row_line.
  - constructor; [compute_done|]. apply Forall_fmap.
    eapply Forall_impl; [done|]. intros [date rank] [_ Hnl]. unfold row_line. simpl.
    rewrite not_elem_of_app, not_elem_of_cons. split_and!; [done..|].
    by apply str_of_int_no_control.
Qed.
End roundtrip.

Lemma parse_generate_rank_text_witness :
  parse_rank_text (H := unicode14_db) (generate_rank_text [(lit "d1", 1%Z); (lit "d2", 2%Z)])
  = Some [(lit "d1", 1%Z); (lit "d2", 2%Z)].
Proof. apply parse_generate_rank_text. repeat constructor; compute_done. Defined.

(** The text of the ranks [{d1: 1, d2: 2}]. *)
Example generate_rank_text_example :
  generate_rank_text [(lit "d1", 1%Z); (lit "d2", 2%Z)]
  = lit "日期" ++ [9%N] ++ lit "排名" ++ [10%N]
    ++ lit "d1" ++ [9%N] ++ lit "1" ++ [10%N] ++ lit "d2" ++ [9%N] ++ lit "2" ++ [10%N].
Proof. reflexivity. Qed.
