(* ===== verification/Base64.v ===== *)
(** * Base64: [base64.b64encode] as src/app.py uses it

    [b64encode] is the standard encoding with the alphabet of RFC 4648 and
    ['='] padding, as [plot_rank_trend] applies it to the bytes of the PNG
    image.  [b64decode] is a strict decoder, the reference the encoder is
    checked against: [b64decode_encode] is the round trip, and the other
    lemmas give the length and the characters of an encoding. *)

From S2P Require Import Prelude Unicode.

#[local] Open Scope N_scope.
Implicit Types (bs s : list N) (a b c i : N).

Definition b64_alphabet : list N :=
  lit "ABCDEFGHIJKLMNOPQRSTUVWXYZabcdefghijklmnopqrstuvwxyz0123456789+/".

(** The character of a six-bit value. *)
Definition b64_char i : N := default 61 (b64_alphabet !! N.to_nat i).

(** [base64.b64encode(bs)]: three bytes give four characters; one or two
    bytes at the end give two or three, and ['='] up to four. *)
Fixpoint b64encode bs : list N :=
  match bs with
  | [] => []
  | [a] => [b64_char (a / 4); b64_char (a mod 4 * 16); 61; 61]
  | [a; b] =>
    [b64_char (a / 4); b64_char (a mod 4 * 16 + b / 16); b64_char (b mod 16 * 4); 61]
  | a :: b :: c :: rest =>
    b64_char (a / 4) :: b64_char (a mod 4 * 16 + b / 16)
      :: b64_char (b mod 16 * 4 + c / 64) :: b64_char (c mod 64) :: b64encode rest
  end.

(** The six-bit value of a character of the alphabet. *)
Definition b64_index c : option N :=
  N.of_nat <$> list_find (λ x, x = c) b64_alphabet ≫= λ p, Some p.1.

(** A strict decoder: groups of four characters of the alphabet, the last
    one possibly ending in one or two ['=']. *)
Fixpoint b64decode s : option (list N) :=
  match s with
  | [] => Some []
  | c0 :: c1 :: c2 :: c3 :: rest =>
    i0 ← b64_index c0;
    i1 ← b64_index c1;
    let b0 := i0 * 4 + i1 / 16 in
    if (c2 =? 61) && (c3 =? 61) && bool_decide (rest = []) then Some [b0] else
    i2 ← b64_index c2;
    let b1 := i1 mod 16 * 16 + i2 / 4 in
    if (c3 =? 61) && bool_decide (rest = []) then Some [b0; b1] else
    i3 ← b64_index c3;
    r ← b64decode rest;
    Some (b0 :: b1 :: (i2 mod 4 * 64 + i3) :: r)
  | _ => None
  end.

Definition is_bytes bs : Prop := Forall (λ b, b < 256) bs.

Lemma b64_index_char i : i < 64 → b64_index (b64_char i) = Some i.
Proof. revert i. table_below 64%nat. Qed.

Lemma b64_char_not_pad i : i < 64 → b64_char i ≠ 61.
Proof. revert i. table_below 64%nat. Qed.

Lemma b64_char_eqb_pad i : i < 64 → (b64_char i =? 61) = false.
Proof. intros Hi. by apply N.eqb_neq, b64_char_not_pad. Qed.

(** Decoding undoes encoding. *)
Lemma b64decode_encode bs : is_bytes bs → b64decode (b64encode bs) = Some bs.
Proof.
  remember (length bs) as n eqn:Hn. revert bs Hn.
  induction (lt_wf n) as [n _ IH]. intros bs -> Hbs.
  destruct bs as [|a [|b [|c rest]]]; [done|..];
    repeat (apply Forall_cons in Hbs as [? Hbs]); cbn [b64encode b64decode];
    rewrite !b64_index_char, ?b64_char_eqb_pad by lia; cbn.
  - repeat f_equal. lia.
  - f_equal. f_equal; [lia|f_equal; lia].
  - rewrite (IH (length rest)) by (done || simpl; lia). cbn.
    f_equal. f_equal; [lia|f_equal; [lia|f_equal; lia]].
Qed.

Lemma b64_char_elem i : b64_char i ∈ 61 :: b64_alphabet.
Proof.
  unfold b64_char. destruct (b64_alphabet !! N.to_nat i) as [c|] eqn:E; simpl.
  - right. by eapply list_elem_of_lookup_2.
  - by left.
Qed.

(** The characters of an encoding are those of the alphabet and ['=']. *)
Lemma b64encode_chars bs : Forall (λ c, c ∈ 61 :: b64_alphabet) (b64encode bs).
Proof.
  remember (length bs) as n eqn:Hn. revert bs Hn.
  induction (lt_wf n) as [n _ IH]. intros bs ->.
  destruct bs as [|a [|b [|c rest]]]; cbn [b64encode];
    repeat (apply Forall_cons_2; [apply b64_char_elem || by left|]); [done..|].
  apply (IH (length rest)); [simpl; lia|done].
Qed.

Lemma b64encode_length bs : (length (b64encode bs) = 4 * ((length bs + 2) / 3))%nat.
Proof.
  remember (length bs) as n eqn:Hn. revert bs Hn.
  induction (lt_wf n) as [n _ IH]. intros bs ->.
  destruct bs as [|a [|b [|c rest]]]; [done..|].
  cbn [b64encode length]. rewrite (IH (length rest)) by (done || simpl; lia).
  replace (S (S (S (length rest))) + 2)%nat with (1 * 3 + (length rest + 2))%nat by lia.
  rewrite Nat.div_add_l by done. lia.
Qed.

(** An ASCII string is its own UTF-8 decoding. *)
Lemma utf8_decode_ascii bs : Forall (λ b, b < 128) bs → utf8_decode bs = bs.
Proof.
  induction 1 as [|b bs Hb _ IH]; [done|]. cbn [utf8_decode].
  by rewrite (proj2 (N.ltb_lt b 128)), IH.
Qed.

Lemma b64encode_ascii bs : Forall (λ c, c < 128) (b64encode bs).
Proof.
  eapply Forall_impl; [apply b64encode_chars|]. intros c Hc. simpl in Hc.
  assert (Forall (λ c, c < 128) (61 :: b64_alphabet)) as Hall by compute_done.
  rewrite Forall_forall in Hall. by apply Hall.
Qed.

(** The encoding of [n] bytes has [4 * ceil(n / 3)] characters, each a
    character of the base64 alphabet or ['=']. *)
Lemma b64encode_shape bs :
  (length (b64encode bs) = 4 * ((length bs + 2) / 3))%nat
  ∧ Forall (λ c, c ∈ 61 :: b64_alphabet) (b64encode bs).
Proof. split; [apply b64encode_length|apply b64encode_chars]. Qed.

(** [b64encode] loses nothing: two byte strings with the same encoding
    are equal. *)
Lemma b64encode_inj bs1 bs2 :
  is_bytes bs1 → is_bytes bs2 → b64encode bs1 = b64encode bs2 → bs1 = bs2.
Proof.
  intros H1%b64decode_encode H2%b64decode_encode Heq. rewrite Heq in H1. congruence.
Qed.

