(* ===== verification/Chart.v ===== *)
(** * The chart: [plot_rank_trend] of src/app.py

    pyplot keeps a global state: its settings ([rcparams], which the
    module sets when it is loaded) and the open figures, the current one
    first.  Every call of [plt] is a function on that state ([plt_figure],
    [plt_plot], [plt_annotate], ..., [plt_close]); a call that needs a
    figure when none is open makes one, as pyplot does.  A [figure] records
    what was drawn: the lines with their points, the annotations, the
    titles and the settings of the axes.

    The picture itself is not modelled: [Renderer] is the interface of
    [savefig] for the PNG format, a function from the settings and the
    figure to bytes.  [bytesio] is the buffer the image is written to.

    [plot_rank_trend ranks st] is the function of the source, from the
    ranks and pyplot's state to the base64 text and the new state.
    [rank_figure ranks] is the figure it is meant to draw, written down
    directly; [plot_rank_trend_spec] shows the calls build that figure,
    encode its image and leave pyplot as they found it. *)

From S2P Require Import Prelude Unicode PyStr PyInt PyDict Base64.

Implicit Types (ranks : list (list N * Z)) (date text : list N) (rank : Z).

(** ** Figures *)

Record rcparams : Type := {
  rc_font_sans_serif : list (list N);
  rc_unicode_minus : bool
}.

(** A line of [plt.plot]: the points are [(x, y)] for the categories [x]
    of [line_xs] and the numbers of [line_ys], in order. *)
Record line2d : Type := {
  line_xs : list (list N);
  line_ys : list Z;
  line_marker : list N;
  line_linestyle : list N;
  line_color : list N;
  line_markersize : Z;
  line_label : list N
}.

Record annotation : Type := {
  ann_text : list N;
  ann_xy : list N * Z;
  ann_textcoords : list N;
  ann_xytext : Z * Z;
  ann_ha : list N;
  ann_fontsize : Z;
  ann_color : list N
}.

Record text_label : Type := { label_text : list N; label_fontsize : Z }.

Record figure : Type := {
  fig_size : option (Z * Z);
  fig_lines : list line2d;
  fig_annotations : list annotation;
  fig_title : option text_label;
  fig_xlabel : option text_label;
  fig_ylabel : option text_label;
  fig_yaxis_inverted : bool;
  fig_grid : bool;
  fig_xticks_rotation : option Z;
  fig_legend : option (list (list N));
  fig_tight : bool
}.

(** pyplot: the settings and the open figures, the current one first. *)
Record pyplot : Type := {
  plt_rc : rcparams;
  plt_figures : list figure
}.

(** A new figure; [None] is the default size. *)
Definition empty_figure (size : option (Z * Z)) : figure := {|
  fig_size := size; fig_lines := []; fig_annotations := []; fig_title := None;
  fig_xlabel := None; fig_ylabel := None; fig_yaxis_inverted := false;
  fig_grid := false; fig_xticks_rotation := None; fig_legend := None;
  fig_tight := false
|}.

(** ** The settings of the module

    [plt.rcParams['font.sans-serif'] = ['SimHei']] and
    [plt.rcParams['axes.unicode_minus'] = False], run when the module is
    loaded. *)
Definition init_rcparams (rc : rcparams) : rcparams := {|
  rc_font_sans_serif := [lit "SimHei"];
  rc_unicode_minus := false
|}.

(** ** The calls of pyplot *)

(** A call on the current figure. *)
Definition on_current (f : figure → figure) (st : pyplot) : pyplot :=
  match plt_figures st with
  | fig :: figs => {| plt_rc := plt_rc st; plt_figures := f fig :: figs |}
  | [] => {| plt_rc := plt_rc st; plt_figures := [f (empty_figure None)] |}
  end.

(** [plt.figure(figsize=size)] *)
Definition plt_figure (size : Z * Z) (st : pyplot) : pyplot :=
  {| plt_rc := plt_rc st; plt_figures := empty_figure (Some size) :: plt_figures st |}.

(** [plt.plot(xs, ys, marker=, linestyle=, color=, markersize=, label=)] *)
Definition plt_plot (line : line2d) : pyplot → pyplot :=
  on_current (λ fig, {|
    fig_size := fig_size fig; fig_lines := fig_lines fig ++ [line];
    fig_annotations := fig_annotations fig; fig_title := fig_title fig;
    fig_xlabel := fig_xlabel fig; fig_ylabel := fig_ylabel fig;
    fig_yaxis_inverted := fig_yaxis_inverted fig; fig_grid := fig_grid fig;
    fig_xticks_rotation := fig_xticks_rotation fig; fig_legend := fig_legend fig;
    fig_tight := fig_tight fig |}).

(** [plt.annotate(text, xy, textcoords=, xytext=, ha=, fontsize=, color=)] *)
Definition plt_annotate (a : annotation) : pyplot → pyplot :=
  on_current (λ fig, {|
    fig_size := fig_size fig; fig_lines := fig_lines fig;
    fig_annotations := fig_annotations fig ++ [a]; fig_title := fig_title fig;
    fig_xlabel := fig_xlabel fig; fig_ylabel := fig_ylabel fig;
    fig_yaxis_inverted := fig_yaxis_inverted fig; fig_grid := fig_grid fig;
    fig_xticks_rotation := fig_xticks_rotation fig; fig_legend := fig_legend fig;
    fig_tight := fig_tight fig |}).

(** [plt.title(text, fontsize=)] *)
Definition plt_title (l : text_label) : pyplot → pyplot :=
  on_current (λ fig, {|
    fig_size := fig_size fig; fig_lines := fig_lines fig;
    fig_annotations := fig_annotations fig; fig_title := Some l;
    fig_xlabel := fig_xlabel fig; fig_ylabel := fig_ylabel fig;
    fig_yaxis_inverted := fig_yaxis_inverted fig; fig_grid := fig_grid fig;
    fig_xticks_rotation := fig_xticks_rotation fig; fig_legend := fig_legend fig;
    fig_tight := fig_tight fig |}).

(** [plt.xlabel(text, fontsize=)] *)
Definition plt_xlabel (l : text_label) : pyplot → pyplot :=
  on_current (λ fig, {|
    fig_size := fig_size fig; fig_lines := fig_lines fig;
    fig_annotations := fig_annotations fig; fig_title := fig_title fig;
    fig_xlabel := Some l; fig_ylabel := fig_ylabel fig;
    fig_yaxis_inverted := fig_yaxis_inverted fig; fig_grid := fig_grid fig;
    fig_xticks_rotation := fig_xticks_rotation fig; fig_legend := fig_legend fig;
    fig_tight := fig_tight fig |}).

(** [plt.ylabel(text, fontsize=)] *)
Definition plt_ylabel (l : text_label) : pyplot → pyplot :=
  on_current (λ fig, {|
    fig_size := fig_size fig; fig_lines := fig_lines fig;
    fig_annotations := fig_annotations fig; fig_title := fig_title fig;
    fig_xlabel := fig_xlabel fig; fig_ylabel := Some l;
    fig_yaxis_inverted := fig_yaxis_inverted fig; fig_grid := fig_grid fig;
    fig_xticks_rotation := fig_xticks_rotation fig; fig_legend := fig_legend fig;
    fig_tight := fig_tight fig |}).

(** [plt.gca().invert_yaxis()]: the direction of the axis is reversed. *)
Definition plt_invert_yaxis : pyplot → pyplot :=
  on_current (λ fig, {|
    fig_size := fig_size fig; fig_lines := fig_lines fig;
    fig_annotations := fig_annotations fig; fig_title := fig_title fig;
    fig_xlabel := fig_xlabel fig; fig_ylabel := fig_ylabel fig;
    fig_yaxis_inverted := negb (fig_yaxis_inverted fig); fig_grid := fig_grid fig;
    fig_xticks_rotation := fig_xticks_rotation fig; fig_legend := fig_legend fig;
    fig_tight := fig_tight fig |}).

(** [plt.grid(b)] *)
Definition plt_grid (b : bool) : pyplot → pyplot :=
  on_current (λ fig, {|
    fig_size := fig_size fig; fig_lines := fig_lines fig;
    fig_annotations := fig_annotations fig; fig_title := fig_title fig;
    fig_xlabel := fig_xlabel fig; fig_ylabel := fig_ylabel fig;
    fig_yaxis_inverted := fig_yaxis_inverted fig; fig_grid := b;
    fig_xticks_rotation := fig_xticks_rotation fig; fig_legend := fig_legend fig;
    fig_tight := fig_tight fig |}).

(** [plt.xticks(rotation=r)] *)
Definition plt_xticks (r : Z) : pyplot → pyplot :=
  on_current (λ fig, {|
    fig_size := fig_size fig; fig_lines := fig_lines fig;
    fig_annotations := fig_annotations fig; fig_title := fig_title fig;
    fig_xlabel := fig_xlabel fig; fig_ylabel := fig_ylabel fig;
    fig_yaxis_inverted := fig_yaxis_inverted fig; fig_grid := fig_grid fig;
    fig_xticks_rotation := Some r; fig_legend := fig_legend fig;
    fig_tight := fig_tight fig |}).

(** An empty label, or one that begins with an underscore, is left out of
    the legend. *)
Definition legend_label (l : line2d) : bool :=
  match line_label l with
  | [] | 95%N :: _ => false
  | _ => true
  end.

(** [plt.legend()]: the legend of the labelled lines drawn so far. *)
Definition plt_legend : pyplot → pyplot :=
  on_current (λ fig, {|
    fig_size := fig_size fig; fig_lines := fig_lines fig;
    fig_annotations := fig_annotations fig; fig_title := fig_title fig;
    fig_xlabel := fig_xlabel fig; fig_ylabel := fig_ylabel fig;
    fig_yaxis_inverted := fig_yaxis_inverted fig; fig_grid := fig_grid fig;
    fig_xticks_rotation := fig_xticks_rotation fig;
    fig_legend := Some (line_label <$> filter (λ l, legend_label l = true) (fig_lines fig));
    fig_tight := fig_tight fig |}).

(** [plt.tight_layout()] *)
Definition plt_tight_layout : pyplot → pyplot :=
  on_current (λ fig, {|
    fig_size := fig_size fig; fig_lines := fig_lines fig;
    fig_annotations := fig_annotations fig; fig_title := fig_title fig;
    fig_xlabel := fig_xlabel fig; fig_ylabel := fig_ylabel fig;
    fig_yaxis_inverted := fig_yaxis_inverted fig; fig_grid := fig_grid fig;
    fig_xticks_rotation := fig_xticks_rotation fig; fig_legend := fig_legend fig;
    fig_tight := true |}).

(** [plt.close()]: the current figure is closed, if there is one. *)
Definition plt_close (st : pyplot) : pyplot :=
  {| plt_rc := plt_rc st; plt_figures := tail (plt_figures st) |}.

(** ** The buffer *)

Record bytesio : Type := { bio_buf : list N; bio_pos : nat }.

(** [BytesIO()] *)
Definition bio_new : bytesio := {| bio_buf := []; bio_pos := 0 |}.

(** [b.write(data)]: the bytes go where the position is, over what is
    there, after zeros when the position is past the end. *)
Definition bio_write (data : list N) (b : bytesio) : bytesio :=
  let buf := bio_buf b in
  let pos := bio_pos b in
  {| bio_buf := take pos buf ++ replicate (pos - length buf) 0%N ++ data
                ++ drop (pos + length data) buf;
     bio_pos := pos + length data |}.

(** [b.seek(pos)] *)
Definition bio_seek (pos : nat) (b : bytesio) : bytesio :=
  {| bio_buf := bio_buf b; bio_pos := pos |}.

(** [b.getvalue()]: the whole buffer, wherever the position is. *)
Definition bio_getvalue (b : bytesio) : list N := bio_buf b.

(** ** Rendering *)

Class Renderer : Type := {
  (** the PNG image of a figure *)
  render_png : rcparams → figure → list N;
  render_png_bytes : ∀ rc fig, is_bytes (render_png rc fig)
}.

Section chart.
Context `{Renderer}.

(** [plt.savefig(img, format='png')]: the image of the current figure is
    written to the buffer. *)
Definition plt_savefig (img : bytesio) (st : pyplot) : bytesio * pyplot :=
  let st := on_current (λ fig, fig) st in
  (bio_write (render_png (plt_rc st) (default (empty_figure None) (head (plt_figures st)))) img,
   st).

(** ** [plot_rank_trend] *)

(** The annotation of a point. *)
Definition rank_annotation date rank : annotation := {|
  ann_text := str_of_int rank;
  ann_xy := (date, rank);
  ann_textcoords := lit "offset points";
  ann_xytext := (0, 10)%Z;
  ann_ha := lit "center";
  ann_fontsize := 10;
  ann_color := lit "red"
|}.

Fixpoint annotate_loop (items : list (list N * Z)) (st : pyplot) : pyplot :=
  match items with
  | [] => st
  | (date, rank) :: rest => annotate_loop rest (plt_annotate (rank_annotation date rank) st)
  end.

(** The line of the ranks. *)
Definition rank_line (dates : list (list N)) (rank_values : list Z) : line2d := {|
  line_xs := dates;
  line_ys := rank_values;
  line_marker := lit "o";
  line_linestyle := lit "-";
  line_color := lit "b";
  line_markersize := 8;
  line_label := lit "排名"
|}.

(** [plot_rank_trend(ranks)]: the calls in the order of the source.  Each
    returns normally: matplotlib's own failures (a font that is missing, a
    backend that cannot draw) are not modelled. *)
Definition plot_rank_trend ranks (st : pyplot) : list N * pyplot :=
  let dates := dict_keys ranks in
  let rank_values := dict_values ranks in
  let st := plt_figure (12, 6)%Z st in
  let st := plt_plot (rank_line dates rank_values) st in
  let st := annotate_loop ranks st in
  let st := plt_title {| label_text := lit "股票排名变化趋势"; label_fontsize := 16 |} st in
  let st := plt_xlabel {| label_text := lit "日期"; label_fontsize := 12 |} st in
  let st := plt_ylabel {| label_text := lit "排名"; label_fontsize := 12 |} st in
  let st := plt_invert_yaxis st in
  let st := plt_grid true st in
  let st := plt_xticks 45 st in
  let st := plt_legend st in
  let st := plt_tight_layout st in
  let img := bio_new in
  let '(img, st) := plt_savefig img st in
  let img := bio_seek 0 img in
  let img_base64 := utf8_decode (b64encode (bio_getvalue img)) in
  let st := plt_close st in
  (img_base64, st).

End chart.

(** ** Specification *)

(** The figure of a rank series: one line through the points
    [(date, rank)] in the order of the series, one annotation per point
    with the rank as its text, the rank axis reversed. *)
Definition rank_figure ranks : figure := {|
  fig_size := Some (12, 6)%Z;
  fig_lines := [rank_line ranks.*1 ranks.*2];
  fig_annotations := (λ kv, rank_annotation kv.1 kv.2) <$> ranks;
  fig_title := Some {| label_text := lit "股票排名变化趋势"; label_fontsize := 16 |};
  fig_xlabel := Some {| label_text := lit "日期"; label_fontsize := 12 |};
  fig_ylabel := Some {| label_text := lit "排名"; label_fontsize := 12 |};
  fig_yaxis_inverted := true;
  fig_grid := true;
  fig_xticks_rotation := Some 45%Z;
  fig_legend := Some [lit "排名"];
  fig_tight := true
|}.

(** ** Lemmas *)

(** The loop adds the annotations of the entries, in their order, to the
    current figure. *)
Lemma annotate_loop_current items rc fig figs :
  annotate_loop items {| plt_rc := rc; plt_figures := fig :: figs |}
  = {| plt_rc := rc;
       plt_figures := {|
         fig_size := fig_size fig; fig_lines := fig_lines fig;
         fig_annotations :=
           fig_annotations fig ++ ((λ kv, rank_annotation kv.1 kv.2) <$> items);
         fig_title := fig_title fig;
         fig_xlabel := fig_xlabel fig; fig_ylabel := fig_ylabel fig;
         fig_yaxis_inverted := fig_yaxis_inverted fig; fig_grid := fig_grid fig;
         fig_xticks_rotation := fig_xticks_rotation fig; fig_legend := fig_legend fig;
         fig_tight := fig_tight fig |} :: figs |}.
Proof.
  revert fig. induction items as [|[date rank] items IH]; intros fig.
  - destruct fig. simpl. by rewrite app_nil_r.
  - cbn [annotate_loop]. unfold plt_annotate, on_current. cbn [plt_figures plt_rc].
    rewrite IH. cbn. by rewrite <-(assoc_L (++)).
Qed.

Section chart_theory.
Context `{Renderer}.

(** The calls of [plot_rank_trend] draw [rank_figure ranks], encode its
    image, and leave pyplot as it was. *)
Lemma plot_rank_trend_spec ranks st :
  plot_rank_trend ranks st = (b64encode (render_png (plt_rc st) (rank_figure ranks)), st).
Proof.
  destruct st as [rc figs]. unfold plot_rank_trend, plt_figure, plt_plot.
  cbn [on_current plt_figures plt_rc]. rewrite annotate_loop_current.
  cbn -[b64encode utf8_decode].
  rewrite decide_True, drop_nil, app_nil_r by done.
  by rewrite utf8_decode_ascii by apply b64encode_ascii.
Qed.

(** C6: the text [plot_rank_trend] returns is the base64 encoding of the
    PNG image of [rank_figure ranks]: decoding it gives the bytes the
    renderer makes of the figure with one point and one annotation per
    entry of the ranks, in their order, and the rank axis reversed. *)
Theorem plot_rank_trend_image ranks st :
  b64decode (plot_rank_trend ranks st).1 = Some (render_png (plt_rc st) (rank_figure ranks)).
Proof. rewrite plot_rank_trend_spec. apply b64decode_encode, render_png_bytes. Qed.

(** C23: [plot_rank_trend] leaves pyplot as it found it: the figure it
    opens is closed again, the figures that were open stay open and stay
    as they were, and the settings are not changed. *)
Theorem plot_rank_trend_state ranks st : (plot_rank_trend ranks st).2 = st.
Proof. by rewrite plot_rank_trend_spec. Qed.

End chart_theory.

(** The figure of a series of one entry, with every argument of the calls
    of lines 85-107 written out. *)
Example rank_figure_example :
  rank_figure [(lit "d1", 3%Z)] = {|
    fig_size := Some (12, 6)%Z;
    fig_lines := [{| line_xs := [lit "d1"]; line_ys := [3%Z]; line_marker := lit "o";
                     line_linestyle := lit "-"; line_color := lit "b";
                     line_markersize := 8; line_label := lit "排名" |}];
    fig_annotations := [{| ann_text := lit "3"; ann_xy := (lit "d1", 3%Z);
                           ann_textcoords := lit "offset points"; ann_xytext := (0, 10)%Z;
                           ann_ha := lit "center"; ann_fontsize := 10;
                           ann_color := lit "red" |}];
    fig_title := Some {| label_text := lit "股票排名变化趋势"; label_fontsize := 16 |};
    fig_xlabel := Some {| label_text := lit "日期"; label_fontsize := 12 |};
    fig_ylabel := Some {| label_text := lit "排名"; label_fontsize := 12 |};
    fig_yaxis_inverted := true;
    fig_grid := true;
    fig_xticks_rotation := Some 45%Z;
    fig_legend := Some [lit "排名"];
    fig_tight := true
  |}.
Proof. by vm_compute. Qed.
