(* ===== verification/Threads.v ===== *)
(** * Two requests at once: the calls of pyplot interleaved

    [plot_rank_trend] (src/app.py, lines 81-115) draws with pyplot, whose
    current figure is one for the whole process.  Flask's development
    server runs every handler in a thread of its own, so the calls of two
    requests can follow one another in any order that keeps the order of
    each request.

    [plot_calls ranks] is the list of the calls [plot_rank_trend] makes, one
    [plt_call] per line of the source, and [run_calls] runs a list on
    pyplot's state; [plot_rank_trend_calls] shows that run alone they are
    [plot_rank_trend].  A schedule is a list of calls, each with the thread
    that makes it; [run_schedule] gives every thread the images of its own
    [savefig].  Calls are atomic: the interpreter's lock lets one thread
    run at a time, and the model switches threads between calls only.

    One after the other, two requests get each its own chart
    ([run_schedule_sequential]).  Interleaved they need not: there is a
    schedule in which the first request saves the figure of the second
    ([schedule_mixes_charts]); [mixed_schedule_example] runs it with a
    renderer that tells the figures apart. *)

From S2P Require Import Prelude Unicode PyStr PyInt PyDict Base64 Chart.

Implicit Types (ranks ra rb : list (list N * Z)) (st : pyplot).

(** ** The calls *)

Inductive plt_call : Type :=
| CallFigure (size : Z * Z)
| CallPlot (line : line2d)
| CallAnnotate (a : annotation)
| CallTitle (l : text_label)
| CallXlabel (l : text_label)
| CallYlabel (l : text_label)
| CallInvertYaxis
| CallGrid (b : bool)
| CallXticks (rotation : Z)
| CallLegend
| CallTightLayout
| CallSavefig
| CallClose.

Inductive thread : Type := ThreadA | ThreadB.

#[export] Instance thread_eq_dec : EqDecision thread.
Proof. solve_decision. Defined.

Section threads.
Context `{Renderer}.

(** One call: the new state of pyplot, and the image when the call is
    [savefig] (on a buffer of the thread's own, read from its start). *)
Definition run_call (c : plt_call) st : pyplot * option (list N) :=
  match c with
  | CallFigure size => (plt_figure size st, None)
  | CallPlot line => (plt_plot line st, None)
  | CallAnnotate a => (plt_annotate a st, None)
  | CallTitle l => (plt_title l st, None)
  | CallXlabel l => (plt_xlabel l st, None)
  | CallYlabel l => (plt_ylabel l st, None)
  | CallInvertYaxis => (plt_invert_yaxis st, None)
  | CallGrid b => (plt_grid b st, None)
  | CallXticks rotation => (plt_xticks rotation st, None)
  | CallLegend => (plt_legend st, None)
  | CallTightLayout => (plt_tight_layout st, None)
  | CallSavefig =>
    let '(img, st') := plt_savefig bio_new st in
    (st', Some (bio_getvalue (bio_seek 0 img)))
  | CallClose => (plt_close st, None)
  end.

Fixpoint run_calls (cs : list plt_call) st : pyplot * list (list N) :=
  match cs with
  | [] => (st, [])
  | c :: cs' =>
    let '(st', img) := run_call c st in
    let '(st'', imgs) := run_calls cs' st' in
    (st'', option_list img ++ imgs)
  end.

(** The calls of [plot_rank_trend] up to [tight_layout], and all of them. *)
Definition draw_calls ranks : list plt_call :=
  [CallFigure (12, 6)%Z; CallPlot (rank_line (dict_keys ranks) (dict_values ranks))]
  ++ ((λ kv, CallAnnotate (rank_annotation kv.1 kv.2)) <$> ranks)
  ++ [CallTitle {| label_text := lit "股票排名变化趋势"; label_fontsize := 16 |};
      CallXlabel {| label_text := lit "日期"; label_fontsize := 12 |};
      CallYlabel {| label_text := lit "排名"; label_fontsize := 12 |};
      CallInvertYaxis; CallGrid true; CallXticks 45; CallLegend; CallTightLayout].

Definition plot_calls ranks : list plt_call := draw_calls ranks ++ [CallSavefig; CallClose].

(** ** Schedules *)

Definition tagged {A} (t : thread) (l : list A) : list (thread * A) := (λ x, (t, x)) <$> l.

(** What a thread does, or gets, in a list by threads. *)
Definition of_thread {A} (t : thread) (l : list (thread * A)) : list A :=
  snd <$> filter (λ x, x.1 = t) l.

Fixpoint run_schedule (s : list (thread * plt_call)) st : pyplot * list (thread * list N) :=
  match s with
  | [] => (st, [])
  | (t, c) :: s' =>
    let '(st', img) := run_call c st in
    let '(st'', imgs) := run_schedule s' st' in
    (st'', tagged t (option_list img) ++ imgs)
  end.

(** The figure with the line of a rank series and nothing else: what pyplot
    holds after [figure] and [plot]. *)
Definition line_figure ranks : figure := {|
  fig_size := Some (12, 6)%Z;
  fig_lines := [rank_line (dict_keys ranks) (dict_values ranks)];
  fig_annotations := []; fig_title := None; fig_xlabel := None; fig_ylabel := None;
  fig_yaxis_inverted := false; fig_grid := false; fig_xticks_rotation := None;
  fig_legend := None; fig_tight := false
|}.

(** The figure of [ra] with the annotations of [rb] drawn over it, and the
    rank axis reversed twice. *)
Definition overdrawn_figure ra rb : figure := {|
  fig_size := Some (12, 6)%Z;
  fig_lines := [rank_line (dict_keys ra) (dict_values ra)];
  fig_annotations := ((λ kv, rank_annotation kv.1 kv.2) <$> ra)
                     ++ ((λ kv, rank_annotation kv.1 kv.2) <$> rb);
  fig_title := Some {| label_text := lit "股票排名变化趋势"; label_fontsize := 16 |};
  fig_xlabel := Some {| label_text := lit "日期"; label_fontsize := 12 |};
  fig_ylabel := Some {| label_text := lit "排名"; label_fontsize := 12 |};
  fig_yaxis_inverted := false;
  fig_grid := true;
  fig_xticks_rotation := Some 45%Z;
  fig_legend := Some [lit "排名"];
  fig_tight := true
|}.

(** The schedule in which thread A draws, thread B opens its figure and
    plots, thread A saves and closes, and thread B does the rest. *)
Definition mixed_schedule ra rb : list (thread * plt_call) :=
  tagged ThreadA (draw_calls ra)
  ++ tagged ThreadB (take 2 (plot_calls rb))
  ++ tagged ThreadA [CallSavefig; CallClose]
  ++ tagged ThreadB (drop 2 (plot_calls rb)).

End threads.

(** A renderer that tells figures apart, for the examples: the image is the
    number of lines and notes of the figure (255 at most), then whether the
    rank axis is reversed. *)
Definition tally (fig : figure) : list N :=
  [N.min 255%N (N.of_nat (length (fig_lines fig) + length (fig_annotations fig)));
   if fig_yaxis_inverted fig then 1%N else 0%N].

Program Definition tally_renderer : Renderer := {| render_png _ fig := tally fig |}.
Next Obligation.
  intros rc fig. unfold tally. repeat constructor; [lia|by destruct (fig_yaxis_inverted fig)].
Qed.

Definition sample_ra : list (list N * Z) := [(lit "2024-01-01", 3%Z); (lit "2024-01-02", 1%Z)].
Definition sample_rb : list (list N * Z) := [(lit "2024-01-01", 7%Z)].
Definition sample_pyplot : pyplot :=
  {| plt_rc := init_rcparams {| rc_font_sans_serif := []; rc_unicode_minus := true |};
     plt_figures := [] |}.

(** ** Lemmas *)

Section threads_theory.
Context `{Renderer}.

Lemma run_calls_app cs1 cs2 st :
  run_calls (cs1 ++ cs2) st =
  let '(st1, imgs1) := run_calls cs1 st in
  let '(st2, imgs2) := run_calls cs2 st1 in
  (st2, imgs1 ++ imgs2).
Proof.
  revert st. induction cs1 as [|c cs1 IH]; intros st; simpl.
  - by destruct (run_calls cs2 st).
  - destruct (run_call c st) as [st' img]. rewrite IH.
    destruct (run_calls cs1 st') as [st1 imgs1], (run_calls cs2 st1) as [st2 imgs2].
    by rewrite (assoc_L (++)).
Qed.

Lemma run_calls_annotate items st :
  run_calls ((λ kv, CallAnnotate (rank_annotation kv.1 kv.2)) <$> items) st
  = (annotate_loop items st, []).
Proof.
  revert st. induction items as [|[date rank] items IH]; intros st; [done|].
  csimpl. by rewrite IH.
Qed.

Lemma run_schedule_app s1 s2 st :
  run_schedule (s1 ++ s2) st =
  let '(st1, imgs1) := run_schedule s1 st in
  let '(st2, imgs2) := run_schedule s2 st1 in
  (st2, imgs1 ++ imgs2).
Proof.
  revert st. induction s1 as [|[t c] s1 IH]; intros st; simpl.
  - by destruct (run_schedule s2 st).
  - destruct (run_call c st) as [st' img]. rewrite IH.
    destruct (run_schedule s1 st') as [st1 imgs1], (run_schedule s2 st1) as [st2 imgs2].
    by rewrite (assoc_L (++)).
Qed.

Lemma run_schedule_tagged t cs st :
  run_schedule (tagged t cs) st = ((run_calls cs st).1, tagged t (run_calls cs st).2).
Proof.
  revert st. induction cs as [|c cs IH]; intros st; [done|]. simpl.
  destruct (run_call c st) as [st' img]. rewrite IH.
  destruct (run_calls cs st') as [st'' imgs]. simpl. unfold tagged. by rewrite fmap_app.
Qed.

Lemma of_thread_app {A} t (l1 l2 : list (thread * A)) :
  of_thread t (l1 ++ l2) = of_thread t l1 ++ of_thread t l2.
Proof. unfold of_thread. by rewrite filter_app, fmap_app. Qed.

Lemma of_thread_tagged {A} t t' (l : list A) :
  of_thread t (tagged t' l) = if decide (t' = t) then l else [].
Proof.
  unfold of_thread, tagged. induction l as [|x l IH]; [by case_decide|].
  csimpl. rewrite filter_cons. simpl. case_decide; csimpl; by rewrite IH.
Qed.

(** The state after the drawing calls: the figure, complete but for the
    image, is the current one. *)
Lemma run_draw_calls ranks st :
  run_calls (draw_calls ranks) st
  = ({| plt_rc := plt_rc st; plt_figures := rank_figure ranks :: plt_figures st |}, []).
Proof.
  destruct st as [rc figs]. unfold draw_calls.
  rewrite run_calls_app. cbn [run_calls run_call app]. unfold plt_figure, plt_plot.
  cbn [on_current plt_figures plt_rc].
  rewrite run_calls_app, run_calls_annotate, annotate_loop_current.
  cbn -[lit utf8_decode]. by rewrite decide_True by done.
Qed.

(** Run alone, the calls give the image of the figure and leave pyplot as
    it was. *)
Lemma run_plot_calls ranks st :
  run_calls (plot_calls ranks) st = (st, [render_png (plt_rc st) (rank_figure ranks)]).
Proof.
  unfold plot_calls. rewrite run_calls_app, run_draw_calls. destruct st as [rc figs].
  cbn -[lit utf8_decode render_png]. by rewrite ?drop_nil, ?app_nil_r.
Qed.


(** Two requests handled one after the other get each the image of the
    figure of its own ranks, and pyplot is left as it was. *)
Lemma run_schedule_sequential ra rb st :
  run_schedule (tagged ThreadA (plot_calls ra) ++ tagged ThreadB (plot_calls rb)) st
  = (st, [(ThreadA, render_png (plt_rc st) (rank_figure ra));
          (ThreadB, render_png (plt_rc st) (rank_figure rb))]).
Proof. by rewrite run_schedule_app, !run_schedule_tagged, !run_plot_calls. Qed.

(** [mixed_schedule] is a schedule of the two requests. *)
Lemma mixed_schedule_threads ra rb :
  of_thread ThreadA (mixed_schedule ra rb) = plot_calls ra
  ∧ of_thread ThreadB (mixed_schedule ra rb) = plot_calls rb.
Proof.
  unfold mixed_schedule. rewrite !of_thread_app, !of_thread_tagged.
  repeat case_decide; try done.
Qed.

(** The pieces of the mixed schedule: a request opens its figure and plots;
    a request saves and closes whatever figure is current; a request does
    the rest of its calls on the figure of the other. *)
Lemma run_open_calls ranks st :
  run_calls (take 2 (plot_calls ranks)) st
  = ({| plt_rc := plt_rc st; plt_figures := line_figure ranks :: plt_figures st |}, []).
Proof. destruct st as [rc figs]. by cbn -[lit utf8_decode]. Qed.

Lemma run_save_close rc f figs :
  run_calls [CallSavefig; CallClose] {| plt_rc := rc; plt_figures := f :: figs |}
  = ({| plt_rc := rc; plt_figures := figs |}, [render_png rc f]).
Proof. cbn -[render_png]. by rewrite drop_nil, app_nil_r. Qed.

Lemma run_rest_calls ra rb rc figs :
  run_calls (drop 2 (plot_calls rb)) {| plt_rc := rc; plt_figures := rank_figure ra :: figs |}
  = ({| plt_rc := rc; plt_figures := figs |}, [render_png rc (overdrawn_figure ra rb)]).
Proof.
  unfold plot_calls, draw_calls. cbn [app drop]. rewrite drop_0.
  rewrite <-!(assoc_L (++)), run_calls_app, run_calls_annotate, annotate_loop_current.
  cbn -[lit utf8_decode render_png].
  by rewrite decide_True, ?drop_nil, ?app_nil_r by done.
Qed.

Lemma run_mixed_schedule ra rb st :
  run_schedule (mixed_schedule ra rb) st
  = (st, [(ThreadA, render_png (plt_rc st) (line_figure rb));
          (ThreadB, render_png (plt_rc st) (overdrawn_figure ra rb))]).
Proof.
  destruct st as [rc figs]. unfold mixed_schedule.
  rewrite run_schedule_app, run_schedule_tagged, run_draw_calls. cbn [fst snd plt_rc plt_figures].
  rewrite run_schedule_app, run_schedule_tagged, run_open_calls. cbn [fst snd plt_rc plt_figures].
  rewrite run_schedule_app, run_schedule_tagged, run_save_close. cbn [fst snd plt_rc plt_figures].
  by rewrite run_schedule_tagged, run_rest_calls.
Qed.

(** C37: two requests handled at the same time can get the wrong
    charts: there is an order of the calls of pyplot, which keeps the order
    of each request's own calls, in which the first request saves the
    figure of the second, with the line of the second and nothing else, and
    the second saves the figure of the first with its own annotations
    drawn over it and the rank axis reversed twice. *)
Theorem schedule_mixes_charts ra rb st :
  of_thread ThreadA (mixed_schedule ra rb) = plot_calls ra
  ∧ of_thread ThreadB (mixed_schedule ra rb) = plot_calls rb
  ∧ of_thread ThreadA (run_schedule (mixed_schedule ra rb) st).2
    = [render_png (plt_rc st) (line_figure rb)]
  ∧ of_thread ThreadB (run_schedule (mixed_schedule ra rb) st).2
    = [render_png (plt_rc st) (overdrawn_figure ra rb)].
Proof.
  destruct (mixed_schedule_threads ra rb) as [Ha Hb]. rewrite run_mixed_schedule.
  by split_and!.
Qed.

End threads_theory.

(** The two orders on sample ranks: in sequence thread A gets the image of
    its own figure (one line, two notes, the axis reversed) and thread B of
    its own; mixed, thread A gets the bare line of B, and B a figure with
    the notes of both and the axis not reversed. *)
Example mixed_schedule_example :
  (run_schedule (H := tally_renderer)
     (tagged ThreadA (plot_calls sample_ra) ++ tagged ThreadB (plot_calls sample_rb))
     sample_pyplot).2
  = [(ThreadA, [3; 1]%N); (ThreadB, [2; 1]%N)]
  ∧ (run_schedule (H := tally_renderer) (mixed_schedule sample_ra sample_rb) sample_pyplot).2
    = [(ThreadA, [1; 0]%N); (ThreadB, [4; 0]%N)].
Proof. by vm_compute. Qed.
