(* ===== verification/Handler.v ===== *)
(** * The request handler: [process_table], [load_data] and [index] of
    src/app.py

    A request runs in a [world]: the files, the lines printed so far and
    pyplot's state.  [io A] is a computation on the world that returns an
    [A] or raises; [io_try] is [try ... except Exception].

    What the program asks of pandas and of the operating system is the
    interface [Platform]: the separators of paths, [read_csv], [to_csv] and
    the text of an exception.  The theorems hold for every platform; the
    platform in memory at the end of the file runs the handler on
    examples.

    [process_table] reads the source, normalises labels and cells
    ([normalized]), writes the result beside the source ([processed_path],
    by [splitext]) and returns the path, or prints the error and returns
    [None].  [load_data] reads a file.  [index] is the handler of the
    route: the form is checked, the table processed, loaded and queried,
    and the answer is a call of [render_template] or a text.  Flask's
    routing, the form parsing and the templates are not modelled: a
    [request] holds the method and the fields, a [response] what the
    handler returns. *)

From S2P Require Import Prelude Unicode PyStr PyInt PyDict Frame Normalizer RankQuery Presenter Base64 Chart.

Implicit Types (p path : list N) (e : exn) (df : list (list N * series)).

(** ** Paths *)

Fixpoint find_last (c : N) (p : list N) (i : Z) (found : Z) : Z :=
  match p with
  | [] => found
  | d :: p' => find_last c p' (i + 1)%Z (if (d =? c)%N then i else found)
  end.

(** [p.rfind(c)] for a character [c]: the last position of [c], or -1. *)
Definition str_rfind (c : N) (p : list N) : Z := find_last c p 0 (-1).

(** [os.path.splitext(p)] with the separators [seps] of the platform
    (['/'] on POSIX, ['\'] and ['/'] on Windows). *)
Definition splitext (seps : list N) (p : list N) : list N * list N :=
  let sepIndex := foldr (λ sep i, Z.max (str_rfind sep p) i) (-1)%Z seps in
  let dotIndex := str_rfind 46 p in
  if (dotIndex >? sepIndex)%Z
     && negb (forallb (λ c, (c =? 46)%N) (py_slice p (sepIndex + 1) dotIndex))
  then (take (Z.to_nat dotIndex) p, drop (Z.to_nat dotIndex) p)
  else (p, []).

(** ** The world of a request *)

(** What the program asks of its platform: the separators of paths, the
    files ([read_csv] and [to_csv] of pandas on a state [fs] of the file
    system) and the text of an exception. *)
Class Platform : Type := {
  path_seps : list N;
  fs : Type;
  (** [pd.read_csv(path)] *)
  read_csv : list N → fs → pyres (list (list N * series));
  (** [df.to_csv(path, index=False)]: the new state of the files, also
      when the call fails *)
  to_csv : list (list N * series) → list N → fs → fs * pyres ();
  (** [str(e)] *)
  exn_text : exn → list N
}.

Section handler.
Context `{UnicodeDB} `{Renderer} `{Platform}.

Record world : Type := {
  w_fs : fs;
  w_stdout : list (list N);
  w_plt : pyplot
}.

(** The world after a line is printed, and with new files. *)
Definition printed (line : list N) (w : world) : world :=
  {| w_fs := w_fs w; w_stdout := w_stdout w ++ [line]; w_plt := w_plt w |}.

Definition with_fs (fs' : fs) (w : world) : world :=
  {| w_fs := fs'; w_stdout := w_stdout w; w_plt := w_plt w |}.

Definition with_plt (plt' : pyplot) (w : world) : world :=
  {| w_fs := w_fs w; w_stdout := w_stdout w; w_plt := plt' |}.

(** A computation that reads and changes the world and returns a value
    or raises. *)
Definition io (A : Type) : Type := world → world * pyres A.

Definition io_ret {A} (a : A) : io A := λ w, (w, Ok a).

Definition io_bind {A B} (m : io A) (k : A → io B) : io B :=
  λ w, match m w with
       | (w', Ok a) => k a w'
       | (w', Raise e) => (w', Raise e)
       end.

(** A value or an exception computed without the world. *)
Definition io_lift {A} (m : pyres A) : io A := λ w, (w, m).

(** [try: m  except Exception as e: h e] *)
Definition io_try {A} (m : io A) (h : exn → io A) : io A :=
  λ w, match m w with
       | (w', Ok a) => (w', Ok a)
       | (w', Raise e) => h e w'
       end.

(** [print(line)]: the line is added to the output; the model has no
    output stream that fails. *)
Definition io_print (line : list N) : io () :=
  λ w, (printed line w, Ok ()).

Definition io_read_csv path : io (list (list N * series)) :=
  λ w, (w, read_csv path (w_fs w)).

Definition io_to_csv df path : io () :=
  λ w, let '(fs', r) := to_csv df path (w_fs w) in
       (with_fs fs' w, r).

Definition io_plot (ranks : list (list N * Z)) : io (list N) :=
  λ w, let '(img, plt') := plot_rank_trend ranks (w_plt w) in
       (with_plt plt' w, Ok img).

End handler.

#[export] Instance io_mret `{Platform} : MRet io := @io_ret _.
#[export] Instance io_mbind `{Platform} : MBind io := λ A B k m, io_bind m k.

(** ** The messages *)

Definition msg_saved path : list N := lit "文件已处理并保存为: " ++ path.

Section messages.
Context `{Platform}.
Definition msg_process_error path e : list N :=
  lit "处理文件 " ++ path ++ lit " 时出错: " ++ exn_text e.
End messages.

Definition msg_process_failed : list N := lit "文件处理失败，请检查文件路径。".

(** ** Requests and responses *)

Record request : Type := {
  req_method : list N;
  (** the fields of the form, in the order they were sent *)
  req_form : list (list N * list N)
}.

(** An argument of a template. *)
Inductive template_value : Type :=
| TNone
| TStr (s : list N)
| TInt (z : Z).

(** What the handler returns: a call of [render_template], or a text. *)
Inductive response : Type :=
| RenderTemplate (name : list N) (args : list (list N * template_value))
| Body (text : list N).

(** [x] in a condition, for a string or [None]. *)
Definition truthy (x : option (list N)) : bool :=
  match x with
  | Some (_ :: _) => true
  | _ => false
  end.

Section handlers.
Context `{UnicodeDB} `{Renderer} `{Platform}.

(** ** [process_table] *)

(** The table [process_table] writes: the labels and the cells
    normalised ([df.map] as pandas 2.1 and later define it). *)
Definition normalized df : list (list N * series) :=
  let df := df_set_columns (process_header (df_columns df)) df in
  df_map process_cell df.

(** The path it writes to. *)
Definition processed_path (FILE_PATH : list N) : list N :=
  (splitext path_seps FILE_PATH).1 ++ lit "_processed.csv".

Definition process_table (FILE_PATH : list N) : io (option (list N)) :=
  io_try
    (df ← io_read_csv FILE_PATH;
     let df := normalized df in
     let output_path := processed_path FILE_PATH in
     _ ← io_to_csv df output_path;
     _ ← io_print (msg_saved output_path);
     mret (Some output_path))
    (λ e,
     _ ← io_print (msg_process_error FILE_PATH e);
     mret None).

(** ** [load_data] *)

Definition load_data (output_path : list N) : io (list (list N * series)) :=
  df ← io_read_csv output_path;
  mret df.

(** ** [index] *)

(** [int(x)] for a field of the form, which is a string or [None]. *)
Definition int_of_field (x : option (list N)) : pyres Z :=
  match x with
  | Some s => int_of_str s
  | None => Raise TypeError
  end.

(** [stock_code.isdigit() and len(stock_code) == 6] *)
Definition is_six_digits (stock_code : option (list N)) : pyres bool :=
  match stock_code with
  | Some s => Ok (str_isdigit s && bool_decide (length s = 6))
  | None => Raise AttributeError
  end.

Definition index (FILE_PATH : list N) (req : request) : io response :=
  if bool_decide (req_method req = lit "POST") then
    let stock_code := dict_get (lit "stock_code") (req_form req) in
    n_days ← io_lift (int_of_field (dict_get (lit "n_days") (req_form req)));
    valid ← io_lift (is_six_digits stock_code);
    if negb valid then
      mret (RenderTemplate (lit "index.html")
                [(lit "error_message", TStr msg_invalid_code); (lit "max_days", TNone)])
    else
    processed_file_path ← process_table FILE_PATH;
    if negb (truthy processed_file_path) then mret (Body msg_process_failed) else
    df ← load_data (default [] processed_file_path);
    '(result, error_message) ← io_lift (query_stock_rank df (default [] stock_code) n_days);
    if truthy error_message then
      mret (RenderTemplate (lit "index.html")
                [(lit "error_message", TStr (default [] error_message));
                 (lit "max_days", TInt (Z.of_nat (length (df_columns df)) - 1))])
    else
    match result with
    | None => io_lift (Raise AttributeError)
    | Some ranks =>
      img_base64 ← io_plot ranks;
      let rank_text := generate_rank_text ranks in
      mret (RenderTemplate (lit "result.html")
                [(lit "stock_code", TStr (default [] stock_code));
                 (lit "img_base64", TStr img_base64);
                 (lit "rank_text", TStr rank_text)])
    end
  else
    mret (RenderTemplate (lit "index.html") [(lit "max_days", TNone)]).

End handlers.

Lemma find_last_app c p q i found :
  find_last c (p ++ q) i found = find_last c q (i + Z.of_nat (length p)) (find_last c p i found).
Proof.
  revert i found. induction p as [|d p IH]; intros i found; simpl.
  - by rewrite Z.add_0_r.
  - rewrite IH. f_equal. lia.
Qed.

Lemma find_last_absent c p i found : c ∉ p → find_last c p i found = found.
Proof.
  revert i found. induction p as [|d p IH]; intros i found; [done|].
  intros [Hne Hp]%not_elem_of_cons. simpl.
  rewrite (proj2 (N.eqb_neq d c)) by done. by apply IH.
Qed.

Lemma find_last_ge c p i found :
  (found < i)%Z → (find_last c p i found = found ∨ i ≤ find_last c p i found)%Z.
Proof.
  revert i found. induction p as [|d p IH]; intros i found Hlt; simpl; [by left|].
  destruct (d =? c)%N.
  - destruct (IH (i + 1)%Z i) as [->|?]; lia.
  - destruct (IH (i + 1)%Z found) as [->|?]; lia.
Qed.

(** [p.rfind(c)] is -1 when [c] is not in [p], and otherwise the length of
    what stands before the last [c]. *)
Lemma str_rfind_spec c p :
  str_rfind c p = (-1)%Z
  ∨ ∃ u v, p = u ++ c :: v ∧ Z.of_nat (length u) = str_rfind c p ∧ c ∉ v.
Proof.
  unfold str_rfind. induction p as [|d p IH] using rev_ind; [by left|].
  rewrite find_last_app. simpl. destruct (N.eqb_spec d c) as [->|Hne].
  - right. exists p, []. split_and!; [done|lia|by apply not_elem_of_nil].
  - destruct IH as [->|(u & v & -> & Hlen & Hv)]; [by left|]. right.
    exists u, (v ++ [d]). rewrite <-(assoc_L (++)). split_and!; [done..|].
    rewrite not_elem_of_app, not_elem_of_cons. split_and!; [done..|apply not_elem_of_nil].
Qed.

Lemma sep_index_lb seps p :
  (-1 ≤ foldr (λ sep i, Z.max (str_rfind sep p) i) (-1) seps)%Z.
Proof. induction seps as [|sep seps IH]; simpl; lia. Qed.

(** [os.path.splitext] cuts a path in two without losing a character:
    the root followed by the extension is the path, and the extension is
    empty or begins with a dot, the last one of the path. *)
Lemma splitext_spec seps p :
  (splitext seps p).1 ++ (splitext seps p).2 = p
  ∧ ((splitext seps p).2 = [] ∨ ∃ ext, (splitext seps p).2 = 46%N :: ext ∧ 46%N ∉ ext).
Proof.
  unfold splitext. destruct (_ && _) eqn:E; simpl; [|by rewrite app_nil_r; auto].
  split; [apply take_drop|]. right.
  apply andb_true_iff in E as [Hdot%Z.gtb_lt _].
  pose proof (sep_index_lb seps p).
  destruct (str_rfind_spec 46 p) as [Hnone|(u & v & Hp & Hlen & Hv)]; [lia|].
  exists v. rewrite <-Hlen, Nat2Z.id, Hp. by rewrite drop_app_length.
Qed.

(** ** Lemmas *)

Section handler_theory.
Context `{UnicodeDB} `{Renderer} `{Platform}.
Implicit Types (w : world) (req : request) (FILE_PATH stock_code : list N).

Lemma io_bind_lift {A B} (m : pyres A) (k : A → io B) w :
  (io_lift m ≫= k) w = match m with Ok a => k a w | Raise e => (w, Raise e) end.
Proof. by destruct m. Qed.

Lemma io_bind_ret {A B} (a : A) (k : A → io B) w : (mret a ≫= k) w = k a w.
Proof. done. Qed.

Lemma io_bind_run {A B} (m : io A) (k : A → io B) w w' r :
  m w = (w', r) → (m ≫= k) w = match r with Ok a => k a w' | Raise e => (w', Raise e) end.
Proof. unfold mbind, io_mbind, io_bind. by intros ->. Qed.

(** [process_table] in terms of the two calls of pandas. *)
Lemma process_table_run FILE_PATH w :
  process_table FILE_PATH w =
  match read_csv FILE_PATH (w_fs w) with
  | Raise e => (printed (msg_process_error FILE_PATH e) w, Ok None)
  | Ok df =>
    match to_csv (normalized df) (processed_path FILE_PATH) (w_fs w) with
    | (fs', Ok _) =>
      (printed (msg_saved (processed_path FILE_PATH)) (with_fs fs' w),
       Ok (Some (processed_path FILE_PATH)))
    | (fs', Raise e) => (printed (msg_process_error FILE_PATH e) (with_fs fs' w), Ok None)
    end
  end.
Proof.
  unfold process_table, io_try, mbind, io_mbind, io_bind, io_read_csv, io_to_csv.
  destruct (read_csv FILE_PATH (w_fs w)) as [df|e]; [|done].
  by destruct (to_csv _ _ _) as [fs' [[]|e]].
Qed.

(** [load_data] reads the file and changes nothing. *)
Lemma load_data_run path w : load_data path w = (w, read_csv path (w_fs w)).
Proof.
  unfold load_data, mbind, io_mbind, io_bind, io_read_csv.
  by destruct (read_csv path (w_fs w)).
Qed.

Lemma processed_path_truthy FILE_PATH : truthy (Some (processed_path FILE_PATH)) = true.
Proof. unfold processed_path. by destruct (splitext path_seps FILE_PATH).1. Qed.

(** The normalised table, column by column: the label as [process_header]
    makes it, the cells as [process_cell] makes them. *)
Lemma normalized_columns df :
  normalized df
  = prod_map (λ col, str_strip (str_replace time_suffix [] col)) (series_map process_cell)
    <$> df.
Proof.
  unfold normalized, df_map, df_set_columns, process_header, df_columns.
  rewrite zip_fmap_fst_snd, <-list_fmap_compose. by apply list_fmap_ext; intros ? [].
Qed.

(** C14: the table [process_table] writes has the shape of the table
    it read: as many columns, in the same order, each with the label
    [process_header] gives it and the cells [process_cell] gives it, and as
    many rows; it is well formed when the table read is and the new labels
    are distinct. *)
Theorem normalized_shape df :
  df_wf df → NoDup (process_header (df_columns df)) →
  df_wf (normalized df)
  ∧ df_nrows (normalized df) = df_nrows df
  ∧ ∀ j label col, df !! j = Some (label, col) →
      normalized df !! j
      = Some (str_strip (str_replace time_suffix [] label), series_map process_cell col).
Proof.
  intros [_ Hlen] Hnd.
  assert (df_nrows (normalized df) = df_nrows df) as Hrows.
  { rewrite normalized_columns. destruct df as [|[l c] df]; [done|]. apply series_map_length. }
  assert (df_columns (normalized df) = process_header (df_columns df)) as Hcols.
  { rewrite normalized_columns. unfold df_columns, process_header.
    rewrite <-!list_fmap_compose. by apply list_fmap_ext. }
  split_and!; [split|done|].
  - by rewrite Hcols.
  - rewrite Hrows, normalized_columns, Forall_fmap. eapply Forall_impl; [done|].
    intros [l c] Hc. unfold compose. cbn [prod_map fst snd] in *.
    etrans; [apply series_map_length|done].
  - intros j label col Hj. by rewrite normalized_columns, list_lookup_fmap, Hj.
Qed.

(** C13: [process_table] raises nothing: whatever the files hold it
    returns, with no path or with the path of the processed file (the path
    of the source with [_processed.csv] in place of its extension), and it
    does not touch pyplot. *)
Theorem process_table_returns FILE_PATH w :
  ∃ w' r, process_table FILE_PATH w = (w', Ok r)
          ∧ w_plt w' = w_plt w
          ∧ (r = None ∨ r = Some (processed_path FILE_PATH)).
Proof.
  rewrite process_table_run. destruct (read_csv _ _) as [df|e]; [|by eauto 10].
  destruct (to_csv _ _ _) as [fs' [[]|e]]; by eauto 10.
Qed.

(** A request that is not a POST is answered with the form, and the world
    is left as it is. *)
Lemma index_get FILE_PATH req w :
  req_method req ≠ lit "POST" →
  index FILE_PATH req w
  = (w, Ok (RenderTemplate (lit "index.html") [(lit "max_days", TNone)])).
Proof. intros Hm. unfold index. by rewrite bool_decide_eq_false_2. Qed.

(** C26: [index] reads [n_days] with [int] before it looks at the
    stock code: when the field is missing ([TypeError]) or is no integer
    ([ValueError]) the handler raises that exception, whatever the code, and
    nothing has been read or written. *)
Theorem index_days_first FILE_PATH req w e :
  req_method req = lit "POST" →
  int_of_field (dict_get (lit "n_days") (req_form req)) = Raise e →
  index FILE_PATH req w = (w, Raise e).
Proof.
  intros Hm Hn. unfold index. rewrite bool_decide_eq_true_2 by done.
  by rewrite io_bind_lift, Hn.
Qed.

(** C9: a POST whose field n_days reads as an integer (the handler
    converts it first) and whose stock code is not six digits is answered
    with the form and the message that the code must be six digits, with no
    maximum of days, before any file is read or written: the world is left
    as it is. *)
Theorem index_invalid_code FILE_PATH req w n_days :
  req_method req = lit "POST" →
  int_of_field (dict_get (lit "n_days") (req_form req)) = Ok n_days →
  is_six_digits (dict_get (lit "stock_code") (req_form req)) = Ok false →
  index FILE_PATH req w
  = (w, Ok (RenderTemplate (lit "index.html")
              [(lit "error_message", TStr msg_invalid_code); (lit "max_days", TNone)])).
Proof.
  intros Hm Hn Hv. unfold index. rewrite bool_decide_eq_true_2 by done.
  by rewrite io_bind_lift, Hn, io_bind_lift, Hv.
Qed.

(** The handler on a request that passes the checks of the form. *)
Lemma index_valid FILE_PATH req w n_days stock_code :
  req_method req = lit "POST" →
  int_of_field (dict_get (lit "n_days") (req_form req)) = Ok n_days →
  dict_get (lit "stock_code") (req_form req) = Some stock_code →
  str_isdigit stock_code = true → length stock_code = 6 →
  index FILE_PATH req w =
  match process_table FILE_PATH w with
  | (w1, Ok (Some path)) =>
    match read_csv (processed_path FILE_PATH) (w_fs w1) with
    | Raise e => (w1, Raise e)
    | Ok df =>
      match query_stock_rank df stock_code n_days with
      | Raise e => (w1, Raise e)
      | Ok (result, error_message) =>
        if truthy error_message then
          (w1, Ok (RenderTemplate (lit "index.html")
                     [(lit "error_message", TStr (default [] error_message));
                      (lit "max_days", TInt (Z.of_nat (length (df_columns df)) - 1))]))
        else
        match result with
        | None => (w1, Raise AttributeError)
        | Some ranks =>
          (w1, Ok (RenderTemplate (lit "result.html")
                     [(lit "stock_code", TStr stock_code);
                      (lit "img_base64",
                       TStr (b64encode (render_png (plt_rc (w_plt w1)) (rank_figure ranks))));
                      (lit "rank_text", TStr (generate_rank_text ranks))]))
        end
      end
    end
  | (w1, Ok None) => (w1, Ok (Body msg_process_failed))
  | (w1, Raise e) => (w1, Raise e)
  end.
Proof.
  intros Hm Hn Hcode Hd Hlen. unfold index. rewrite bool_decide_eq_true_2 by done.
  rewrite io_bind_lift, Hn, Hcode, io_bind_lift. cbn [is_six_digits].
  rewrite Hd, (bool_decide_eq_true_2 _ Hlen). cbn [andb negb].
  destruct (process_table FILE_PATH w) as [w1 r] eqn:Hpt.
  rewrite (io_bind_run _ _ _ _ _ Hpt).
  assert (∃ o, r = Ok o ∧ (o = None ∨ o = Some (processed_path FILE_PATH))) as (o & -> & Hr).
  { rewrite process_table_run in Hpt. repeat case_match; simplify_eq; eauto. }
  destruct Hr as [->| ->]; [reflexivity|]. rewrite processed_path_truthy. cbn [negb default from_option id].
  rewrite (io_bind_run _ _ _ _ _ (load_data_run _ w1)).
  destruct (read_csv _ _) as [df|e]; [|reflexivity].
  rewrite io_bind_lift. destruct (query_stock_rank _ _ _) as [[result err]|e]; [|reflexivity].
  destruct (truthy err); [reflexivity|]. destruct result as [ranks|]; [|reflexivity].
  unfold mbind, io_mbind, io_bind, io_plot. rewrite plot_rank_trend_spec.
  by destruct w1 as [? ? []].
Qed.

Lemma is_six_digits_true (field : option (list N)) :
  is_six_digits field = Ok true →
  ∃ s, field = Some s ∧ str_isdigit s = true ∧ length s = 6.
Proof.
  destruct field as [s|]; [|done]. intros [= [? ?%bool_decide_eq_true]%andb_true_iff].
  by exists s.
Qed.

Section valid_request.
Context (FILE_PATH : list N) (req : request) (w : world) (n_days : Z) (stock_code : list N).
Hypotheses (Hmethod : req_method req = lit "POST")
  (Hdays : int_of_field (dict_get (lit "n_days") (req_form req)) = Ok n_days)
  (Hcode : dict_get (lit "stock_code") (req_form req) = Some stock_code)
  (Hdigits : str_isdigit stock_code = true) (Hlen : length stock_code = 6).

(** C27: when the source file cannot be read, a POST with a valid
    form is answered with the text that processing failed; the error is
    printed with the path of the file, and no file is written. *)
Theorem index_process_failed e :
  read_csv FILE_PATH (w_fs w) = Raise e →
  index FILE_PATH req w
  = (printed (msg_process_error FILE_PATH e) w, Ok (Body msg_process_failed)).
Proof.
  intros Hread. rewrite (index_valid _ _ _ n_days stock_code) by done.
  by rewrite process_table_run, Hread.
Qed.

Context (raw df : list (list N * series)) (fs' : fs).
Hypotheses (Hread : read_csv FILE_PATH (w_fs w) = Ok raw)
  (Hwrite : to_csv (normalized raw) (processed_path FILE_PATH) (w_fs w) = (fs', Ok ()))
  (Hload : read_csv (processed_path FILE_PATH) fs' = Ok df).

Lemma index_loaded :
  index FILE_PATH req w =
  let w1 := printed (msg_saved (processed_path FILE_PATH)) (with_fs fs' w) in
  match query_stock_rank df stock_code n_days with
  | Raise e => (w1, Raise e)
  | Ok (result, error_message) =>
    if truthy error_message then
      (w1, Ok (RenderTemplate (lit "index.html")
                 [(lit "error_message", TStr (default [] error_message));
                  (lit "max_days", TInt (Z.of_nat (length (df_columns df)) - 1))]))
    else
    match result with
    | None => (w1, Raise AttributeError)
    | Some ranks =>
      (w1, Ok (RenderTemplate (lit "result.html")
                 [(lit "stock_code", TStr stock_code);
                  (lit "img_base64",
                   TStr (b64encode (render_png (plt_rc (w_plt w)) (rank_figure ranks))));
                  (lit "rank_text", TStr (generate_rank_text ranks))]))
    end
  end.
Proof.
  rewrite (index_valid _ _ _ n_days stock_code) by done.
  rewrite process_table_run, Hread, Hwrite. cbn [printed with_fs w_fs w_plt].
  by rewrite Hload.
Qed.

(** C2: a POST with a valid form, on files that are read, written and
    read back, and a query that returns ranks, is answered with the template
    [result.html], the code as it was sent, the base64 text of the chart of
    those ranks and their text; the world has the processed file and one
    line of output more. *)
Theorem index_success ranks :
  query_stock_rank df stock_code n_days = Ok (Some ranks, None) →
  index FILE_PATH req w
  = (printed (msg_saved (processed_path FILE_PATH)) (with_fs fs' w),
     Ok (RenderTemplate (lit "result.html")
           [(lit "stock_code", TStr stock_code);
            (lit "img_base64",
             TStr (b64encode (render_png (plt_rc (w_plt w)) (rank_figure ranks))));
            (lit "rank_text", TStr (generate_rank_text ranks))])).
Proof. intros Hq. by rewrite index_loaded, Hq. Qed.

(** C28: when the query returns a message, the POST is answered with
    the form, that message, and the maximum of days [len(df.columns) - 1] of
    the table read back. *)
Theorem index_query_error message :
  query_stock_rank df stock_code n_days = Ok (None, Some message) → message ≠ [] →
  index FILE_PATH req w
  = (printed (msg_saved (processed_path FILE_PATH)) (with_fs fs' w),
     Ok (RenderTemplate (lit "index.html")
           [(lit "error_message", TStr message);
            (lit "max_days", TInt (Z.of_nat (length (df_columns df)) - 1))])).
Proof. intros Hq Hm. rewrite index_loaded, Hq. by destruct message. Qed.

(** C29: an exception of the query ([IndexError] for a missing
    value, [KeyError] without the identifier column) is not caught by
    [index]: the handler raises it, after the processed file was written. *)
Theorem index_query_raises e :
  query_stock_rank df stock_code n_days = Raise e →
  index FILE_PATH req w
  = (printed (msg_saved (processed_path FILE_PATH)) (with_fs fs' w), Raise e).
Proof. intros Hq. by rewrite index_loaded, Hq. Qed.
End valid_request.
End handler_theory.

(** ** A platform in memory, for the examples

    The files are tables kept by path; a table read back has its columns
    of decimal integers as integer columns, as the CSV reader gives them.
    The renderer draws nothing. *)

Definition csv_int (s : list N) : option Z :=
  match s with
  | 45%N :: ds =>
    if all_ascii_digits ds && negb (bool_decide (ds = []))
    then Some (- Z.of_N (digits_value ds))%Z else None
  | ds =>
    if all_ascii_digits ds && negb (bool_decide (ds = []))
    then Some (Z.of_N (digits_value ds)) else None
  end.

Definition infer_series (s : series) : series :=
  match s with
  | ObjSeries xs =>
    match mapM (λ o, o ≫= csv_int) xs with
    | Some zs => IntSeries zs
    | None => s
    end
  | _ => s
  end.

#[export] Instance mem_platform : Platform := {|
  path_seps := [47%N];
  fs := list (list N * list (list N * series));
  read_csv path files :=
    match dict_get path files with
    | Some df => Ok (prod_map id infer_series <$> df)
    | None => Raise OSError
    end;
  to_csv df path files := (dict_set path df files, Ok ());
  exn_text _ := lit "No such file or directory"
|}.

#[export] Program Instance null_renderer : Renderer := {| render_png _ _ := [] |}.
Next Obligation. constructor. Qed.

(** The path of the source, and a world with a table there. *)
Definition FILE_PATH : list N := lit "C:\程序化\pycharm\rf_predict2.csv".

Definition sample_raw : list (list N * series) :=
  [ (lit "d1 00:00:00", IntSeries [10; 3; 7]%Z);
    (lit "d2 00:00:00", IntSeries [5; 9; 2]%Z);
    (lit "new_predict", ObjSeries [Some (lit "1.SH"); Some (lit "2.SZ"); Some (lit "600000.SH")]) ].

Definition sample_plt : pyplot :=
  {| plt_rc := init_rcparams {| rc_font_sans_serif := []; rc_unicode_minus := true |};
     plt_figures := [] |}.

Definition sample_world : world :=
  {| w_fs := [(FILE_PATH, sample_raw)]; w_stdout := []; w_plt := sample_plt |}.

Definition sample_request (stock_code n_days : list N) : request :=
  {| req_method := lit "POST";
     req_form := [(lit "stock_code", stock_code); (lit "n_days", n_days)] |}.

Definition empty_world : world :=
  {| w_fs := []; w_stdout := []; w_plt := sample_plt |}.

(** A table without the identifier column. *)
Definition no_id_world : world :=
  {| w_fs := [(FILE_PATH, take 2 sample_raw)]; w_stdout := []; w_plt := sample_plt |}.

(** ** The theorems on the examples *)

Lemma normalized_shape_witness :
  df_wf (normalized (H := unicode14_db) sample_raw)
  ∧ df_nrows (normalized (H := unicode14_db) sample_raw) = df_nrows sample_raw
  ∧ ∀ j label col, sample_raw !! j = Some (label, col) →
      normalized (H := unicode14_db) sample_raw !! j
      = Some (str_strip (H := unicode14_db) (str_replace time_suffix [] label),
              series_map (process_cell (H := unicode14_db)) col).
Proof. apply normalized_shape; compute_done. Defined.

Lemma index_days_first_witness :
  index (H := unicode14_db) FILE_PATH (sample_request (lit "12") (lit "two")) sample_world
  = (sample_world, Raise ValueError).
Proof. apply index_days_first; compute_done. Defined.

Lemma index_invalid_code_witness :
  index (H := unicode14_db) FILE_PATH (sample_request (lit "12345") (lit "2")) sample_world
  = (sample_world,
     Ok (RenderTemplate (lit "index.html")
           [(lit "error_message", TStr msg_invalid_code); (lit "max_days", TNone)])).
Proof. apply (index_invalid_code _ _ _ 2); compute_done. Defined.

Lemma index_process_failed_witness :
  index (H := unicode14_db) FILE_PATH (sample_request (lit "000001") (lit "2")) empty_world
  = (printed (msg_process_error FILE_PATH OSError) empty_world, Ok (Body msg_process_failed)).
Proof. apply (index_process_failed _ _ _ 2 (lit "000001")); compute_done. Defined.

Lemma index_success_witness :
  index (H := unicode14_db) FILE_PATH (sample_request (lit "000001") (lit "2")) sample_world
  = (printed (msg_saved (processed_path FILE_PATH))
       (with_fs (dict_set (processed_path FILE_PATH) (normalized (H := unicode14_db) sample_raw)
                   (w_fs sample_world)) sample_world),
     Ok (RenderTemplate (lit "result.html")
           [(lit "stock_code", TStr (lit "000001"));
            (lit "img_base64",
             TStr (b64encode (render_png (plt_rc (w_plt sample_world))
                                (rank_figure sample_ranks))));
            (lit "rank_text", TStr (generate_rank_text sample_ranks))])).
Proof.
  apply (index_success _ _ _ 2 (lit "000001")) with (raw := sample_raw) (df := sample_df);
    compute_done.
Defined.

Lemma index_query_error_witness :
  index (H := unicode14_db) FILE_PATH (sample_request (lit "000001") (lit "5")) sample_world
  = (printed (msg_saved (processed_path FILE_PATH))
       (with_fs (dict_set (processed_path FILE_PATH) (normalized (H := unicode14_db) sample_raw)
                   (w_fs sample_world)) sample_world),
     Ok (RenderTemplate (lit "index.html")
           [(lit "error_message", TStr (msg_exceeds 2));
            (lit "max_days", TInt (Z.of_nat (length (df_columns sample_df)) - 1))])).
Proof.
  apply (index_query_error _ _ _ 5 (lit "000001")) with (raw := sample_raw);
    compute_done.
Defined.

Lemma index_query_raises_witness :
  index (H := unicode14_db) FILE_PATH (sample_request (lit "000001") (lit "1")) no_id_world
  = (printed (msg_saved (processed_path FILE_PATH))
       (with_fs (dict_set (processed_path FILE_PATH)
                   (normalized (H := unicode14_db) (take 2 sample_raw))
                   (w_fs no_id_world)) no_id_world),
     Raise KeyError).
Proof.
  apply (index_query_raises _ _ _ 1 (lit "000001")) with (raw := take 2 sample_raw)
    (df := take 2 sample_df); compute_done.
Defined.

(** The path [process_table] writes to, for the path of the source. *)
Example processed_path_example :
  processed_path FILE_PATH = lit "C:\程序化\pycharm\rf_predict2_processed.csv".
Proof. reflexivity. Qed.
