(* ===== verification/Server.v ===== *)
(** * The server: sequences of requests

    Flask calls [index] once for every request, on the world the requests
    before it have left.  This file is about what a sequence of requests can
    and cannot do to that world.

    - [preserves I m] says the computation [m] takes every world to one
      related to it by [I]; the lemmas on [mret], bind, [io_lift] and
      [io_try] make it compositional.  An [Invariant] is a preorder that
      the four effects of the program preserve: [print], [to_csv] on the
      processed path, [read_csv] (which changes nothing) and the chart.
      [index_preserves] shows the handler preserves every invariant.
    - [reachable] is the step relation of the server, and [serve] runs a
      list of requests; [reachable_invariant] is the rule induction.
    - The invariants: pyplot is as it was ([same_plt]), the output only
      grows ([stdout_grows]), and every file but the processed one is as it
      was ([files_kept]).  The last needs to know what the files of the
      platform are: [FileSystem] gives the content of a file by its path
      and three laws of [read_csv] and [to_csv].
    - From them: the source is never changed, and a request is answered as
      it would have been as the first one ([serve_stateless]). *)

From S2P Require Import Prelude Unicode PyStr PyInt PyDict Frame Normalizer RankQuery Presenter Base64 Chart Handler.

(** ** The files of a platform

    [fs_file s p] is the content of the file at [p].  Writing to a path
    changes no other file; whether it succeeds, and what the file holds
    afterwards, does not depend on what it held before; and reading a path
    depends on the content of that file only. *)
Class FileSystem `{Platform} : Type := {
  file : Type;
  fs_file : fs → list N → option file;
  to_csv_frame df p q s : q ≠ p → fs_file (to_csv df p s).1 q = fs_file s q;
  to_csv_overwrite df p s s' :
    (∀ q, q ≠ p → fs_file s q = fs_file s' q) →
    (to_csv df p s).2 = (to_csv df p s').2
    ∧ fs_file (to_csv df p s).1 p = fs_file (to_csv df p s').1 p;
  read_csv_file p s s' : fs_file s p = fs_file s' p → read_csv p s = read_csv p s'
}.

Section server.
Context `{UnicodeDB} `{Renderer} `{Platform}.
Implicit Types (w : world) (req : request) (FILE_PATH p q : list N).

(** ** Relations the handler preserves *)

Definition preserves {A} (I : relation world) (m : io A) : Prop := ∀ w, I w (m w).1.

Class Invariant FILE_PATH (I : relation world) : Prop := {
  inv_preorder :: PreOrder I;
  inv_print line : preserves I (io_print line);
  inv_to_csv df : preserves I (io_to_csv df (processed_path FILE_PATH));
  inv_plot ranks : preserves I (io_plot ranks)
}.

(** ** The step relation *)

(** The worlds the server can be in after it started in [w0]. *)
Inductive reachable FILE_PATH (w0 : world) : world → Prop :=
| reachable_start : reachable FILE_PATH w0 w0
| reachable_step w req :
    reachable FILE_PATH w0 w → reachable FILE_PATH w0 (index FILE_PATH req w).1.

(** The answers to a list of requests, served one after the other. *)
Fixpoint serve FILE_PATH (reqs : list request) (w : world) : world * list (pyres response) :=
  match reqs with
  | [] => (w, [])
  | req :: reqs' =>
    let '(w', r) := index FILE_PATH req w in
    let '(w'', rs) := serve FILE_PATH reqs' w' in
    (w'', r :: rs)
  end.

(** ** The invariants *)

Definition same_plt : relation world := λ w w', w_plt w' = w_plt w.

Definition stdout_grows : relation world := λ w w', w_stdout w `prefix_of` w_stdout w'.

Definition files_kept `{!FileSystem} p : relation world :=
  λ w w', ∀ q, q ≠ p → fs_file (w_fs w') q = fs_file (w_fs w) q.

(** ** [preserves] is compositional *)

Section preserves.
Context (I : relation world) `{!PreOrder I}.

Lemma preserves_ret {A} (a : A) : preserves I (mret a : io A).
Proof. intros w. reflexivity. Qed.

Lemma preserves_lift {A} (m : pyres A) : preserves I (io_lift m).
Proof. intros w. reflexivity. Qed.

Lemma preserves_read_csv path : preserves I (io_read_csv path).
Proof. intros w. reflexivity. Qed.

Lemma preserves_bind {A B} (m : io A) (k : A → io B) :
  preserves I m → (∀ a, preserves I (k a)) → preserves I (m ≫= k).
Proof.
  intros Hm Hk w. unfold mbind, io_mbind, io_bind.
  specialize (Hm w). destruct (m w) as [w' [a|e]]; [|done].
  etrans; [exact Hm|apply Hk].
Qed.

Lemma preserves_try {A} (m : io A) (h : exn → io A) :
  preserves I m → (∀ e, preserves I (h e)) → preserves I (io_try m h).
Proof.
  intros Hm Hh w. unfold io_try.
  specialize (Hm w). destruct (m w) as [w' [a|e]]; [done|].
  etrans; [exact Hm|apply Hh].
Qed.

End preserves.

(** One step of a proof that a computation preserves an invariant, by the
    shape of the computation. *)
Ltac preserves_step :=
  first
    [ apply (preserves_bind _); [|intros ?]
    | apply (preserves_try _); [|intros ?]
    | apply (preserves_ret _)
    | apply (preserves_lift _)
    | apply (preserves_read_csv _)
    | apply inv_print
    | apply inv_to_csv
    | apply inv_plot
    | case_match ].

Section invariant.
Context FILE_PATH (I : relation world) `{!Invariant FILE_PATH I}.

Lemma process_table_preserves : preserves I (process_table FILE_PATH).
Proof. unfold process_table. repeat preserves_step. Qed.

Lemma index_preserves req : preserves I (index FILE_PATH req).
Proof. unfold index. repeat preserves_step. Qed.

(** Rule induction: an invariant holds between the first world and every
    world the server reaches. *)
Lemma reachable_invariant w0 w : reachable FILE_PATH w0 w → I w0 w.
Proof.
  induction 1 as [|w req _ IH]; [reflexivity|].
  etrans; [exact IH|by apply index_preserves].
Qed.

End invariant.

Lemma reachable_trans FILE_PATH w0 w1 w2 :
  reachable FILE_PATH w0 w1 → reachable FILE_PATH w1 w2 → reachable FILE_PATH w0 w2.
Proof. intros H01 H12. induction H12; [done|by constructor]. Qed.

Lemma reachable_index FILE_PATH req w w' r :
  index FILE_PATH req w = (w', r) → reachable FILE_PATH w w'.
Proof.
  intros Hi. change w' with (w', r).1. rewrite <-Hi. apply reachable_step, reachable_start.
Qed.

(** The world [serve] ends in is one the server reaches. *)
Lemma serve_reachable FILE_PATH reqs w : reachable FILE_PATH w (serve FILE_PATH reqs w).1.
Proof.
  revert w. induction reqs as [|req reqs IH]; intros w; simpl; [constructor|].
  destruct (index FILE_PATH req w) as [w' r] eqn:Hi.
  specialize (IH w'). destruct (serve FILE_PATH reqs w') as [w'' rs].
  eapply reachable_trans; [by eapply reachable_index|exact IH].
Qed.

#[export] Instance same_plt_invariant FILE_PATH : Invariant FILE_PATH same_plt.
Proof.
  split.
  - split; [by intros w|intros w1 w2 w3; unfold same_plt; congruence].
  - by intros line w.
  - intros df w. unfold io_to_csv. by destruct (to_csv _ _ _).
  - intros ranks w. unfold io_plot, same_plt. by rewrite plot_rank_trend_spec.
Qed.

#[export] Instance stdout_grows_invariant FILE_PATH : Invariant FILE_PATH stdout_grows.
Proof.
  split.
  - split; [intros w|intros w1 w2 w3]; unfold stdout_grows; [reflexivity|apply transitivity].
  - intros line w. unfold stdout_grows. simpl. by apply prefix_app_r.
  - intros df w. unfold io_to_csv, stdout_grows. by destruct (to_csv _ _ _).
  - intros ranks w. unfold io_plot, stdout_grows. by destruct (plot_rank_trend _ _).
Qed.

End server.

(** ** The files *)

Section files.
Context `{UnicodeDB} `{Renderer} `{Platform} `{!FileSystem}.
Implicit Types (w : world) (req : request) (FILE_PATH p q : list N).

#[export] Instance files_kept_invariant FILE_PATH :
  Invariant FILE_PATH (files_kept (processed_path FILE_PATH)).
Proof.
  split.
  - split; [by intros w|]. intros w1 w2 w3 H12 H23 q Hq. by rewrite H23, H12.
  - by intros line w.
  - intros df w q Hq. unfold io_to_csv.
    pose proof (to_csv_frame df (processed_path FILE_PATH) q (w_fs w) Hq) as Hf.
    by destruct (to_csv _ _ _).
  - intros ranks w q Hq. unfold io_plot. by destruct (plot_rank_trend _ _).
Qed.

(** The processed file is never the source: its name ends in
    [_processed.csv] where the source has its extension, which is empty or
    begins with a dot. *)
Lemma processed_path_ne FILE_PATH : FILE_PATH ≠ processed_path FILE_PATH.
Proof.
  unfold processed_path. intros Heq.
  destruct (splitext_spec path_seps FILE_PATH) as [Hjoin Hext].
  rewrite <-Hjoin in Heq at 1. apply app_inv_head in Heq.
  destruct Hext as [Hext|(ext & Hext & _)]; by rewrite Hext in Heq.
Qed.

(** Two worlds that differ in the processed file and the output only. *)
Definition similar FILE_PATH : relation world :=
  λ w w', same_plt w w' ∧ files_kept (processed_path FILE_PATH) w w'.

Lemma reachable_similar FILE_PATH w0 w : reachable FILE_PATH w0 w → similar FILE_PATH w0 w.
Proof.
  intros Hr. split.
  - by apply (reachable_invariant FILE_PATH same_plt).
  - by apply (reachable_invariant FILE_PATH (files_kept (processed_path FILE_PATH))).
Qed.

(** [process_table] returns the same in similar worlds, and leaves them
    similar, with one processed file when it returns a path. *)
Lemma process_table_similar FILE_PATH w w' :
  similar FILE_PATH w w' →
  ∃ r w1 w1', process_table FILE_PATH w = (w1, Ok r)
    ∧ process_table FILE_PATH w' = (w1', Ok r)
    ∧ w_plt w1' = w_plt w1
    ∧ (r ≠ None → read_csv (processed_path FILE_PATH) (w_fs w1')
                  = read_csv (processed_path FILE_PATH) (w_fs w1)).
Proof.
  intros [Hplt Hfiles]. rewrite !process_table_run.
  rewrite (read_csv_file FILE_PATH (w_fs w') (w_fs w))
    by apply Hfiles, processed_path_ne.
  destruct (read_csv FILE_PATH (w_fs w)) as [df|e];
    [|do 3 eexists; split_and!; [reflexivity..|exact Hplt|done]].
  destruct (to_csv_overwrite (normalized df) (processed_path FILE_PATH) (w_fs w') (w_fs w))
    as [Hr Hp]; [done|].
  destruct (to_csv _ _ (w_fs w')) as [s' r'], (to_csv _ _ (w_fs w)) as [s r].
  simpl in Hr, Hp. subst r'.
  destruct r as [[]|e]; do 3 eexists; (split_and!; [reflexivity..|exact Hplt|]); [|done].
  intros _. by apply read_csv_file.
Qed.

(** A request either fails the checks of the form, and is answered
    without a look at the world, or passes them. *)
Lemma index_form_cases FILE_PATH req :
  (∃ r, ∀ w, index FILE_PATH req w = (w, r))
  ∨ ∃ n_days stock_code,
      req_method req = lit "POST"
      ∧ int_of_field (dict_get (lit "n_days") (req_form req)) = Ok n_days
      ∧ dict_get (lit "stock_code") (req_form req) = Some stock_code
      ∧ str_isdigit stock_code = true ∧ length stock_code = 6.
Proof.
  destruct (decide (req_method req = lit "POST")) as [Hm|Hm];
    [|left; eexists; intros w; by apply index_get].
  destruct (int_of_field (dict_get (lit "n_days") (req_form req))) as [n_days|e] eqn:Hn.
  - destruct (is_six_digits (dict_get (lit "stock_code") (req_form req))) as [[]|e] eqn:Hv.
    + apply is_six_digits_true in Hv as (s & ? & ? & ?). right. by exists n_days, s.
    + left. eexists. intros w. unfold index. rewrite bool_decide_eq_true_2 by done.
      by rewrite io_bind_lift, Hn, io_bind_lift, Hv.
    + left. eexists. intros w. unfold index. rewrite bool_decide_eq_true_2 by done.
      by rewrite io_bind_lift, Hn, io_bind_lift, Hv.
  - left. eexists. intros w. unfold index. rewrite bool_decide_eq_true_2 by done.
    by rewrite io_bind_lift, Hn.
Qed.

(** The answer to a request is the same in similar worlds. *)
Lemma index_similar FILE_PATH req w w' :
  similar FILE_PATH w w' → (index FILE_PATH req w').2 = (index FILE_PATH req w).2.
Proof.
  intros Hsim.
  destruct (index_form_cases FILE_PATH req) as [[r Hr]|(n_days & s & ? & ? & ? & ? & ?)];
    [by rewrite !Hr|].
  rewrite !(index_valid _ _ _ n_days s) by done.
  destruct (process_table_similar _ _ _ Hsim) as (r & w1 & w1' & -> & -> & Hplt & Hread).
  destruct r as [path|]; [|done]. rewrite Hread, Hplt by done.
  by repeat case_match.
Qed.

#[export] Instance similar_equivalence FILE_PATH : Equivalence (similar FILE_PATH).
Proof.
  unfold similar, same_plt, files_kept. split.
  - by intros w.
  - intros w w' [Hplt Hfiles]. split; [done|]. intros q Hq. by rewrite Hfiles.
  - intros w1 w2 w3 [Hp12 Hf12] [Hp23 Hf23]. split; [congruence|].
    intros q Hq. by rewrite Hf23, Hf12.
Qed.

(** A request leaves the world similar to what it was. *)
Lemma index_similar_world FILE_PATH req w : similar FILE_PATH w (index FILE_PATH req w).1.
Proof.
  split.
  - apply (index_preserves FILE_PATH same_plt).
  - apply (index_preserves FILE_PATH (files_kept (processed_path FILE_PATH))).
Qed.

(** The handler respects similarity: in similar worlds it gives one answer
    and leaves similar worlds. *)
#[export] Instance index_proper FILE_PATH req :
  Proper (similar FILE_PATH ==> prod_relation (similar FILE_PATH) (=)) (index FILE_PATH req).
Proof.
  intros w w' Hsim. split; [|symmetry; by apply index_similar].
  rewrite <-(index_similar_world FILE_PATH req w), <-(index_similar_world FILE_PATH req w').
  exact Hsim.
Qed.

#[export] Instance serve_proper FILE_PATH reqs :
  Proper (similar FILE_PATH ==> prod_relation (similar FILE_PATH) (=)) (serve FILE_PATH reqs).
Proof.
  induction reqs as [|req reqs IH]; intros w w' Hsim; [by split|]. cbn [serve].
  destruct (index_proper FILE_PATH req w w' Hsim) as [Hw Hr].
  destruct (index FILE_PATH req w) as [w1 r], (index FILE_PATH req w') as [w1' r'].
  destruct (IH w1 w1' Hw) as [Hw2 Hrs].
  destruct (serve FILE_PATH reqs w1) as [w2 rs], (serve FILE_PATH reqs w1') as [w2' rs'].
  simpl in *. split; [done|]. simpl. congruence.
Qed.

(** The answers of [serve] are the answers its first world gives. *)
Lemma serve_answers FILE_PATH reqs w :
  (serve FILE_PATH reqs w).2 = (λ req, (index FILE_PATH req w).2) <$> reqs.
Proof.
  revert w. induction reqs as [|req reqs IH]; intros w; [done|]. cbn [serve].
  pose proof (index_similar_world FILE_PATH req w) as Hsim.
  destruct (index FILE_PATH req w) as [w1 r] eqn:Hi. simpl in Hsim.
  destruct (serve_proper FILE_PATH reqs w w1 Hsim) as [_ Hrs]. rewrite (IH w) in Hrs.
  destruct (serve FILE_PATH reqs w1) as [w2 rs] eqn:Hs. cbn [snd fmap list_fmap] in *.
  rewrite Hi. by f_equal.
Qed.

(** C22: whatever requests the server has answered, pyplot is as it
    was when it started (no figure is left open and the settings are
    unchanged), and what had been printed is still the beginning of the
    output; this holds when requests fail and when they raise. *)
Theorem served_pyplot FILE_PATH w0 w :
  reachable FILE_PATH w0 w → w_plt w = w_plt w0 ∧ w_stdout w0 `prefix_of` w_stdout w.
Proof.
  intros Hr. split.
  - by apply (reachable_invariant FILE_PATH same_plt).
  - by apply (reachable_invariant FILE_PATH stdout_grows).
Qed.

(** C15: the server never changes the source file, nor any file but
    the processed one: in every world it reaches, each of them holds what it
    held at the start, and [read_csv] of the source gives what it gave, on
    every platform whose files obey the laws of [FileSystem]. *)
Theorem served_source_kept FILE_PATH w0 w :
  reachable FILE_PATH w0 w →
  (∀ q, q ≠ processed_path FILE_PATH → fs_file (w_fs w) q = fs_file (w_fs w0) q)
  ∧ read_csv FILE_PATH (w_fs w) = read_csv FILE_PATH (w_fs w0).
Proof.
  intros [_ Hfiles]%reachable_similar. split; [done|].
  apply read_csv_file, Hfiles, processed_path_ne.
Qed.

(** C11: the server keeps nothing from one request to the next: each
    request of a sequence is answered as it would have been had it been the
    first, whatever the requests before it did to the files and the
    output, on every platform whose files obey the laws of [FileSystem]. *)
Theorem serve_stateless FILE_PATH reqs w0 :
  (serve FILE_PATH reqs w0).2 = (λ req, (index FILE_PATH req w0).2) <$> reqs.
Proof. apply serve_answers. Qed.

End files.

(** ** The files of the platform in memory *)

#[export] Instance mem_files : FileSystem (H := mem_platform).
Proof.
  refine {| file := list (list N * series); fs_file s p := dict_get p s |}.
  - intros df p q s Hq. by apply dict_get_set_ne.
  - intros df p s s' _. split; [done|]. simpl. by rewrite !dict_get_set_eq.
  - intros p s s' Hp. simpl. by rewrite Hp.
Defined.

(** ** The theorems on the examples *)

(** Two requests for the ranks of the first stock, one with a code that is
    not in the table between them. *)
Definition sample_requests : list request :=
  [ sample_request (lit "000001") (lit "2");
    sample_request (lit "000009") (lit "2");
    sample_request (lit "000001") (lit "1") ].

Definition sample_served : world :=
  (serve (H := unicode14_db) FILE_PATH sample_requests sample_world).1.

Lemma served_pyplot_witness :
  w_plt sample_served = w_plt sample_world
  ∧ w_stdout sample_world `prefix_of` w_stdout sample_served.
Proof. apply (served_pyplot (H := unicode14_db) FILE_PATH), serve_reachable. Defined.

Lemma served_source_kept_witness :
  (∀ q, q ≠ processed_path FILE_PATH
        → fs_file (w_fs sample_served) q = fs_file (w_fs sample_world) q)
  ∧ read_csv FILE_PATH (w_fs sample_served) = read_csv FILE_PATH (w_fs sample_world).
Proof. apply (served_source_kept (H := unicode14_db) FILE_PATH), serve_reachable. Defined.

(** The three answers: the ranks, the message, the ranks of one day. *)
Example serve_sample :
  (serve (H := unicode14_db) FILE_PATH sample_requests sample_world).2
  = [ Ok (RenderTemplate (lit "result.html")
            [(lit "stock_code", TStr (lit "000001")); (lit "img_base64", TStr []);
             (lit "rank_text", TStr (generate_rank_text [(lit "d1", 1%Z); (lit "d2", 2%Z)]))]);
      Ok (RenderTemplate (lit "index.html")
            [(lit "error_message", TStr msg_not_found); (lit "max_days", TInt 2)]);
      Ok (RenderTemplate (lit "result.html")
            [(lit "stock_code", TStr (lit "000001")); (lit "img_base64", TStr []);
             (lit "rank_text", TStr (generate_rank_text [(lit "d2", 2%Z)]))]) ].
Proof. reflexivity. Qed.
